(** * Defect-detection backend

    A shallow embedding of the decision pipeline of the repository:
    [processors/image_processor.py] (single image and folder batch),
    [api_server.py] (HTTP handlers and the response formatter) and
    [main.py] (the detector facade and its thresholds).

    Python dictionaries that the code builds with fixed keys and hands from
    one function to the next are records; values that cross the HTTP boundary
    (request JSON, response bodies, the argument of the formatter) are kept
    dynamic, as a small universe of Python values, since the code guards
    against absent keys and wrong shapes there. *)

From Stdlib Require Import ZArith String List Ascii.
From Stdlib Require Import Floats.PrimFloat Numbers.Cyclic.Int63.Uint63.
From stdpp Require Import base option list gmap strings sets pretty.

Local Open Scope string_scope.
Local Open Scope list_scope.

(** ** Python values *)

(** The JSON-like fragment of Python values. A Python float is an IEEE
    binary64 number ([PrimFloat.float]); a dict keeps insertion order and is
    keyed by strings, as is every dict the code builds or reads. The keys of
    a Python dict are distinct; nothing below depends on it, and a lookup in
    a list with a repeated key finds the first entry. *)
#[warnings="-register-all"]
Inductive pyval : Type :=
| PNone
| PBool (b : bool)
| PInt (z : Z)
| PFloat (f : float)
| PStr (s : string)
| PList (l : list pyval)
| PDict (d : list (string * pyval)).

Inductive exn_kind : Set :=
| KeyError | TypeError | AttributeError | IndexError | ValueError
| RuntimeError | UnboundLocalError | OSError | BinasciiError
| HTTPException.

(** An exception: its class and [str(e)]. *)
Record exn : Set := mk_exn { exn_class : exn_kind; exn_str : string }.

(** The result of evaluating an expression that may raise. *)
Inductive outcome (A : Type) : Type :=
| Ok (a : A)
| Raise (e : exn).
Arguments Ok {A} a.
Arguments Raise {A} e.

#[global] Instance outcome_ret : MRet outcome := fun A a => Ok a.
#[global] Instance outcome_bind : MBind outcome := fun A B f m =>
  match m with
  | Ok a => f a
  | Raise e => Raise e
  end.

Definition py_typename (v : pyval) : string :=
  match v with
  | PNone => "NoneType"
  | PBool _ => "bool"
  | PInt _ => "int"
  | PFloat _ => "float"
  | PStr _ => "str"
  | PList _ => "list"
  | PDict _ => "dict"
  end.

(** [bool(v)] *)
Definition py_truthy (v : pyval) : bool :=
  match v with
  | PNone => false
  | PBool b => b
  | PInt z => negb (Z.eqb z 0)
  | PFloat f => negb (PrimFloat.eqb f 0)
  | PStr s => negb (String.eqb s "")
  | PList l => match l with [] => false | _ => true end
  | PDict d => match d with [] => false | _ => true end
  end.

(** [v == 'lit'] for a string literal *)
Definition py_eq_str (v : pyval) (lit : string) : bool :=
  match v with
  | PStr s => String.eqb s lit
  | _ => false
  end.

Fixpoint dict_get (k : string) (d : list (string * pyval)) : option pyval :=
  match d with
  | [] => None
  | (k', v) :: rest => if String.eqb k k' then Some v else dict_get k rest
  end.

(** [d[k] = v]: an existing key keeps its place, a new one goes last. *)
Fixpoint dict_set (k : string) (v : pyval) (d : list (string * pyval))
  : list (string * pyval) :=
  match d with
  | [] => [(k, v)]
  | (k', v') :: rest =>
      if String.eqb k k' then (k', v) :: rest else (k', v') :: dict_set k v rest
  end.

Definition not_subscriptable (v : pyval) : exn :=
  mk_exn TypeError ("'" +:+ py_typename v +:+ "' object is not subscriptable").

Definition no_attribute (v : pyval) (attr : string) : exn :=
  mk_exn AttributeError
    ("'" +:+ py_typename v +:+ "' object has no attribute '" +:+ attr +:+ "'").

(** [v['k']] with a string key *)
Definition py_subscript (v : pyval) (k : string) : outcome pyval :=
  match v with
  | PDict d =>
      match dict_get k d with
      | Some x => Ok x
      | None => Raise (mk_exn KeyError ("'" +:+ k +:+ "'"))
      end
  | PList _ =>
      Raise (mk_exn TypeError "list indices must be integers or slices, not str")
  | PStr _ =>
      Raise (mk_exn TypeError "string indices must be integers, not 'str'")
  | _ => Raise (not_subscriptable v)
  end.

(** [v.get('k', dflt)] *)
Definition py_get (v : pyval) (k : string) (dflt : pyval) : outcome pyval :=
  match v with
  | PDict d => Ok (default dflt (dict_get k d))
  | _ => Raise (no_attribute v "get")
  end.

(** A string is held as its UTF-8 bytes, of which Python counts and visits
    the code points; a code point is a byte that is not a continuation byte
    ([10xxxxxx]) together with the continuation bytes that follow it. *)
Definition is_continuation (c : ascii) : bool :=
  match c with
  | Ascii _ _ _ _ _ _ b6 b7 => b7 && negb b6
  end.

Fixpoint code_point_count (s : string) : nat :=
  match s with
  | EmptyString => 0
  | String c rest =>
      (if is_continuation c then 0 else 1) + code_point_count rest
  end.

(** The continuation bytes a string starts with (none, in a string of
    Python), and the code points after them. *)
Fixpoint split_code_points (s : string) : string * list string :=
  match s with
  | EmptyString => ("", [])
  | String c rest =>
      let (continuation, points) := split_code_points rest in
      if is_continuation c then (String c continuation, points)
      else ("", String c continuation :: points)
  end.

(** [len(v)] *)
Definition py_len (v : pyval) : outcome Z :=
  match v with
  | PStr s => Ok (Z.of_nat (code_point_count s))
  | PList l => Ok (Z.of_nat (length l))
  | PDict d => Ok (Z.of_nat (length d))
  | _ => Raise (mk_exn TypeError
                  ("object of type '" +:+ py_typename v +:+ "' has no len()"))
  end.

(** The characters of a string, one string for each code point. *)
Definition chars (s : string) : list pyval :=
  let (stray, points) := split_code_points s in
  map PStr match stray with
           | EmptyString => points
           | _ => stray :: points
           end.

(** The items a [for] loop over [v] visits. *)
Definition py_iter (v : pyval) : outcome (list pyval) :=
  match v with
  | PList l => Ok l
  | PDict d => Ok (map (fun kv => PStr (fst kv)) d)
  | PStr s => Ok (chars s)
  | _ => Raise (mk_exn TypeError
                  ("'" +:+ py_typename v +:+ "' object is not iterable"))
  end.

(** [v.items()] *)
Definition py_items (v : pyval) : outcome (list (string * pyval)) :=
  match v with
  | PDict d => Ok d
  | _ => Raise (no_attribute v "items")
  end.

(** Library functions the code calls and whose algorithms lie outside the
    repository: [round] on a float (decimal rounding of a binary64 number),
    [numpy.mean] and [base64.b64decode]. *)
Record Builtins : Type := {
  round_float : float -> N -> float;
  np_mean : list float -> float;
  b64decode : string -> outcome (list Byte.byte)
}.

(** [round(v, ndigits)] for a non-negative literal [ndigits]: a float is
    rounded to a float, an int is returned as it is, a bool as an int. *)
Definition py_round (B : Builtins) (v : pyval) (ndigits : N) : outcome pyval :=
  match v with
  | PFloat f => Ok (PFloat (round_float B f ndigits))
  | PInt z => Ok (PInt z)
  | PBool b => Ok (PInt (if b then 1 else 0))
  | _ => Raise (mk_exn TypeError
                  ("type " +:+ py_typename v +:+ " doesn't define __round__ method"))
  end.

(** ** The response formatter ([FlutterAPIServer._format_flutter_response]) *)

(** One entry of [bounding_boxes]: the dict literal of the inner loop. *)
Definition format_bbox (defect_type : string) (bbox : pyval) : outcome pyval :=
  x ← py_subscript bbox "x";
  y ← py_subscript bbox "y";
  width ← py_subscript bbox "width";
  height ← py_subscript bbox "height";
  center_x ← py_subscript bbox "center_x";
  center_y ← py_subscript bbox "center_y";
  area ← py_subscript bbox "area";
  mret (PDict [("defect_type", PStr defect_type); ("x", x); ("y", y);
               ("width", width); ("height", height);
               ("center_x", center_x); ("center_y", center_y);
               ("area", area)]).

(** [for bbox in bboxes: flutter_response['bounding_boxes'].append({...})] *)
Fixpoint append_bboxes (defect_type : string) (bboxes : list pyval)
    (acc : list pyval) : outcome (list pyval) :=
  match bboxes with
  | [] => Ok acc
  | bbox :: rest =>
      b ← format_bbox defect_type bbox;
      append_bboxes defect_type rest (acc ++ [b])
  end.

(** [for defect_type, bboxes in ....items(): ...] *)
Fixpoint append_all_bboxes (items : list (string * pyval)) (acc : list pyval)
  : outcome (list pyval) :=
  match items with
  | [] => Ok acc
  | (defect_type, bboxes) :: rest =>
      l ← py_iter bboxes;
      acc' ← append_bboxes defect_type l acc;
      append_all_bboxes rest acc'
  end.

(** The body of the [try] block. *)
Definition project_response (B : Builtins) (result : pyval) : outcome pyval :=
  final_decision ← py_subscript result "final_decision";
  pt ← py_subscript result "processing_time";
  processing_time ← py_round B pt 2;
  timestamp ← py_subscript result "timestamp";
  ad ← py_subscript result "anomaly_detection";
  sc ← py_subscript ad "anomaly_score";
  anomaly_score ← py_round B sc 4;
  decision ← py_subscript ad "decision";
  threshold_used ← py_subscript ad "threshold_used";
  detected_defects ← py_get result "detected_defect_types" (PList []);
  dd ← py_get result "detected_defect_types" (PList []);
  defect_count ← py_len dd;
  let flutter_response :=
    [("status", PStr "success");
     ("final_decision", final_decision);
     ("processing_time", processing_time);
     ("timestamp", timestamp);
     ("anomaly_detection",
       PDict [("anomaly_score", anomaly_score);
              ("decision", decision);
              ("threshold_used", threshold_used)]);
     ("defect_classification", PNone);
     ("detected_defects", detected_defects);
     ("defect_count", PInt defect_count);
     ("bounding_boxes", PList [])] in
  dc ← py_get result "defect_classification" PNone;
  if py_truthy dc then
    defect_result ← py_subscript result "defect_classification";
    dds ← py_subscript defect_result "detected_defects";
    dds' ← py_subscript defect_result "detected_defects";
    total ← py_len dds';
    let flutter_response :=
      dict_set "defect_classification"
        (PDict [("detected_defects", dds); ("total_defect_types", PInt total)])
        flutter_response in
    bbs ← py_get defect_result "bounding_boxes" (PDict []);
    items ← py_items bbs;
    boxes ← append_all_bboxes items [];
    mret (PDict (dict_set "bounding_boxes" (PList boxes) flutter_response))
  else
    mret (PDict flutter_response).

(** The object the [except] branch returns. *)
Definition error_response (e : exn) : pyval :=
  PDict [("status", PStr "error");
         ("error", PStr (exn_str e));
         ("final_decision", PStr "ERROR")].

Definition _format_flutter_response (B : Builtins) (result : pyval)
  : outcome pyval :=
  match project_response B result with
  | Ok flutter_response => Ok flutter_response
  | Raise e => Ok (error_response e)
  end.

(** ** The world the pipeline runs in *)

(** What a run leaves behind: calls of the two models, of the renderer and of
    the report writer, the temporary files of the HTTP handlers, and the
    folder and the summary file of a batch. An event records that the call
    was made, whether it then succeeded or raised. *)
Inductive event : Type :=
| EvDetect (image_path : string)
| EvClassify (image_path : string)
| EvVisualize (image_path : string)
| EvReport (image_path : string)
| EvWriteFile (path : string)
| EvRemoveFile (path : string)
| EvMakedirs (path : string)
| EvWriteSummary (path : string).

(** [tick] numbers the readings of the clock and of the random source. *)
Record world : Type := mk_world { tick : nat; calls : list event }.

(** Stateful code that may raise; the effects made before an exception stay. *)
Definition M (A : Type) : Type := world -> outcome A * world.

#[global] Instance M_ret : MRet M := fun A a w => (Ok a, w).
#[global] Instance M_bind : MBind M := fun A B f m w =>
  match m w with
  | (Ok a, w') => f a w'
  | (Raise e, w') => (Raise e, w')
  end.

Definition lift {A : Type} (o : outcome A) : M A := fun w => (o, w).

Definition raise {A : Type} (k : exn_kind) (msg : string) : M A :=
  fun w => (Raise (mk_exn k msg), w).

(** [try: body except Exception as e: handler e] *)
Definition try_except {A : Type} (body : M A) (handler : exn -> M A) : M A :=
  fun w =>
    match body w with
    | (Ok a, w') => (Ok a, w')
    | (Raise e, w') => handler e w'
    end.

Definition log (ev : event) : M unit :=
  fun w => (Ok tt, mk_world (tick w) (calls w ++ [ev])).

Definition next_tick : M nat :=
  fun w => (Ok (tick w), mk_world (S (tick w)) (calls w)).

(** Peek at the world, for the calls whose answer may depend on the moment. *)
Definition get_world : M world := fun w => (Ok w, w).

(** ** Data model *)

(** The dicts returned by [DetectionCore] ([core/detection.py], which is not
    among the sources): their keys are the ones the callers read. *)
Record AnomalyResult : Type := {
  anomaly_score : float;
  decision : string;
  threshold_used : float;
  anomaly_mask : pyval
}.

Record BoundingBox : Type := {
  bb_x : Z; bb_y : Z; bb_width : Z; bb_height : Z;
  bb_center_x : Z; bb_center_y : Z; bb_area : Z
}.

Record DefectResult : Type := {
  predicted_mask : pyval;
  class_distribution : pyval;
  detected_defects : list string;
  (** per defect type, in the dict's order; [None] when the key is absent *)
  bounding_boxes : option (list (string * list BoundingBox))
}.

(** The [result] dict of [process_single_image]. The three keys that are
    assigned after the dict literal are optional: [None] is an absent key. *)
Record DetectionResult : Type := {
  image_path : string;
  timestamp : string;
  anomaly_detection : AnomalyResult;
  defect_classification : option DefectResult;
  processing_time : float;
  final_decision : string;
  detected_defect_types : option (list string);
  visualization_path : option (option string);
  report_path : option pyval
}.

Definition with_classification (r : DetectionResult) (d : DefectResult)
  : DetectionResult :=
  {| image_path := image_path r; timestamp := timestamp r;
     anomaly_detection := anomaly_detection r;
     defect_classification := Some d;
     processing_time := processing_time r;
     final_decision := final_decision r;
     detected_defect_types := detected_defect_types r;
     visualization_path := visualization_path r;
     report_path := report_path r |}.

Definition with_detected_defect_types (r : DetectionResult) (l : list string)
  : DetectionResult :=
  {| image_path := image_path r; timestamp := timestamp r;
     anomaly_detection := anomaly_detection r;
     defect_classification := defect_classification r;
     processing_time := processing_time r;
     final_decision := final_decision r;
     detected_defect_types := Some l;
     visualization_path := visualization_path r;
     report_path := report_path r |}.

Definition with_processing_time (r : DetectionResult) (t : float)
  : DetectionResult :=
  {| image_path := image_path r; timestamp := timestamp r;
     anomaly_detection := anomaly_detection r;
     defect_classification := defect_classification r;
     processing_time := t;
     final_decision := final_decision r;
     detected_defect_types := detected_defect_types r;
     visualization_path := visualization_path r;
     report_path := report_path r |}.

Definition with_visualization_path (r : DetectionResult) (p : option string)
  : DetectionResult :=
  {| image_path := image_path r; timestamp := timestamp r;
     anomaly_detection := anomaly_detection r;
     defect_classification := defect_classification r;
     processing_time := processing_time r;
     final_decision := final_decision r;
     detected_defect_types := detected_defect_types r;
     visualization_path := Some p;
     report_path := report_path r |}.

Definition with_report_path (r : DetectionResult) (p : pyval)
  : DetectionResult :=
  {| image_path := image_path r; timestamp := timestamp r;
     anomaly_detection := anomaly_detection r;
     defect_classification := defect_classification r;
     processing_time := processing_time r;
     final_decision := final_decision r;
     detected_defect_types := detected_defect_types r;
     visualization_path := visualization_path r;
     report_path := Some p |}.

(** The [summary] dict that is written and returned. [list(set)] gives the
    names in an order Python does not specify; [elements] fixes one. *)
Record BatchSummary : Type := {
  total_images : nat;
  good_products : nat;
  defective_products : nat;
  defect_types_found : list string;
  processing_times : list float;
  failed_processing : nat;
  avg_processing_time : pyval
}.

(** ** Collaborators *)

(** [DetectionCore]: the two inference calls. Each may raise, or return
    [None]; the answer may depend on the moment of the call. (A returned
    dict that lacks a key its caller reads makes the caller's [try] block
    fail, as an exception of the call itself does.) *)
Record DetectionCore : Type := {
  detect_anomaly : world -> string -> outcome (option AnomalyResult);
  classify_defects : world -> string -> pyval -> outcome (option DefectResult)
}.

(** The operating system, the clock and the two output writers. [BASE_DIR]
    is the folder of [config.py]; [time_time], [now_isoformat] and [uuid4]
    give the reading at a tick. [create_visualization]
    ([utils/visualization.py]) wraps its whole body in [try/except] and
    returns the path or [None]; [save_analysis_report] ([utils/reports.py],
    not among the sources) may raise. [makedirs] is
    [os.makedirs(path, exist_ok=True)] and [write_summary] is
    [with open(path, 'w') as f: json.dump(summary, f, indent=2)]; either may
    raise, like [write_file]. *)
Record Env : Type := {
  BASE_DIR : string;
  time_time : nat -> float;
  now_isoformat : nat -> string;
  uuid4 : nat -> string;
  glob_glob : string -> bool -> list string;
  create_visualization : world -> DetectionResult -> string -> option string;
  save_analysis_report : world -> DetectionResult -> string -> outcome pyval;
  write_file : world -> string -> list Byte.byte -> outcome unit;
  makedirs : world -> string -> outcome unit;
  write_summary : world -> string -> BatchSummary -> outcome unit
}.

Definition ends_with_slash (s : string) : bool :=
  match rev (list_ascii_of_string s) with
  | c :: _ => Ascii.eqb c "/"
  | [] => false
  end.

(** [os.path.join(path, *parts)] on POSIX paths: an absolute part replaces
    what precedes it, and a separator is put in unless the path is empty or
    ends with one. *)
Fixpoint os_path_join (path : string) (parts : list string) : string :=
  match parts with
  | [] => path
  | b :: rest =>
      os_path_join
        (if String.prefix "/" b then b
         else if String.eqb path "" || ends_with_slash path then path +:+ b
         else path +:+ "/" +:+ b)
        rest
  end.

(** [OUTPUTS_DIR = BASE_DIR / "outputs"] *)
Definition OUTPUTS_DIR (E : Env) : string :=
  os_path_join (BASE_DIR E) ["outputs"].

(** ** [ImageProcessor.process_single_image] *)

Definition process_single_image (E : Env) (detection_core : DetectionCore)
    (image_path : string) (output_dir : option string)
  : M (option DetectionResult) :=
  let output_dir := default (OUTPUTS_DIR E) output_dir in
  t0 ← next_tick;
  let start_time := time_time E t0 in
  try_except
    ((* Step 1: anomaly detection *)
     w ← get_world;
     _ ← log (EvDetect image_path);
     anomaly_result ← lift (detect_anomaly detection_core w image_path);
     match anomaly_result with
     | None => mret None
     | Some anomaly_result =>
         ts ← next_tick;
         let result :=
           {| image_path := image_path;
              timestamp := now_isoformat E ts;
              anomaly_detection := anomaly_result;
              defect_classification := None;
              processing_time := 0; (* overwritten before it is read *)
              final_decision := decision anomaly_result;
              detected_defect_types := None;
              visualization_path := None;
              report_path := None |} in
         (* Step 2: if a defect is detected, classify the defect types *)
         result ←
           (if String.eqb (decision anomaly_result) "DEFECT" then
              w ← get_world;
              _ ← log (EvClassify image_path);
              defect_result ←
                lift (classify_defects detection_core w image_path
                        (anomaly_mask anomaly_result));
              match defect_result with
              | Some defect_result =>
                  mret (with_detected_defect_types
                          (with_classification result defect_result)
                          (detected_defects defect_result))
              | None => mret result
              end
            else
              mret (with_detected_defect_types result []));
         t1 ← next_tick;
         let result :=
           with_processing_time result
             (PrimFloat.sub (time_time E t1) start_time) in
         w ← get_world;
         _ ← log (EvVisualize image_path);
         let result :=
           with_visualization_path result
             (create_visualization E w result output_dir) in
         w ← get_world;
         _ ← log (EvReport image_path);
         report ← lift (save_analysis_report E w result output_dir);
         mret (Some (with_report_path result report))
     end)
    (fun e => mret None).

(** The answer of the anomaly stage for a run started in world [w]: the run
    reads the clock once before it asks. *)
Definition anomaly_stage (detection_core : DetectionCore) (image_path : string)
    (w : world) : outcome (option AnomalyResult) :=
  detect_anomaly detection_core (mk_world (S (tick w)) (calls w)) image_path.

Definition is_classify (ev : event) : bool :=
  match ev with EvClassify _ => true | _ => false end.

Definition is_detect (ev : event) : bool :=
  match ev with EvDetect _ => true | _ => false end.

(** How often the segmentation model has been invoked so far. *)
Definition classify_calls (w : world) : nat :=
  length (List.filter is_classify (calls w)).

(** ** [ImageProcessor.process_batch_images] *)

(** The counters of the [summary] dict while the loop runs;
    [acc_types] is the Python set under ['defect_types_found']. *)
Record Accumulator : Type := {
  acc_results : list DetectionResult;
  acc_good : nat;
  acc_defective : nat;
  acc_types : gset string;
  acc_times : list float;
  acc_failed : nat
}.

Definition empty_accumulator : Accumulator :=
  {| acc_results := []; acc_good := 0; acc_defective := 0;
     acc_types := ∅; acc_times := []; acc_failed := 0 |}.

(** The body of the loop after [process_single_image] has returned. A result
    dict is never empty, so [if result:] tests for [None]. *)
Definition fold_result (acc : Accumulator) (result : option DetectionResult)
  : Accumulator :=
  match result with
  | Some result =>
      let results := acc_results acc ++ [result] in
      let times := acc_times acc ++ [processing_time result] in
      if String.eqb (final_decision result) "GOOD" then
        {| acc_results := results;
           acc_good := acc_good acc + 1;
           acc_defective := acc_defective acc;
           acc_types := acc_types acc;
           acc_times := times;
           acc_failed := acc_failed acc |}
      else
        {| acc_results := results;
           acc_good := acc_good acc;
           acc_defective := acc_defective acc + 1;
           acc_types :=
             match detected_defect_types result with
             | Some types => acc_types acc ∪ list_to_set types
             | None => acc_types acc
             end;
           acc_times := times;
           acc_failed := acc_failed acc |}
  | None =>
      {| acc_results := acc_results acc;
         acc_good := acc_good acc;
         acc_defective := acc_defective acc;
         acc_types := acc_types acc;
         acc_times := acc_times acc;
         acc_failed := acc_failed acc + 1 |}
  end.

Definition finalize (B : Builtins) (n_files : nat) (acc : Accumulator)
  : BatchSummary :=
  {| total_images := n_files;
     good_products := acc_good acc;
     defective_products := acc_defective acc;
     defect_types_found := elements (acc_types acc);
     processing_times := acc_times acc;
     failed_processing := acc_failed acc;
     avg_processing_time :=
       match acc_times acc with
       | [] => PInt 0
       | _ => PFloat (np_mean B (acc_times acc))
       end |}.

(** The files the four patterns find, plain and recursive, in the order the
    code collects them. *)
Definition find_image_files (E : Env) (input_folder : string) : list string :=
  flat_map
    (fun ext =>
       glob_glob E (os_path_join input_folder [ext]) false ++
       glob_glob E (os_path_join input_folder ["**"; ext]) true)
    ["*.jpg"; "*.jpeg"; "*.png"; "*.bmp"].

(** The four patterns, and the pictures that lie in the folder itself: what
    the plain patterns list. *)
Definition image_patterns : list string := ["*.jpg"; "*.jpeg"; "*.png"; "*.bmp"].




(** [for i, image_path in enumerate(image_files): ...] *)
Fixpoint batch_loop (E : Env) (detection_core : DetectionCore)
    (output_folder : string) (image_files : list string) (acc : Accumulator)
  : M Accumulator :=
  match image_files with
  | [] => mret acc
  | image_path :: rest =>
      result ← process_single_image E detection_core image_path
                 (Some output_folder);
      batch_loop E detection_core output_folder rest (fold_result acc result)
  end.

(** The output folder is created before the files are looked for, and the
    summary is written before the batch returns; an exception of either is
    not caught and ends the batch. *)
Definition process_batch_images (B : Builtins) (E : Env)
    (detection_core : DetectionCore) (input_folder : string)
    (output_folder : option string)
  : M (option (list DetectionResult * BatchSummary)) :=
  let output_folder :=
    default (os_path_join (OUTPUTS_DIR E) ["batch"]) output_folder in
  w ← get_world;
  _ ← log (EvMakedirs output_folder);
  _ ← lift (makedirs E w output_folder);
  let image_files := find_image_files E input_folder in
  match image_files with
  | [] => mret None
  | _ =>
      acc ← batch_loop E detection_core output_folder image_files
              empty_accumulator;
      let summary := finalize B (length image_files) acc in
      let summary_path := os_path_join output_folder ["batch_summary.json"] in
      w ← get_world;
      _ ← log (EvWriteSummary summary_path);
      _ ← lift (write_summary E w summary_path summary);
      mret (Some (acc_results acc, summary))
  end.

(** The per-image outcomes of a batch, in order: what each call of
    [process_single_image] returned. *)
Fixpoint run_images (E : Env) (detection_core : DetectionCore)
    (output_folder : string) (image_files : list string)
  : M (list (option DetectionResult)) :=
  match image_files with
  | [] => mret []
  | image_path :: rest =>
      result ← process_single_image E detection_core image_path
                 (Some output_folder);
      results ← run_images E detection_core output_folder rest;
      mret (result :: results)
  end.

(** Folding a sequence of outcomes into the accumulator. *)
Definition fold_results (outcomes : list (option DetectionResult))
    (acc : Accumulator) : Accumulator :=
  fold_left fold_result outcomes acc.

Definition count_failed (outcomes : list (option DetectionResult)) : nat :=
  length (List.filter (fun o => negb (bool_decide (is_Some o))) outcomes).

Definition successes (outcomes : list (option DetectionResult))
  : list DetectionResult :=
  omap id outcomes.

Definition detect_calls (w : world) : list event :=
  List.filter is_detect (calls w).

(** ** [main.py]: the detector facade *)

(** [model_loader_is_ready] is [self.model_loader.is_ready()]; the image and
    video processors are created together with the detection core. *)
Record UnifiedDefectDetector : Type := {
  model_loader_is_ready : bool;
  detection_core : option DetectionCore
}.

Definition is_ready (det : UnifiedDefectDetector) : bool :=
  model_loader_is_ready det && bool_decide (is_Some (detection_core det)).

Definition process_image (E : Env) (det : UnifiedDefectDetector)
    (image_path : string) (output_dir : option string)
  : M (option DetectionResult) :=
  if negb (is_ready det) then
    raise RuntimeError "System not ready. Load models first."
  else
    match detection_core det with
    | Some core => process_single_image E core image_path output_dir
    | None =>
        raise AttributeError
          "'NoneType' object has no attribute 'process_single_image'"
    end.

(** ** Results as the dicts the formatter receives *)

Definition bbox_to_py (b : BoundingBox) : pyval :=
  PDict [("x", PInt (bb_x b)); ("y", PInt (bb_y b));
         ("width", PInt (bb_width b)); ("height", PInt (bb_height b));
         ("center_x", PInt (bb_center_x b)); ("center_y", PInt (bb_center_y b));
         ("area", PInt (bb_area b))].

Definition names_to_py (names : list string) : pyval :=
  PList (map PStr names).

Definition anomaly_to_py (a : AnomalyResult) : pyval :=
  PDict [("anomaly_score", PFloat (anomaly_score a));
         ("decision", PStr (decision a));
         ("threshold_used", PFloat (threshold_used a));
         ("anomaly_mask", anomaly_mask a)].

Definition defect_to_py (d : DefectResult) : pyval :=
  PDict ([("predicted_mask", predicted_mask d);
          ("class_distribution", class_distribution d);
          ("detected_defects", names_to_py (detected_defects d))] ++
         match bounding_boxes d with
         | Some per_type =>
             [("bounding_boxes",
               PDict (map (fun tb => (fst tb, PList (map bbox_to_py (snd tb))))
                          per_type))]
         | None => []
         end).

Definition optional_key {A : Type} (k : string) (f : A -> pyval) (o : option A)
  : list (string * pyval) :=
  match o with
  | Some a => [(k, f a)]
  | None => []
  end.

Definition result_to_py (r : DetectionResult) : pyval :=
  PDict ([("image_path", PStr (image_path r));
          ("timestamp", PStr (timestamp r));
          ("anomaly_detection", anomaly_to_py (anomaly_detection r));
          ("defect_classification",
            match defect_classification r with
            | Some d => defect_to_py d
            | None => PNone
            end);
          ("processing_time", PFloat (processing_time r));
          ("final_decision", PStr (final_decision r))] ++
         optional_key "detected_defect_types" names_to_py
           (detected_defect_types r) ++
         optional_key "visualization_path"
           (fun p => match p with Some s => PStr s | None => PNone end)
           (visualization_path r) ++
         optional_key "report_path" id (report_path r)).

(** ** [api_server.py]: the HTTP handlers *)

(** What a handler reads of the request: the uploaded file under ['image'],
    if any, and [request.json], which is the parsed JSON body or the
    exception that reading it raises. For a request without a JSON body
    Flask raises from version 2.1 on (415 or 400, exceptions that the [try]
    blocks of the handlers catch); before, it gave [None]. The attribute is
    cached, so that every read of it has the same outcome. *)
Record Request : Type := {
  files_image : option (list Byte.byte);
  json : outcome pyval
}.

(** What a handler returns: the body given to [jsonify] and the status. *)
Record Reply : Type := mk_reply { body : pyval; status_code : Z }.

Record FlutterAPIServer : Type := { detector : option UnifiedDefectDetector }.

(** [k in v] for a string [k] *)
Definition py_contains (v : pyval) (k : string) : outcome bool :=
  match v with
  | PDict d => Ok (bool_decide (is_Some (dict_get k d)))
  | PList l => Ok (existsb (fun x => py_eq_str x k) l)
  | PStr s => Ok (bool_decide (is_Some (String.index 0 k s)))
  | _ => Raise (mk_exn TypeError
                  ("argument of type '" +:+ py_typename v +:+ "' is not iterable"))
  end.

(** [s.split(sep)] for a one-character separator *)
Fixpoint split_on (sep : ascii) (s : string) : list string :=
  match s with
  | EmptyString => [""]
  | String c rest =>
      if Ascii.eqb c sep then "" :: split_on sep rest
      else match split_on sep rest with
           | hd :: tl => String c hd :: tl
           | [] => [String c ""]
           end
  end.

(** The decoding both handlers apply to a base64 item:
    [if b.startswith('data:image'): b = b.split(',')[1]], then [b64decode]. *)
Definition decode_base64 (B : Builtins) (base64_data : pyval)
  : outcome (list Byte.byte) :=
  s ← match base64_data with
      | PStr s => Ok s
      | _ => Raise (no_attribute base64_data "startswith")
      end;
  s ← (if String.prefix "data:image" s then
         match split_on "," s with
         | _ :: second :: _ => Ok second
         | _ => Raise (mk_exn IndexError "list index out of range")
         end
       else Ok s);
  b64decode B s.

(** The [if/elif/else] that finds the image of a single-detection request;
    [None] is the [else] branch. *)
Definition read_image (B : Builtins) (req : Request)
  : outcome (option (list Byte.byte)) :=
  match files_image req with
  | Some image_data => Ok (Some image_data)
  | None =>
      has ← (data ← json req;
             if py_truthy data then py_contains data "image_base64"
             else Ok false);
      if has : bool then
        base64_data ← (data ← json req; py_subscript data "image_base64");
        image_data ← decode_base64 B base64_data;
        Ok (Some image_data)
      else Ok None
  end.

(** [os.path.exists] for the temporary files: written and not yet removed. *)
Definition file_exists (path : string) (w : world) : bool :=
  fold_left
    (fun b ev =>
       match ev with
       | EvWriteFile p => if String.eqb p path then true else b
       | EvRemoveFile p => if String.eqb p path then false else b
       | _ => b
       end)
    (calls w) false.

(** [if os.path.exists(path): os.remove(path)] *)
Definition remove_if_exists (path : string) : M unit :=
  fun w => if file_exists path w then log (EvRemoveFile path) w else (Ok tt, w).

(** [with open(path, 'wb') as f: f.write(data)] *)
Definition write_temp (E : Env) (path : string) (data : list Byte.byte)
  : M unit :=
  w ← get_world;
  _ ← lift (write_file E w path data);
  log (EvWriteFile path).

Definition error_reply (msg : string) (code : Z) : Reply :=
  mk_reply (PDict [("error", PStr msg)]) code.

(** [GET /api/health] *)
Definition health_check (E : Env) (srv : FlutterAPIServer) : M Reply :=
  t ← next_tick;
  mret (mk_reply
          (PDict [("status", PStr "ok");
                  ("detector_ready",
                    PBool match detector srv with
                          | Some det => is_ready det
                          | None => false
                          end);
                  ("timestamp", PStr (now_isoformat E t))])
          200%Z).

(** [POST /api/detect-image]. An exception raised while the image is read
    reaches the [except] branch before [temp_id] is assigned; the branch
    reads [temp_id], so it raises in turn and the handler does not return. *)
Definition detect_image (B : Builtins) (E : Env) (srv : FlutterAPIServer)
    (req : Request) : M Reply :=
  match detector srv with
  | Some det =>
      if is_ready det then
        match read_image B req with
        | Raise e =>
            raise UnboundLocalError
              "cannot access local variable 'temp_id' where it is not associated with a value"
        | Ok None => mret (error_reply "No image provided" 400)
        | Ok (Some image_data) =>
            u ← next_tick;
            let temp_id := uuid4 E u in
            let temp_path := "temp_" +:+ temp_id +:+ ".jpg" in
            try_except
              (_ ← write_temp E temp_path image_data;
               result ← process_image E det temp_path None;
               _ ← remove_if_exists temp_path;
               match result with
               | Some result =>
                   flutter_response ←
                     lift (_format_flutter_response B (result_to_py result));
                   mret (mk_reply flutter_response 200)
               | None => mret (error_reply "Processing failed" 500)
               end)
              (fun e =>
                 _ ← remove_if_exists temp_path;
                 mret (error_reply (exn_str e) 500))
        end
      else mret (error_reply "Detection system not ready" 500)
  | None => mret (error_reply "Detection system not ready" 500)
  end.

(** [int / int] and [float * int] on counts: exact conversions (the counts
    are far below 2^53), then binary64 division and multiplication. *)
Definition float_of_Z (z : Z) : float :=
  match z with
  | Zneg p => PrimFloat.opp (PrimFloat.of_uint63 (Uint63.of_Z (Zpos p)))
  | _ => PrimFloat.of_uint63 (Uint63.of_Z z)
  end.

(** [(defective_products / total_images * 100) if total_images > 0 else 0] *)
Definition defect_rate (defective_products total_images : Z) : pyval :=
  if (0 <? total_images)%Z then
    PFloat (PrimFloat.mul
              (PrimFloat.div (float_of_Z defective_products)
                             (float_of_Z total_images))
              (float_of_Z 100))
  else PInt 0.

(** [sum(1 for r in results if r['final_decision'] == 'GOOD')] *)
Fixpoint count_good (results : list pyval) : outcome Z :=
  match results with
  | [] => Ok 0%Z
  | r :: rest =>
      fd ← py_subscript r "final_decision";
      n ← count_good rest;
      Ok (if py_eq_str fd "GOOD" then (1 + n)%Z else n)
  end.

(** The batch summary and the reply of [batch_detect]. *)
Definition batch_reply (results : list pyval) : outcome Reply :=
  let total_images := Z.of_nat (length results) in
  good_products ← count_good results;
  let defective_products := (total_images - good_products)%Z in
  Ok (mk_reply
        (PDict [("status", PStr "success");
                ("summary",
                  PDict [("total_images", PInt total_images);
                         ("good_products", PInt good_products);
                         ("defective_products", PInt defective_products);
                         ("defect_rate",
                           defect_rate defective_products total_images)]);
                ("results", PList results)])
        200%Z).

(** [d[k] = v] on a value *)
Definition py_setitem (d : pyval) (k : string) (v : pyval) : outcome pyval :=
  match d with
  | PDict l => Ok (PDict (dict_set k v l))
  | _ => Raise (mk_exn TypeError
                  ("'" +:+ py_typename d +:+
                   "' object does not support item assignment"))
  end.

Definition batch_temp_path (E : Env) (idx : nat) (u : nat) : string :=
  "temp_batch_" +:+ pretty idx +:+ "_" +:+ uuid4 E u +:+ ".jpg".

(** One round of the loop of [batch_detect]: the formatted result to append,
    or [None] when the image is skipped. The [except] branch builds a path
    with a fresh uuid, so it finds nothing to remove. *)
Definition batch_detect_item (B : Builtins) (E : Env)
    (det : UnifiedDefectDetector) (idx : nat) (image_b64 : pyval)
  : M (option pyval) :=
  try_except
    (image_data ← lift (decode_base64 B image_b64);
     u ← next_tick;
     let temp_path := batch_temp_path E idx u in
     _ ← write_temp E temp_path image_data;
     result ← process_image E det temp_path None;
     _ ← remove_if_exists temp_path;
     match result with
     | Some result =>
         flutter_result ←
           lift (_format_flutter_response B (result_to_py result));
         flutter_result ←
           lift (py_setitem flutter_result "image_index" (PInt (Z.of_nat idx)));
         mret (Some flutter_result)
     | None => mret None
     end)
    (fun e =>
       u ← next_tick;
       let temp_path := batch_temp_path E idx u in
       _ ← remove_if_exists temp_path;
       mret None).

(** [for idx, image_b64 in enumerate(images_data): ...] *)
Fixpoint batch_detect_loop (B : Builtins) (E : Env)
    (det : UnifiedDefectDetector) (idx : nat) (images : list pyval)
    (results : list pyval) : M (list pyval) :=
  match images with
  | [] => mret results
  | image_b64 :: rest =>
      item ← batch_detect_item B E det idx image_b64;
      batch_detect_loop B E det (S idx) rest
        match item with
        | Some flutter_result => results ++ [flutter_result]
        | None => results
        end
  end.

(** [POST /api/batch-detect] *)
Definition batch_detect (B : Builtins) (E : Env) (srv : FlutterAPIServer)
    (req : Request) : M Reply :=
  match detector srv with
  | Some det =>
      if is_ready det then
        try_except
          (has ← lift (data ← json req;
                       if py_truthy data then py_contains data "images"
                       else Ok false);
           if has : bool then
             images_data ← lift (data ← json req;
                                 py_get data "images" (PList []));
             if py_truthy images_data then
               images ← lift (py_iter images_data);
               results ← batch_detect_loop B E det 0 images [];
               lift (batch_reply results)
             else mret (error_reply "No images provided" 400)
           else mret (error_reply "No images provided" 400))
          (fun e => mret (error_reply (exn_str e) 500))
      else mret (error_reply "Detection system not ready" 500)
  | None => mret (error_reply "Detection system not ready" 500)
  end.

(** ** Thresholds ([config.py] and [UnifiedDefectDetector.update_thresholds]) *)

(** The two module globals that [main.py] binds by [from config import *]
    and that [update_thresholds] rebinds. *)
Record Thresholds : Type := {
  ANOMALY_THRESHOLD : float;
  DEFECT_CONFIDENCE_THRESHOLD : float
}.

#[warnings="-inexact-float"]
Definition config_thresholds : Thresholds :=
  {| ANOMALY_THRESHOLD := 0.7; DEFECT_CONFIDENCE_THRESHOLD := 0.85 |}.

(** [None] is an argument left at its default. *)
Definition update_thresholds (anomaly_threshold defect_threshold : option float)
    (g : Thresholds) : Thresholds :=
  let g :=
    match anomaly_threshold with
    | Some t =>
        {| ANOMALY_THRESHOLD := t;
           DEFECT_CONFIDENCE_THRESHOLD := DEFECT_CONFIDENCE_THRESHOLD g |}
    | None => g
    end in
  match defect_threshold with
  | Some t =>
      {| ANOMALY_THRESHOLD := ANOMALY_THRESHOLD g;
         DEFECT_CONFIDENCE_THRESHOLD := t |}
  | None => g
  end.

(** The two threshold entries of [get_system_info]. *)
Definition get_system_info_thresholds (g : Thresholds) : list (string * pyval) :=
  [("anomaly_threshold", PFloat (ANOMALY_THRESHOLD g));
   ("defect_threshold", PFloat (DEFECT_CONFIDENCE_THRESHOLD g))].

(** Modelled from the spec: the decisions of [DetectionCore]
    ([core/detection.py] is not among the sources). Section 4.2: the anomaly
    stage produces its outcome using the threshold snapshot taken at this
    instant, and [decision = DEFECT if score >= anomaly_threshold else GOOD];
    section 4.3: the extractor receives the current threshold configuration. *)
Record PipelineRead : Type := {
  read_anomaly : AnomalyResult;
  read_defect_threshold : float
}.

Definition pipeline_read (g : Thresholds) (score : float) (mask : pyval)
  : PipelineRead :=
  {| read_anomaly :=
       {| anomaly_score := score;
          decision :=
            if PrimFloat.leb (ANOMALY_THRESHOLD g) score then "DEFECT"
            else "GOOD";
          threshold_used := ANOMALY_THRESHOLD g;
          anomaly_mask := mask |};
     read_defect_threshold := DEFECT_CONFIDENCE_THRESHOLD g |}.

(** The calls a process serves, one after the other. *)
Inductive Call : Type :=
| CallUpdate (anomaly_threshold defect_threshold : option float)
| CallPipeline (score : float) (mask : pyval).

Fixpoint serve (g : Thresholds) (calls : list Call)
  : list PipelineRead * Thresholds :=
  match calls with
  | [] => ([], g)
  | CallUpdate a d :: rest => serve (update_thresholds a d g) rest
  | CallPipeline score mask :: rest =>
      let (reads, g') := serve g rest in
      (pipeline_read g score mask :: reads, g')
  end.

(** ** Reading the external schema back *)

(** The bounding boxes of a result as one sequence, each with its defect
    type, in the order of the per-type mapping. *)
Definition flat_bboxes (r : DetectionResult) : list (string * BoundingBox) :=
  match defect_classification r with
  | Some d =>
      flat_map (fun tb => map (fun b => (fst tb, b)) (snd tb))
               (default [] (bounding_boxes d))
  | None => []
  end.

(** The entry of [bounding_boxes] that the external schema holds for a box. *)
Definition tagged_bbox (tb : string * BoundingBox) : pyval :=
  PDict [("defect_type", PStr (fst tb));
         ("x", PInt (bb_x (snd tb))); ("y", PInt (bb_y (snd tb)));
         ("width", PInt (bb_width (snd tb)));
         ("height", PInt (bb_height (snd tb)));
         ("center_x", PInt (bb_center_x (snd tb)));
         ("center_y", PInt (bb_center_y (snd tb)));
         ("area", PInt (bb_area (snd tb)))].

(** What a client reads of a single-detection response. *)
Record ExternalResult : Type := {
  ext_final_decision : string;
  ext_anomaly_score : float;
  ext_processing_time : float;
  ext_bounding_boxes : list (string * BoundingBox)
}.

Definition read_key (v : pyval) (k : string) : option pyval :=
  match py_subscript v k with
  | Ok x => Some x
  | Raise _ => None
  end.

Definition read_int (v : pyval) (k : string) : option Z :=
  match read_key v k with
  | Some (PInt z) => Some z
  | _ => None
  end.

Definition read_float (v : pyval) (k : string) : option float :=
  match read_key v k with
  | Some (PFloat f) => Some f
  | _ => None
  end.

Definition read_str (v : pyval) (k : string) : option string :=
  match read_key v k with
  | Some (PStr s) => Some s
  | _ => None
  end.

Definition parse_bbox (v : pyval) : option (string * BoundingBox) :=
  defect_type ← read_str v "defect_type";
  x ← read_int v "x";
  y ← read_int v "y";
  width ← read_int v "width";
  height ← read_int v "height";
  center_x ← read_int v "center_x";
  center_y ← read_int v "center_y";
  area ← read_int v "area";
  Some (defect_type,
        {| bb_x := x; bb_y := y; bb_width := width; bb_height := height;
           bb_center_x := center_x; bb_center_y := center_y;
           bb_area := area |}).

Definition parse_response (resp : pyval) : option ExternalResult :=
  final_decision ← read_str resp "final_decision";
  processing_time ← read_float resp "processing_time";
  ad ← read_key resp "anomaly_detection";
  anomaly_score ← read_float ad "anomaly_score";
  boxes ← match read_key resp "bounding_boxes" with
          | Some (PList l) => mapM parse_bbox l
          | _ => None
          end;
  Some {| ext_final_decision := final_decision;
          ext_anomaly_score := anomaly_score;
          ext_processing_time := processing_time;
          ext_bounding_boxes := boxes |}.

(** ** The stages of a run, as the run meets them *)

(** The answer of the classification stage for a run started in [w] whose
    anomaly stage returned [a]: the run has read the clock twice and called
    the anomaly model. *)
Definition classification_stage (core : DetectionCore) (image_path : string)
    (w : world) (a : AnomalyResult) : outcome (option DefectResult) :=
  classify_defects core
    (mk_world (S (S (tick w))) (calls w ++ [EvDetect image_path]))
    image_path (anomaly_mask a).

(** ** Concrete collaborators, for running the model *)

Definition example_builtins : Builtins :=
  {| round_float := fun f _ => f;
     np_mean := fun l =>
       PrimFloat.div (fold_left PrimFloat.add l 0%float)
                     (float_of_Z (Z.of_nat (length l)));
     b64decode := fun s =>
       if String.eqb s "" then
         Raise (mk_exn BinasciiError "Incorrect padding")
       else Ok [] |}.

(** A folder [in] with five pictures in it and no sub-folder: [glob] lists
    them under the plain pattern and again under the recursive one. *)
Definition example_env : Env :=
  {| BASE_DIR := "";
     time_time := fun t => float_of_Z (Z.of_nat t);
     now_isoformat := fun _ => "2024-05-01T12:00:00";
     uuid4 := fun t => "uuid" +:+ pretty t;
     glob_glob := fun pattern recursive =>
       if String.eqb pattern "in/*.jpg" ||
          (recursive && String.eqb pattern "in/**/*.jpg")
       then ["in/0.jpg"; "in/1.jpg"; "in/2.jpg"; "in/3.jpg"; "in/4.jpg"]
       else [];
     create_visualization := fun _ r dir => Some (dir +:+ "/analysis.png");
     save_analysis_report := fun _ r dir => Ok (PStr (dir +:+ "/report.json"));
     write_file := fun _ _ _ => Ok tt;
     makedirs := fun _ _ => Ok tt;
     write_summary := fun _ _ _ => Ok tt |}.

Definition start_world : world := mk_world 0 [].

#[warnings="-inexact-float"]
Definition good_anomaly : AnomalyResult :=
  {| anomaly_score := 0.1; decision := "GOOD"; threshold_used := 0.7;
     anomaly_mask := PNone |}.

#[warnings="-inexact-float"]
Definition defect_anomaly : AnomalyResult :=
  {| anomaly_score := 0.95; decision := "DEFECT"; threshold_used := 0.7;
     anomaly_mask := PNone |}.

Definition open_defect : DefectResult :=
  {| predicted_mask := PNone;
     class_distribution := PDict [];
     detected_defects := ["open"];
     bounding_boxes :=
       Some [("open",
              [{| bb_x := 10; bb_y := 20; bb_width := 15; bb_height := 10;
                  bb_center_x := 17; bb_center_y := 25; bb_area := 150 |}])] |}.

(** Every image is good. *)
Definition good_core : DetectionCore :=
  {| detect_anomaly := fun _ _ => Ok (Some good_anomaly);
     classify_defects := fun _ _ _ => Ok (Some open_defect) |}.

(** Every image is anomalous and the classifier returns nothing. *)
Definition unclassified_core : DetectionCore :=
  {| detect_anomaly := fun _ _ => Ok (Some defect_anomaly);
     classify_defects := fun _ _ _ => Ok None |}.

(** Inference fails on the second and the fourth image of a batch (index 1
    and 3); the other images are anomalous with an open defect. *)
Definition flaky_core : DetectionCore :=
  {| detect_anomaly := fun _ path =>
       if String.prefix "temp_batch_1_" path ||
          String.prefix "temp_batch_3_" path ||
          String.eqb path "in/1.jpg" || String.eqb path "in/3.jpg"
       then Raise (mk_exn RuntimeError "inference failed")
       else Ok (Some defect_anomaly);
     classify_defects := fun _ _ _ => Ok (Some open_defect) |}.

Definition ready_detector (core : DetectionCore) : UnifiedDefectDetector :=
  {| model_loader_is_ready := true; detection_core := Some core |}.

Definition five_images : Request :=
  {| files_image := None;
     json := Ok (PDict [("images",
                         PList [PStr "aW1nMA=="; PStr "aW1nMQ==";
                                PStr "aW1nMg=="; PStr "aW1nMw==";
                                PStr "aW1nNA=="])]) |}.

Definition no_image : Request :=
  {| files_image := None; json := Ok (PDict []) |}.

(** A data URL without its payload: [split(',')[1]] fails on it. *)
Definition truncated_image : Request :=
  {| files_image := None;
     json := Ok (PDict [("image_base64", PStr "data:image/png;base64")]) |}.

(** Two accumulators that agree on every counter and on the set of defect
    types, and whose lists hold the same entries in some order. *)
Definition same_counts (a a' : Accumulator) : Prop :=
  acc_good a = acc_good a' /\
  acc_defective a = acc_defective a' /\
  acc_types a = acc_types a' /\
  acc_failed a = acc_failed a' /\
  acc_times a ≡ₚ acc_times a' /\
  acc_results a ≡ₚ acc_results a'.

(** The per-image outcomes of a batch request, in order: what each round of
    the loop of [batch_detect] contributes. *)
Fixpoint batch_items (B : Builtins) (E : Env) (det : UnifiedDefectDetector)
    (idx : nat) (images : list pyval) : M (list (option pyval)) :=
  match images with
  | [] => mret []
  | image_b64 :: rest =>
      item ← batch_detect_item B E det idx image_b64;
      items ← batch_items B E det (S idx) rest;
      mret (item :: items)
  end.


(** A formatted result from which the summary can read the decision. *)
Definition has_final_decision (flutter_result : pyval) : Prop :=
  exists fd, py_subscript flutter_result "final_decision" = Ok fd.

(** A batch request whose JSON body is [{'images': [...]}]. *)
Definition images_request (images : list pyval) : Request :=
  {| files_image := None; json := Ok (PDict [("images", PList images)]) |}.

(** The ['status'] entry of a reply, if it has one. *)
Definition reply_status (reply : Reply) : outcome pyval :=
  py_subscript (body reply) "status".

(** Inference fails on every image. *)
Definition failing_core : DetectionCore :=
  {| detect_anomaly := fun _ _ =>
       Raise (mk_exn RuntimeError "inference failed");
     classify_defects := fun _ _ _ => Ok None |}.

Definition good_result : DetectionResult :=
  {| image_path := "in/0.jpg";
     timestamp := "2024-05-01T12:00:00";
     anomaly_detection := good_anomaly;
     defect_classification := None;
     processing_time := 0.25;
     final_decision := "GOOD";
     detected_defect_types := Some [];
     visualization_path := Some (Some "outputs/batch/analysis.png");
     report_path := Some (PStr "outputs/batch/report.json") |}.

Definition open_result : DetectionResult :=
  {| image_path := "in/2.jpg";
     timestamp := "2024-05-01T12:00:01";
     anomaly_detection := defect_anomaly;
     defect_classification := Some open_defect;
     processing_time := 0.5;
     final_decision := "DEFECT";
     detected_defect_types := Some ["open"];
     visualization_path := Some (Some "outputs/batch/analysis.png");
     report_path := Some (PStr "outputs/batch/report.json") |}.

(** A result dict without the key [detected_defect_types]. *)
Definition unclassified_result_py : pyval :=
  PDict [("image_path", PStr "img.jpg");
         ("timestamp", PStr "2024-05-01T12:00:00");
         ("anomaly_detection", anomaly_to_py defect_anomaly);
         ("defect_classification", PNone);
         ("processing_time", PFloat 0.5);
         ("final_decision", PStr "DEFECT")].

(** * The pipeline and the handlers, continued *)

From Stdlib Require Import Sorting.Sorted.

(** The answer of the report writer never matters to the pipeline beyond
    its success; these two say that it always fails, or never does. *)
Definition report_writer_fails (E : Env) : Prop :=
  forall w r dir, exists e, save_analysis_report E w r dir = Raise e.

Definition report_writer_works (E : Env) : Prop :=
  forall w r dir, exists p, save_analysis_report E w r dir = Ok p.

Definition classify_events (w : world) : list event :=
  List.filter is_classify (calls w).

Definition is_good (r : DetectionResult) : bool :=
  String.eqb (final_decision r) "GOOD".

(** Whether an event is the call of the anomaly model for the image [p]. *)
Definition is_detect_of (p : string) (ev : event) : bool :=
  match ev with
  | EvDetect q => String.eqb q p
  | _ => false
  end.

(** The keys of a dict value, in order; nothing for other values. *)
Definition py_keys (v : pyval) : list string :=
  match v with
  | PDict d => map fst d
  | _ => []
  end.

(** The [image_index] entries of the results of a batch reply, in order. *)
Definition image_indices (results : list pyval) : list Z :=
  omap (fun fr => read_int fr "image_index") results.

(** Writing a temporary file never fails. *)
Definition writes_succeed (E : Env) : Prop :=
  forall w path data, write_file E w path data = Ok tt.

(** * Loading the models ([models/model_loader.py], [main.py]) *)

(** What loading depends on, with the answers it gets during one call: the
    file system, torch, the two model libraries, and the constructors of
    [core/detection.py] and [processors/video_processor.py], which are not
    among the sources and may raise like any call. [Model] stands for a model
    object; [load_checkpoint] is the rest of the [try] block of
    [_load_hrnet_model], which loads the weights into the created model. *)
Record Torch (Model : Type) : Type := {
  cuda_is_available : bool;
  os_path_exists : string -> bool;
  TorchInferencer : string -> string -> outcome Model;
  create_hrnet_model : outcome Model;
  load_checkpoint : Model -> string -> string -> outcome unit;
  new_DetectionCore : Model -> Model -> string -> outcome DetectionCore;
  new_VideoProcessor : DetectionCore -> outcome unit
}.

Arguments cuda_is_available {Model} _.
Arguments os_path_exists {Model} _ _.
Arguments TorchInferencer {Model} _ _ _.
Arguments create_hrnet_model {Model} _.
Arguments load_checkpoint {Model} _ _ _ _.
Arguments new_DetectionCore {Model} _ _ _ _.
Arguments new_VideoProcessor {Model} _ _.

(** [custom or default] for an optional path: [None] and the empty string
    are falsy. *)
Definition path_truthy (path : option string) : bool :=
  match path with
  | Some s => negb (String.eqb s "")
  | None => false
  end.

Definition path_or (custom : option string) (dflt : string) : string :=
  match custom with
  | Some s => if String.eqb s "" then dflt else s
  | None => dflt
  end.

(** [MODELS_DIR / "anomalib_model.pt"] and [MODELS_DIR / "hrnet_model.pth"] *)
Definition ANOMALIB_MODEL_PATH (E : Env) : string :=
  os_path_join (BASE_DIR E) ["models"; "anomalib_model.pt"].

Definition HRNET_MODEL_PATH (E : Env) : string :=
  os_path_join (BASE_DIR E) ["models"; "hrnet_model.pth"].

Definition DEVICE : string := "cuda".

Module ModelLoader.
Section Methods.
Context {Model : Type} (T : Torch Model) (E : Env).

Record t : Type := {
  device : string;
  anomalib_model : option Model;
  hrnet_model : option Model;
  models_loaded : bool
}.

Definition __init__ (device : string) : t :=
  {| device := if cuda_is_available T then device else "cpu";
     anomalib_model := None;
     hrnet_model := None;
     models_loaded := false |}.

Definition _load_anomalib_model (model_path : string) (self : t) : bool * t :=
  if negb (os_path_exists T model_path) then (false, self)
  else
    match TorchInferencer T model_path (device self) with
    | Ok inferencer =>
        (true,
         {| device := device self;
            anomalib_model := Some inferencer;
            hrnet_model := hrnet_model self;
            models_loaded := models_loaded self |})
    | Raise e => (false, self)
    end.

(** The created model is stored before the checkpoint is read, so it stays
    stored when reading the checkpoint fails. *)
Definition _load_hrnet_model (model_path : string) (self : t) : bool * t :=
  if negb (os_path_exists T model_path) then (false, self)
  else
    match create_hrnet_model T with
    | Raise e => (false, self)
    | Ok model =>
        let self :=
          {| device := device self;
             anomalib_model := anomalib_model self;
             hrnet_model := Some model;
             models_loaded := models_loaded self |} in
        match load_checkpoint T model model_path (device self) with
        | Ok _ => (true, self)
        | Raise e => (false, self)
        end
    end.

Definition load_models (anomalib_path hrnet_path : option string) (self : t)
  : bool * t :=
  let anomalib_model_path := path_or anomalib_path (ANOMALIB_MODEL_PATH E) in
  let hrnet_model_path := path_or hrnet_path (HRNET_MODEL_PATH E) in
  let (anomalib_success, self) := _load_anomalib_model anomalib_model_path self in
  let (hrnet_success, self) := _load_hrnet_model hrnet_model_path self in
  let self :=
    {| device := device self;
       anomalib_model := anomalib_model self;
       hrnet_model := hrnet_model self;
       models_loaded := anomalib_success && hrnet_success |} in
  (models_loaded self, self).

Definition get_models (self : t) : option Model * option Model :=
  if negb (models_loaded self) then (None, None)
  else (anomalib_model self, hrnet_model self).

Definition is_ready (self : t) : bool :=
  models_loaded self &&
  bool_decide (is_Some (anomalib_model self)) &&
  bool_decide (is_Some (hrnet_model self)).

End Methods.
End ModelLoader.

(** A detector as the handlers and [process_image] see it: the answer of
    [is_ready] and the core that the image processor runs. *)
Definition detector_view (ready : bool) (core : option DetectionCore)
  : UnifiedDefectDetector :=
  {| model_loader_is_ready := ready; detection_core := core |}.

(** [UnifiedDefectDetector] with its loader and its three processors. An
    image processor and a video processor are given by the detection core
    they wrap. Model objects are truthy, as objects that define neither
    [__bool__] nor [__len__] are. *)
Module Detector.
Section Methods.
Context {Model : Type} (T : Torch Model) (E : Env).

Record t : Type := {
  device : string;
  model_loader : @ModelLoader.t Model;
  detection_core : option DetectionCore;
  image_processor : option DetectionCore;
  video_processor : option DetectionCore
}.

Definition with_model_loader (self : t) (loader : @ModelLoader.t Model) : t :=
  {| device := device self;
     model_loader := loader;
     detection_core := detection_core self;
     image_processor := image_processor self;
     video_processor := video_processor self |}.

(** An exception of a constructor leaves the attributes assigned before it. *)
Definition _initialize_processors (self : t) : outcome bool * t :=
  match ModelLoader.get_models (model_loader self) with
  | (Some anomalib_model, Some hrnet_model) =>
      match new_DetectionCore T anomalib_model hrnet_model (device self) with
      | Raise e => (Raise e, self)
      | Ok core =>
          let self :=
            {| device := device self;
               model_loader := model_loader self;
               detection_core := Some core;
               image_processor := Some core;
               video_processor := video_processor self |} in
          match new_VideoProcessor T core with
          | Raise e => (Raise e, self)
          | Ok _ =>
              (Ok true,
               {| device := device self;
                  model_loader := model_loader self;
                  detection_core := detection_core self;
                  image_processor := image_processor self;
                  video_processor := Some core |})
          end
      end
  | _ => (Ok false, self)
  end.

Definition load_custom_models (anomalib_path hrnet_path : option string)
    (self : t) : outcome bool * t :=
  let (success, loader) :=
    ModelLoader.load_models T E anomalib_path hrnet_path (model_loader self) in
  let self := with_model_loader self loader in
  if success then
    match _initialize_processors self with
    | (Ok _, self) => (Ok success, self)
    | (Raise e, self) => (Raise e, self)
    end
  else (Ok success, self).

Definition load_models (self : t) : outcome bool * t :=
  load_custom_models None None self.

Definition is_ready (self : t) : bool :=
  ModelLoader.is_ready (model_loader self) &&
  bool_decide (is_Some (detection_core self)) &&
  bool_decide (is_Some (image_processor self)) &&
  bool_decide (is_Some (video_processor self)).

(** The device the detector keeps for a requested one. *)
Definition chosen_device (device : option string) : string :=
  let device := path_or device DEVICE in
  if String.eqb device "cuda" && negb (cuda_is_available T) then "cpu"
  else device.

(** The constructor; an exception leaves no detector. *)
Definition __init__ (anomalib_model_path hrnet_model_path device : option string)
    (auto_load : bool) : outcome t :=
  let self :=
    {| device := chosen_device device;
       model_loader := ModelLoader.__init__ T (chosen_device device);
       detection_core := None;
       image_processor := None;
       video_processor := None |} in
  if auto_load then
    let (success, self) :=
      if path_truthy anomalib_model_path || path_truthy hrnet_model_path
      then load_custom_models anomalib_model_path hrnet_model_path self
      else load_models self in
    match success with
    | Raise e => Raise e
    | Ok true =>
        match _initialize_processors self with
        | (Ok _, self) => Ok self
        | (Raise e, _) => Raise e
        end
    | Ok false => Ok self
    end
  else Ok self.

(** [create_detector] *)
Definition create_detector (anomalib_path hrnet_path device : option string)
  : outcome t :=
  __init__ anomalib_path hrnet_path device true.

Definition facade (self : t) : UnifiedDefectDetector :=
  detector_view (is_ready self) (image_processor self).

End Methods.
End Detector.

(** The detectors a program can hold: returned by the constructor, then
    reloaded any number of times, whatever each call returns or raises and
    with the answers each call gets at its moment. *)
Inductive reachable {Model : Type} (E : Env) : @Detector.t Model -> Prop :=
| reachable_init (T : Torch Model)
    (anomalib_model_path hrnet_model_path device : option string)
    (auto_load : bool) (self : Detector.t) :
    Detector.__init__ T E anomalib_model_path hrnet_model_path device auto_load =
      Ok self ->
    reachable E self
| reachable_load (T : Torch Model) (anomalib_path hrnet_path : option string)
    (self : Detector.t) :
    reachable E self ->
    reachable E
      (snd (Detector.load_custom_models T E anomalib_path hrnet_path self)).

(** * Thresholds and system information over HTTP *)

(** The module globals of [main.py] that [update_thresholds] rebinds, as
    Python values: the endpoint hands over whatever the JSON body holds. *)
Module Main.

Record t : Type := {
  ANOMALY_THRESHOLD : pyval;
  DEFECT_CONFIDENCE_THRESHOLD : pyval
}.

(** [UnifiedDefectDetector.update_thresholds] *)
Definition update_thresholds (anomaly_threshold defect_threshold : pyval)
    (g : t) : t :=
  let g :=
    match anomaly_threshold with
    | PNone => g
    | _ =>
        {| ANOMALY_THRESHOLD := anomaly_threshold;
           DEFECT_CONFIDENCE_THRESHOLD := DEFECT_CONFIDENCE_THRESHOLD g |}
    end in
  match defect_threshold with
  | PNone => g
  | _ =>
      {| ANOMALY_THRESHOLD := ANOMALY_THRESHOLD g;
         DEFECT_CONFIDENCE_THRESHOLD := defect_threshold |}
  end.

(** [SPECIFIC_DEFECT_CLASSES] of [config.py] *)
Definition SPECIFIC_DEFECT_CLASSES : list (Z * string) :=
  [(0, "background"); (1, "damaged"); (2, "missing_component"); (3, "open");
   (4, "scratch"); (5, "stained")]%Z.

(** [UnifiedDefectDetector.get_system_info]; the integer keys of the
    supported classes are written as JSON writes them. *)
Definition get_system_info {Model : Type} (self : @Detector.t Model) (g : t)
  : pyval :=
  PDict [("device", PStr (Detector.device self));
         ("models_loaded",
           PBool (ModelLoader.is_ready (Detector.model_loader self)));
         ("system_ready", PBool (Detector.is_ready self));
         ("anomaly_threshold", ANOMALY_THRESHOLD g);
         ("defect_threshold", DEFECT_CONFIDENCE_THRESHOLD g);
         ("supported_classes",
           PDict (map (fun kv => (pretty (fst kv), PStr (snd kv)))
                      SPECIFIC_DEFECT_CLASSES))].

End Main.

(** The globals when they hold two floats, and an argument that is left out
    or given as a float. *)
Definition of_thresholds (g : Thresholds) : Main.t :=
  {| Main.ANOMALY_THRESHOLD := PFloat (ANOMALY_THRESHOLD g);
     Main.DEFECT_CONFIDENCE_THRESHOLD := PFloat (DEFECT_CONFIDENCE_THRESHOLD g) |}.

Definition of_argument (threshold : option float) : pyval :=
  match threshold with
  | Some t => PFloat t
  | None => PNone
  end.

(** The two endpoints; [jsonify] of the answers cannot fail here, so the
    [except] branch of the update is reached only from [request.json] and
    from [data.get]. *)
Module Api.
Section Handlers.
Context {Model : Type}.

(** [GET /api/system-info] *)
Definition get_system_info (detector : option (@Detector.t Model))
    (g : Main.t) : Reply :=
  match detector with
  | None => error_reply "Detector not initialized" 500
  | Some det =>
      mk_reply (PDict [("status", PStr "success");
                       ("data", Main.get_system_info det g)])
               200
  end.

(** [POST /api/update-thresholds]: the reply and the globals afterwards *)
Definition update_thresholds (detector : option (@Detector.t Model))
    (req : Request) (g : Main.t) : Reply * Main.t :=
  match detector with
  | None => (error_reply "Detector not initialized" 500, g)
  | Some det =>
      match json req with
      | Raise e => (error_reply (exn_str e) 500, g)
      | Ok data =>
          if negb (py_truthy data) then
            (error_reply "No data provided" 400, g)
          else
            match (anomaly_threshold ← py_get data "anomaly_threshold" PNone;
                   defect_threshold ← py_get data "defect_threshold" PNone;
                   Ok (anomaly_threshold, defect_threshold)) with
            | Ok (anomaly_threshold, defect_threshold) =>
                (mk_reply
                   (PDict [("status", PStr "success");
                           ("message",
                             PStr "Thresholds updated successfully")])
                   200,
                 Main.update_thresholds anomaly_threshold defect_threshold g)
            | Raise e => (error_reply (exn_str e) 500, g)
            end
      end
  end.

End Handlers.
End Api.


(** * The test runner ([run_tests.py]) *)

(** [result['anomaly_detection']['anomaly_score']] *)
Definition result_anomaly_score (result : DetectionResult) : float :=
  anomaly_score (anomaly_detection result).

Module BackendTester.

(** What an entry of [results] holds for a run that returned a result. *)
Record TestMeasures : Type := {
  anomaly_score : float;
  processing_time : float;
  defects : list string;
  has_visualization : bool;
  has_report : bool
}.

(** An entry of [results]; [matched] is its key ['match']. *)
Record TestEntry : Type := {
  test_name : string;
  expected : string;
  actual : string;
  matched : bool;
  measures : option TestMeasures;
  error : option string
}.

(** An entry of [test_results], by its status. *)
Inductive TestResult : Type :=
| completed (total_tests passed_tests : nat) (success_rate : float)
    (avg_processing_time : pyval) (results : list TestEntry)
| skipped (reason : string)
| crashed (error : string).

Definition status (r : TestResult) : string :=
  match r with
  | completed _ _ _ _ _ => "completed"
  | skipped _ => "skipped"
  | crashed _ => "crashed"
  end.

Record t : Type := {
  detector : option UnifiedDefectDetector;
  test_results : list (string * TestResult);
  test_images : list (string * string * string);
  test_output_dir : string
}.

(** [self.test_results[k] = v] *)
Fixpoint set_result (k : string) (v : TestResult)
    (d : list (string * TestResult)) : list (string * TestResult) :=
  match d with
  | [] => [(k, v)]
  | (k', v') :: rest =>
      if String.eqb k k' then (k', v) :: rest else (k', v') :: set_result k v rest
  end.

Definition with_result (self : t) (k : string) (v : TestResult) : t :=
  {| detector := detector self;
     test_results := set_result k v (test_results self);
     test_images := test_images self;
     test_output_dir := test_output_dir self |}.

(** The five pictures of [_create_test_images], with the decision expected
    for each; drawing and writing them is left out. *)
Definition _create_test_images (output_dir : string)
  : list (string * string * string) :=
  [("good_product", os_path_join output_dir ["good_product.jpg"], "GOOD");
   ("scratched_product", os_path_join output_dir ["scratched_product.jpg"],
    "DEFECT");
   ("stained_product", os_path_join output_dir ["stained_product.jpg"],
    "DEFECT");
   ("missing_component", os_path_join output_dir ["missing_component.jpg"],
    "DEFECT");
   ("damaged_product", os_path_join output_dir ["damaged_product.jpg"],
    "DEFECT")].

(** One round of the loop of [test_single_image_processing]: the entry for
    [results] and, unless [process_image] raised, the processing time. *)
Definition test_image (E : Env) (det : UnifiedDefectDetector)
    (output_dir : string) (test : string * string * string)
  : M (TestEntry * option float) :=
  let '(name, image_path, expected) := test in
  t0 ← next_tick;
  let start_time := time_time E t0 in
  try_except
    (result ← process_image E det image_path (Some output_dir);
     t1 ← next_tick;
     let processing_time := PrimFloat.sub (time_time E t1) start_time in
     match result with
     | Some result =>
         let decision := final_decision result in
         mret ({| test_name := name;
                  expected := expected;
                  actual := decision;
                  matched := String.eqb decision expected;
                  measures :=
                    Some {| anomaly_score := result_anomaly_score result;
                            processing_time := processing_time;
                            defects := default [] (detected_defect_types result);
                            has_visualization :=
                              match visualization_path result with
                              | Some (Some _) => true
                              | _ => false
                              end;
                            has_report :=
                              match report_path result with
                              | Some PNone | None => false
                              | Some _ => true
                              end |};
                  error := None |},
               Some processing_time)
     | None =>
         mret ({| test_name := name;
                  expected := expected;
                  actual := "ERROR";
                  matched := false;
                  measures := None;
                  error := Some "No result returned" |},
               Some processing_time)
     end)
    (fun e =>
       mret ({| test_name := name;
                expected := expected;
                actual := "ERROR";
                matched := false;
                measures := None;
                error := Some (exn_str e) |},
             None)).

(** The loop: [results] and [processing_times], in order. *)
Fixpoint test_images_loop (E : Env) (det : UnifiedDefectDetector)
    (output_dir : string) (tests : list (string * string * string))
    (results : list TestEntry) (processing_times : list float)
  : M (list TestEntry * list float) :=
  match tests with
  | [] => mret (results, processing_times)
  | test :: rest =>
      round ← test_image E det output_dir test;
      test_images_loop E det output_dir rest
        (results ++ [fst round])
        match snd round with
        | Some processing_time => processing_times ++ [processing_time]
        | None => processing_times
        end
  end.

(** How a call of [test_single_image_processing] ends: with its return
    value, or with the ZeroDivisionError of [passed_tests / total_tests],
    whose message is [division by zero]. *)
Inductive ending : Type :=
| Returned (success : bool)
| ZeroDivisionError.

Definition test_single_image_processing (B : Builtins) (E : Env) (self : t)
  : M (ending * t) :=
  match detector self with
  | Some det =>
      if is_ready det then
        run ← test_images_loop E det (test_output_dir self) (test_images self)
                [] [];
        let (results, processing_times) := run : list TestEntry * list float in
        let total_tests := length results in
        let passed_tests := length (List.filter matched results) in
        let avg_processing_time :=
          match processing_times with
          | [] => PInt 0
          | _ => PFloat (np_mean B processing_times)
          end in
        if Nat.eqb total_tests 0 then mret (ZeroDivisionError, self)
        else
          let success_rate :=
            PrimFloat.mul
              (PrimFloat.div (float_of_Z (Z.of_nat passed_tests))
                             (float_of_Z (Z.of_nat total_tests)))
              (float_of_Z 100) in
          mret (Returned (Nat.ltb 0 passed_tests),
                with_result self "single_image"
                  (completed total_tests passed_tests success_rate
                     avg_processing_time results))
      else
        mret (Returned false,
              with_result self "single_image" (skipped "detector not ready"))
  | None =>
      mret (Returned false,
            with_result self "single_image" (skipped "detector not ready"))
  end.

(** The assessment line of [generate_test_report]. *)
Definition overall_assessment (self : t) : string :=
  let completed_tests :=
    Z.of_nat
      (length (List.filter (fun r => String.eqb (status (snd r)) "completed")
                 (test_results self))) in
  let total_tests := Z.of_nat (length (test_results self)) in
  if (completed_tests =? total_tests)%Z then
    "Status: ALL TESTS PASSED - Backend is fully functional!"
  else if (total_tests - 1 <=? completed_tests)%Z then
    "Status: MOSTLY FUNCTIONAL - Minor issues detected"
  else
    "Status: ISSUES DETECTED - Check failed tests".

(** [setup_test_environment], given what [create_detector] did. *)
Definition setup_test_environment (created : outcome UnifiedDefectDetector)
    (self : t) : bool * t :=
  let test_data_dir := os_path_join (test_output_dir self) ["test_images"] in
  let self :=
    {| detector := detector self;
       test_results := test_results self;
       test_images := _create_test_images test_data_dir;
       test_output_dir := test_output_dir self |} in
  match created with
  | Ok det =>
      (is_ready det,
       {| detector := Some det;
          test_results := test_results self;
          test_images := test_images self;
          test_output_dir := test_output_dir self |})
  | Raise e => (false, self)
  end.

(** [BackendTester()] *)
Definition __init__ (test_output_dir : string) : t :=
  {| detector := None;
     test_results := [];
     test_images := [];
     test_output_dir := test_output_dir |}.

(** [run_all_tests] up to the report: the number of tests passed, and the
    tester, whose [test_results] are returned. *)
Definition run_all_tests (B : Builtins) (E : Env)
    (created : outcome UnifiedDefectDetector) (self : t) : M (nat * t) :=
  let self := snd (setup_test_environment created self) in
  run ← test_single_image_processing B E self;
  match fst run with
  | Returned success => mret (if success : bool then 1 else 0, snd run)
  | ZeroDivisionError =>
      mret (0, with_result (snd run) "single_image_processing"
                 (crashed "division by zero"))
  end.

End BackendTester.

(** * The server and its detector *)

(** [FlutterAPIServer._initialize_detector]: the server started where
    loading gets the answers [T]. An exception of [create_detector] leaves
    the server without a detector. *)
Definition _initialize_detector {Model : Type} (T : Torch Model) (E : Env)
  : FlutterAPIServer :=
  {| detector :=
       match Detector.create_detector T E None None None with
       | Ok det => Some (Detector.facade det)
       | Raise e => None
       end |}.

(** Everything that loading with the paths of [config.py] needs went well,
    and gave the two models and the core. *)
Definition models_in_place {Model : Type} (T : Torch Model) (E : Env)
    (anomalib_model hrnet_model : Model) (core : DetectionCore) : Prop :=
  let device := if cuda_is_available T then "cuda" else "cpu" in
  os_path_exists T (ANOMALIB_MODEL_PATH E) = true /\
  TorchInferencer T (ANOMALIB_MODEL_PATH E) device = Ok anomalib_model /\
  os_path_exists T (HRNET_MODEL_PATH E) = true /\
  create_hrnet_model T = Ok hrnet_model /\
  load_checkpoint T hrnet_model (HRNET_MODEL_PATH E) device = Ok tt /\
  new_DetectionCore T anomalib_model hrnet_model device = Ok core /\
  new_VideoProcessor T core = Ok tt.

(** * The chart of a batch ([utils/visualization.py]) *)

(** [defect_counts.get(defect, 0)] *)
Fixpoint counts_get (defect : string) (defect_counts : list (string * nat))
  : nat :=
  match defect_counts with
  | [] => 0
  | (k, n) :: rest =>
      if String.eqb defect k then n else counts_get defect rest
  end.

(** [defect_counts[defect] = defect_counts.get(defect, 0) + 1]: a key keeps
    its place, a new one goes last. *)
Fixpoint count_defect (defect : string) (defect_counts : list (string * nat))
  : list (string * nat) :=
  match defect_counts with
  | [] => [(defect, 1)]
  | (k, n) :: rest =>
      if String.eqb defect k then (k, S n) :: rest
      else (k, n) :: count_defect defect rest
  end.

(** The loop of [save_batch_visualization] that fills [defect_counts] from
    the results that have the key [detected_defect_types]. *)
Definition defect_counts (results : list DetectionResult)
  : list (string * nat) :=
  fold_left
    (fun counts result =>
       match detected_defect_types result with
       | Some types =>
           fold_left (fun counts defect => count_defect defect counts)
                     types counts
       | None => counts
       end)
    results [].

(** The names and the heights of the bars of the defect frequency plot;
    [None] when the summary lists no defect type and the plot shows the text
    'No Defects Found' instead. *)
Definition defect_bars (results : list DetectionResult) (summary : BatchSummary)
  : option (list string * list nat) :=
  match defect_types_found summary with
  | [] => None
  | _ =>
      let counts := defect_counts results in
      Some (map fst counts, map snd counts)
  end.

(** How many times the results list a defect type. *)
Definition mentions (defect : string) (results : list DetectionResult) : nat :=
  list_sum
    (map (fun r =>
            length (List.filter (String.eqb defect)
                      (default [] (detected_defect_types r))))
         results).

(** * The convenience functions *)

(** [auto_load_models] and [load_custom_models] of [models/model_loader.py] *)
Definition load_custom_models {Model : Type} (T : Torch Model) (E : Env)
    (anomalib_path hrnet_path : option string) (device : string)
  : option Model * option Model :=
  let loader := ModelLoader.__init__ T device in
  let (loaded, loader) :=
    ModelLoader.load_models T E anomalib_path hrnet_path loader in
  if loaded then ModelLoader.get_models loader else (None, None).

Definition auto_load_models {Model : Type} (T : Torch Model) (E : Env)
    (device : string) : option Model * option Model :=
  let loader := ModelLoader.__init__ T device in
  let (loaded, loader) := ModelLoader.load_models T E None None loader in
  if loaded then ModelLoader.get_models loader else (None, None).


(** * Further concrete collaborators *)

(** A folder with one picture, which [glob] finds under the plain pattern
    and, as it does for a file directly in the folder, under the recursive
    one as well. *)
Definition one_picture_env : Env :=
  {| BASE_DIR := "";
     time_time := fun t => float_of_Z (Z.of_nat t);
     now_isoformat := fun _ => "2024-05-01T12:00:00";
     uuid4 := fun t => "uuid" +:+ pretty t;
     glob_glob := fun pattern recursive =>
       if String.eqb pattern "in/*.png" || String.eqb pattern "in/**/*.png"
       then ["in/a.png"] else [];
     create_visualization := fun _ r dir => None;
     save_analysis_report := fun _ r dir => Ok (PStr (dir +:+ "/report.json"));
     write_file := fun _ _ _ => Ok tt;
     makedirs := fun _ _ => Ok tt;
     write_summary := fun _ _ _ => Ok tt |}.

(** A world in which one file, which no handler wrote, exists. *)
Definition world_with_file : world := mk_world 0 [EvWriteFile "keep.txt"].

(** An environment whose report writer fails for want of disk space. *)
Definition broken_report_env : Env :=
  {| BASE_DIR := "";
     time_time := fun t => float_of_Z (Z.of_nat t);
     now_isoformat := fun _ => "2024-05-01T12:00:00";
     uuid4 := fun t => "uuid" +:+ pretty t;
     glob_glob := fun pattern recursive => [];
     create_visualization := fun _ r dir => Some (dir +:+ "/analysis.png");
     save_analysis_report := fun _ r dir =>
       Raise (mk_exn OSError "[Errno 28] No space left on device");
     write_file := fun _ _ _ => Ok tt;
     makedirs := fun _ _ => Ok tt;
     write_summary := fun _ _ _ => Ok tt |}.

(** The folder of [one_picture_env] on a disk on which no folder can be
    made. *)
Definition read_only_env : Env :=
  {| BASE_DIR := "";
     time_time := fun t => float_of_Z (Z.of_nat t);
     now_isoformat := fun _ => "2024-05-01T12:00:00";
     uuid4 := fun t => "uuid" +:+ pretty t;
     glob_glob := fun pattern recursive =>
       if String.eqb pattern "in/*.png" || String.eqb pattern "in/**/*.png"
       then ["in/a.png"] else [];
     create_visualization := fun _ r dir => None;
     save_analysis_report := fun _ r dir => Ok (PStr (dir +:+ "/report.json"));
     write_file := fun _ _ _ => Ok tt;
     makedirs := fun _ path =>
       Raise (mk_exn OSError "[Errno 30] Read-only file system");
     write_summary := fun _ _ _ => Ok tt |}.

(** A request without a JSON body, as Flask reads it from version 2.1 on:
    [request.json] raises. *)
Definition bodyless_request : Request :=
  {| files_image := None;
     json := Raise (mk_exn HTTPException "415 Unsupported Media Type") |}.

(** A single-detection request with a base64 image in its JSON body. *)
Definition base64_image : Request :=
  {| files_image := None; json := Ok (PDict [("image_base64", PStr "aW1n")]) |}.

Definition two_images : list pyval := [PStr "aW1nMA=="; PStr "aW1nMQ=="].

(** A machine without CUDA on which both model files are in place; a model
    is named by where it came from. *)
Definition example_torch : Torch string :=
  {| cuda_is_available := false;
     os_path_exists := fun _ => true;
     TorchInferencer := fun path device => Ok (path +:+ "@" +:+ device);
     create_hrnet_model := Ok "hrnet";
     load_checkpoint := fun _ _ _ => Ok tt;
     new_DetectionCore := fun _ _ _ => Ok good_core;
     new_VideoProcessor := fun _ => Ok tt |}.

(** The same machine once the model files are gone. *)
Definition no_files_torch : Torch string :=
  {| cuda_is_available := false;
     os_path_exists := fun _ => false;
     TorchInferencer := fun path device => Ok (path +:+ "@" +:+ device);
     create_hrnet_model := Ok "hrnet";
     load_checkpoint := fun _ _ _ => Ok tt;
     new_DetectionCore := fun _ _ _ => Ok good_core;
     new_VideoProcessor := fun _ => Ok tt |}.

(** * Properties *)

Ltac run_M :=
  unfold mbind, mret, M_bind, M_ret, try_except, lift, log, next_tick,
    get_world, raise in *; cbn [fst snd tick calls] in *.

Ltac count_calls :=
  unfold classify_calls; cbn [calls];
  rewrite ?List.filter_app, ?length_app; cbn; lia.

(** C1. When the anomaly stage answers GOOD, the run never invokes the
    segmentation model (the number of its calls is unchanged), every result
    it returns has final decision GOOD, no defect classification and an empty
    list of detected defect types, and the run ends with a result or with
    [None] (when the report writer raises), never with an exception. *)
Theorem good_gate_skips_classification
    (E : Env) (detection_core : DetectionCore) (image_path : string)
    (output_dir : option string) (w : world) (a : AnomalyResult) :
  anomaly_stage detection_core image_path w = Ok (Some a) ->
  decision a = "GOOD" ->
  let run := process_single_image E detection_core image_path output_dir w in
  classify_calls (snd run) = classify_calls w /\
  (forall r, fst run = Ok (Some r) ->
     final_decision r = "GOOD" /\
     defect_classification r = None /\
     detected_defect_types r = Some []) /\
  (fst run = Ok None \/ exists r, fst run = Ok (Some r)).
Proof.
  intros Hstage Hgood run; subst run.
  unfold anomaly_stage in Hstage.
  unfold process_single_image. run_M.
  rewrite Hstage. rewrite Hgood. cbn.
  destruct (save_analysis_report E _ _ _) as [report|e]; cbn.
  - split; [count_calls|].
    split; [|right; eauto].
    intros r [= <-]. cbn. auto.
  - split; [count_calls|].
    split; [|left; eauto]. intros r [=].
Qed.

(** ** Facts about the single-image run *)

Ltac filter_calls :=
  unfold detect_calls, classify_calls; cbn [calls];
  rewrite ?List.filter_app, <- ?app_assoc; cbn; rewrite ?app_nil_r.

(** The [try/except] of [process_single_image] catches every exception, and
    each run asks the anomaly model exactly once. *)
Lemma process_single_image_runs (E : Env) (detection_core : DetectionCore)
    (image_path : string) (output_dir : option string) (w : world) :
  exists o w',
    process_single_image E detection_core image_path output_dir w = (Ok o, w') /\
    detect_calls w' = detect_calls w ++ [EvDetect image_path].
Proof.
  unfold process_single_image. run_M.
  destruct (detect_anomaly detection_core _ image_path) as [[a|]|e]; cbn.
  2,3: eexists _, _; split; [reflexivity|by filter_calls].
  destruct (String.eqb (decision a) "DEFECT"); cbn.
  - destruct (classify_defects detection_core _ image_path _) as [[d|]|e]; cbn.
    3: eexists _, _; split; [reflexivity|by filter_calls].
    all: destruct (save_analysis_report E _ _ _) as [report|e]; cbn.
    all: eexists _, _; split; [reflexivity|by filter_calls].
  - destruct (save_analysis_report E _ _ _) as [report|e]; cbn.
    all: eexists _, _; split; [reflexivity|by filter_calls].
Qed.

Lemma run_images_runs (E : Env) (detection_core : DetectionCore)
    (output_folder : string) (image_files : list string) (w : world) :
  exists outcomes w',
    run_images E detection_core output_folder image_files w = (Ok outcomes, w') /\
    length outcomes = length image_files /\
    detect_calls w' = detect_calls w ++ map EvDetect image_files.
Proof.
  revert w; induction image_files as [|image_path rest IH]; intros w.
  - exists [], w. cbn. by rewrite app_nil_r.
  - destruct (process_single_image_runs E detection_core image_path
                (Some output_folder) w) as (o & w1 & Hrun & Hcalls).
    destruct (IH w1) as (os & w2 & Hrest & Hlen & Hcalls2).
    exists (o :: os), w2. cbn [run_images]. run_M.
    rewrite Hrun, Hrest. cbn. repeat split; [by rewrite Hlen|].
    by rewrite Hcalls2, Hcalls, <- app_assoc.
Qed.

(** The loop of [process_batch_images] folds the outcomes of its runs. *)
Lemma batch_loop_folds (E : Env) (detection_core : DetectionCore)
    (output_folder : string) (image_files : list string) (acc : Accumulator)
    (w : world) (outcomes : list (option DetectionResult)) (w' : world) :
  run_images E detection_core output_folder image_files w = (Ok outcomes, w') ->
  batch_loop E detection_core output_folder image_files acc w =
    (Ok (fold_results outcomes acc), w').
Proof.
  revert acc w outcomes w'.
  induction image_files as [|image_path rest IH]; intros acc w outcomes w'.
  - cbn. by intros [= <- <-].
  - cbn [run_images batch_loop]. run_M.
    destruct (process_single_image_runs E detection_core image_path
                (Some output_folder) w) as (o & w1 & Hrun & _).
    rewrite Hrun.
    destruct (run_images_runs E detection_core output_folder rest w1)
      as (os & w2 & Hrest & _).
    rewrite Hrest. cbn. intros [= <- <-].
    change (fold_results (o :: os) acc)
      with (fold_results os (fold_result acc o)).
    by apply IH.
Qed.

(** ** Facts about the fold *)

Lemma fold_results_results (outcomes : list (option DetectionResult))
    (acc : Accumulator) :
  acc_results (fold_results outcomes acc) = acc_results acc ++ successes outcomes.
Proof.
  revert acc; induction outcomes as [|o os IH]; intros acc.
  - cbn. by rewrite app_nil_r.
  - unfold fold_results in *. cbn [fold_left]. rewrite IH.
    destruct o as [r|]; cbn; [|done].
    destruct (String.eqb (final_decision r) "GOOD"); cbn;
      by rewrite <- app_assoc.
Qed.

Lemma fold_results_failed (outcomes : list (option DetectionResult))
    (acc : Accumulator) :
  acc_failed (fold_results outcomes acc) = acc_failed acc + count_failed outcomes.
Proof.
  revert acc; induction outcomes as [|o os IH]; intros acc.
  - cbn. lia.
  - unfold fold_results, count_failed in *. cbn [fold_left]. rewrite IH.
    destruct o as [r|]; cbn; [|lia].
    destruct (String.eqb (final_decision r) "GOOD"); cbn; lia.
Qed.

Lemma successes_failed_length (outcomes : list (option DetectionResult)) :
  length (successes outcomes) + count_failed outcomes = length outcomes.
Proof.
  unfold successes, count_failed.
  induction outcomes as [|[r|] os IH]; cbn in *; lia.
Qed.

(** C2. After [update_thresholds], a threshold given in the call holds the
    new value and one left out keeps its previous value; [get_system_info]
    reports these values, and every pipeline run served after the update
    (until the next one) decides with them: its anomaly decision compares
    the score with the current anomaly threshold, and it reads the current
    defect threshold. *)
Theorem update_thresholds_read_by_later_runs
    (g : Thresholds) (a d : option float) (runs : list (float * pyval)) :
  let g' := update_thresholds a d g in
  ANOMALY_THRESHOLD g' = default (ANOMALY_THRESHOLD g) a /\
  DEFECT_CONFIDENCE_THRESHOLD g' = default (DEFECT_CONFIDENCE_THRESHOLD g) d /\
  get_system_info_thresholds g' =
    [("anomaly_threshold", PFloat (default (ANOMALY_THRESHOLD g) a));
     ("defect_threshold", PFloat (default (DEFECT_CONFIDENCE_THRESHOLD g) d))] /\
  serve g (CallUpdate a d :: map (fun r => CallPipeline (fst r) (snd r)) runs) =
    (map (fun r =>
            {| read_anomaly :=
                 {| anomaly_score := fst r;
                    decision :=
                      if PrimFloat.leb (default (ANOMALY_THRESHOLD g) a) (fst r)
                      then "DEFECT" else "GOOD";
                    threshold_used := default (ANOMALY_THRESHOLD g) a;
                    anomaly_mask := snd r |};
               read_defect_threshold :=
                 default (DEFECT_CONFIDENCE_THRESHOLD g) d |})
         runs,
     g').
Proof.
  intros g'.
  assert (Ha : ANOMALY_THRESHOLD g' = default (ANOMALY_THRESHOLD g) a)
    by (subst g'; destruct a, d; reflexivity).
  assert (Hd : DEFECT_CONFIDENCE_THRESHOLD g' =
               default (DEFECT_CONFIDENCE_THRESHOLD g) d)
    by (subst g'; destruct a, d; reflexivity).
  repeat split; try assumption.
  - unfold get_system_info_thresholds. by rewrite Ha, Hd.
  - cbn [serve]. fold g'. rewrite <- Ha, <- Hd. clearbody g'. clear Ha Hd.
    induction runs as [|[score mask] rest IH]; [reflexivity|].
    cbn [map serve fst snd]. rewrite IH. reflexivity.
Qed.

(** ** Facts about the formatter *)

Lemma bind_Ok {A C : Type} (m : outcome A) (f : A -> outcome C) (c : C) :
  (m ≫= f) = Ok c -> exists a, m = Ok a /\ f a = Ok c.
Proof. destruct m as [a|e]; cbn; [eauto|discriminate]. Qed.

(** Peel the successful steps off a chain of binds. *)
Ltac inv_binds H :=
  repeat
    (let a := fresh "v" in
     let Ha := fresh "Hv" in
     apply bind_Ok in H as (a & Ha & H)).

(** The shape of a successful projection: the dict literal, with the two
    entries the classification branch overwrites. *)
Lemma project_response_shape (B : Builtins) (result resp : pyval) :
  project_response B result = Ok resp ->
  exists fd pt ts ad dd n dc bbs,
    py_get result "detected_defect_types" (PList []) = Ok dd /\
    py_len dd = Ok n /\
    resp = PDict [("status", PStr "success");
                  ("final_decision", fd);
                  ("processing_time", pt);
                  ("timestamp", ts);
                  ("anomaly_detection", ad);
                  ("defect_classification", dc);
                  ("detected_defects", dd);
                  ("defect_count", PInt n);
                  ("bounding_boxes", bbs)].
Proof.
  unfold project_response. intros H. inv_binds H.
  assert (v8 = v9) as <- by congruence.
  destruct (py_truthy v11).
  - inv_binds H. injection H as <-. cbn.
    eexists _, _, _, _, _, _, _, _. eauto.
  - injection H as <-.
    eexists _, _, _, _, _, _, _, _. eauto.
Qed.

(** C6. The formatter returns an object for every internal result and never
    raises: when the projection succeeds it returns that projection, whose
    status is 'success'; when the projection fails, with whatever exception,
    it returns the error object, whose status is 'error'. *)
Theorem format_flutter_response_never_raises (B : Builtins) (result : pyval) :
  exists resp,
    _format_flutter_response B result = Ok resp /\
    match project_response B result with
    | Ok projection =>
        resp = projection /\ py_subscript resp "status" = Ok (PStr "success")
    | Raise e =>
        resp = error_response e /\
        py_subscript resp "status" = Ok (PStr "error") /\
        py_subscript resp "error" = Ok (PStr (exn_str e))
    end.
Proof.
  unfold _format_flutter_response.
  destruct (project_response B result) as [projection|e] eqn:Hp.
  - exists projection. split; [reflexivity|]. split; [reflexivity|].
    apply project_response_shape in Hp
      as (fd & pt & ts & ad & dd & n & dc & bbs & _ & _ & ->).
    reflexivity.
  - exists (error_response e). by cbn.
Qed.

(** What [get] finds under a key that a typed result may or may not have. *)
Lemma result_to_py_defect_types (r : DetectionResult) :
  py_get (result_to_py r) "detected_defect_types" (PList []) =
    Ok (names_to_py (default [] (detected_defect_types r))).
Proof.
  destruct r as [path ts a dc pt fd [types|] [viz|] [rep|]]; reflexivity.
Qed.

(** C10. In every successful response of the formatter, [defect_count] is the
    length of the [detected_defects] entry of that response, and that entry
    is the result's [detected_defect_types], or the empty list when the key
    is absent: for a list of k items the count is k, without the key it is
    0, and for a result of the pipeline it is the number of defect types
    the result names. *)
Theorem defect_count_is_length (B : Builtins) (result resp : pyval) :
  project_response B result = Ok resp ->
  exists dd n,
    py_subscript resp "detected_defects" = Ok dd /\
    py_len dd = Ok n /\
    py_subscript resp "defect_count" = Ok (PInt n) /\
    py_get result "detected_defect_types" (PList []) = Ok dd /\
    (forall l, dd = PList l -> n = Z.of_nat (length l)) /\
    (forall d,
       result = PDict d -> dict_get "detected_defect_types" d = None ->
       dd = PList [] /\ n = 0%Z) /\
    (forall d l,
       result = PDict d ->
       dict_get "detected_defect_types" d = Some (PList l) ->
       dd = PList l /\ n = Z.of_nat (length l)) /\
    (forall r,
       result = result_to_py r ->
       dd = names_to_py (default [] (detected_defect_types r)) /\
       n = Z.of_nat (length (default [] (detected_defect_types r)))).
Proof.
  intros Hp.
  apply project_response_shape in Hp
    as (fd & pt & ts & ad & dd & n & dc & bbs & Hget & Hlen & ->).
  exists dd, n. split; [reflexivity|]. split; [exact Hlen|].
  split; [reflexivity|]. split; [exact Hget|].
  assert (Hlist : forall l, dd = PList l -> n = Z.of_nat (length l)).
  { intros l ->. cbn in Hlen. congruence. }
  split; [exact Hlist|]. split; [|split].
  - intros d -> Hnone. cbn in Hget. rewrite Hnone in Hget. cbn in Hget.
    injection Hget as <-. split; [reflexivity|]. exact (Hlist [] eq_refl).
  - intros d l -> Hsome. cbn in Hget. rewrite Hsome in Hget. cbn in Hget.
    injection Hget as <-. split; [reflexivity|]. exact (Hlist l eq_refl).
  - intros r ->. rewrite result_to_py_defect_types in Hget.
    injection Hget as <-. split; [reflexivity|].
    unfold names_to_py in Hlist. erewrite Hlist; [|reflexivity].
    by rewrite length_map.
Qed.

Lemma append_bboxes_typed (defect_type : string) (boxes : list BoundingBox)
    (acc : list pyval) :
  append_bboxes defect_type (map bbox_to_py boxes) acc =
    Ok (acc ++ map (fun b => tagged_bbox (defect_type, b)) boxes).
Proof.
  revert acc; induction boxes as [|b boxes IH]; intros acc; cbn.
  - by rewrite app_nil_r.
  - rewrite IH. by rewrite <- app_assoc.
Qed.

Lemma append_all_bboxes_typed (per_type : list (string * list BoundingBox))
    (acc : list pyval) :
  append_all_bboxes
    (map (fun tb => (fst tb, PList (map bbox_to_py (snd tb)))) per_type) acc =
    Ok (acc ++
        map tagged_bbox
          (flat_map (fun tb => map (fun b => (fst tb, b)) (snd tb)) per_type)).
Proof.
  revert acc; induction per_type as [|[ty boxes] rest IH]; intros acc; cbn.
  - by rewrite app_nil_r.
  - rewrite append_bboxes_typed. cbn. rewrite IH.
    by rewrite map_app, map_map, app_assoc.
Qed.

Lemma parse_tagged_bboxes (l : list (string * BoundingBox)) :
  mapM parse_bbox (map tagged_bbox l) = Some l.
Proof.
  induction l as [|[ty [x y wd ht cx cy ar]] l IH]; [reflexivity|].
  cbn [map mapM]. cbn [mapM] in IH. rewrite IH. reflexivity.
Qed.

(** C7. For every result of the pipeline the formatter succeeds, and reading
    its response back gives the result's final decision, the anomaly score
    rounded to 4 decimal places, the processing time rounded to 2, and the
    bounding boxes of the per-type mapping as one sequence, each tagged with
    its defect type and with the x, y, width, height, center_x, center_y and
    area of the box it came from. *)
Theorem format_flutter_response_projection (B : Builtins) (r : DetectionResult) :
  exists resp,
    _format_flutter_response B (result_to_py r) = Ok resp /\
    py_subscript resp "status" = Ok (PStr "success") /\
    py_subscript resp "bounding_boxes" =
      Ok (PList (map tagged_bbox (flat_bboxes r))) /\
    parse_response resp =
      Some {| ext_final_decision := final_decision r;
              ext_anomaly_score :=
                round_float B (anomaly_score (anomaly_detection r)) 4;
              ext_processing_time := round_float B (processing_time r) 2;
              ext_bounding_boxes := flat_bboxes r |}.
Proof.
  destruct r as [path ts a dc pt fd types viz rep].
  unfold _format_flutter_response, project_response, flat_bboxes.
  destruct types as [types|], viz as [viz|], rep as [rep|],
    dc as [[pm cd dd [per|]]|]; cbn.
  all: try rewrite append_all_bboxes_typed; cbn.
  all: eexists; split; [reflexivity|]; cbn.
  all: unfold parse_response; cbn.
  all: try rewrite parse_tagged_bboxes; cbn.
  all: repeat split.
Qed.

(** ** Outcomes of the single-image run *)



(** ** Order of the fold *)

Lemma same_counts_refl (a : Accumulator) : same_counts a a.
Proof. by repeat split. Qed.

Lemma same_counts_trans (a b c : Accumulator) :
  same_counts a b -> same_counts b c -> same_counts a c.
Proof.
  intros (? & ? & ? & ? & ? & ?) (? & ? & ? & ? & ? & ?).
  repeat split; try congruence; by etrans.
Qed.

Lemma fold_result_same_counts (a a' : Accumulator)
    (o : option DetectionResult) :
  same_counts a a' -> same_counts (fold_result a o) (fold_result a' o).
Proof.
  intros (Hg & Hd & Ht & Hf & Htimes & Hres). unfold same_counts.
  destruct o as [r|]; cbn;
    [destruct (String.eqb (final_decision r) "GOOD"); cbn|].
  all: rewrite ?Hg, ?Hd, ?Ht, ?Hf.
  all: repeat split; try done; by apply Permutation_app_tail.
Qed.

Lemma fold_result_swap (a : Accumulator) (x y : option DetectionResult) :
  same_counts (fold_result (fold_result a x) y)
              (fold_result (fold_result a y) x).
Proof.
  unfold same_counts.
  destruct x as [rx|], y as [ry|]; cbn.
  all: repeat (destruct (String.eqb (final_decision _) "GOOD"); cbn).
  all: repeat split; try lia; try done.
  all: try (rewrite <- !app_assoc; apply Permutation_app_head, perm_swap).
  all: destruct (detected_defect_types rx), (detected_defect_types ry);
    try done.
  by rewrite <- !(assoc_L (∪)), (comm_L (∪) (list_to_set _)).
Qed.

Lemma fold_results_same_counts (outcomes : list (option DetectionResult))
    (a a' : Accumulator) :
  same_counts a a' ->
  same_counts (fold_results outcomes a) (fold_results outcomes a').
Proof.
  revert a a'; induction outcomes as [|o os IH]; intros a a' H; [done|].
  apply IH. by apply fold_result_same_counts.
Qed.

Lemma fold_results_perm (outcomes outcomes' : list (option DetectionResult))
    (a : Accumulator) :
  outcomes ≡ₚ outcomes' ->
  same_counts (fold_results outcomes a) (fold_results outcomes' a).
Proof.
  intros Hperm; revert a.
  induction Hperm as [|o l l' _ IH|x y l|l l' l'' _ IH1 _ IH2]; intros a.
  - apply same_counts_refl.
  - apply IH.
  - apply (fold_results_same_counts l), fold_result_swap.
  - eapply same_counts_trans; [apply IH1|apply IH2].
Qed.

Lemma fold_results_times (outcomes : list (option DetectionResult))
    (acc : Accumulator) :
  acc_times (fold_results outcomes acc) =
    acc_times acc ++ map processing_time (successes outcomes).
Proof.
  revert acc; induction outcomes as [|o os IH]; intros acc.
  - cbn. by rewrite app_nil_r.
  - unfold fold_results in *. cbn [fold_left]. rewrite IH.
    destruct o as [r|]; cbn; [|done].
    destruct (String.eqb (final_decision r) "GOOD"); cbn;
      by rewrite <- app_assoc.
Qed.

Lemma count_good_perm (results results' : list pyval) (n : Z) :
  results ≡ₚ results' ->
  count_good results = Ok n -> count_good results' = Ok n.
Proof.
  intros Hperm; revert n.
  induction Hperm as [|r l l' _ IH|x y l|l l' l'' _ IH1 _ IH2]; intros n.
  - done.
  - cbn [count_good].
    destruct (py_subscript r "final_decision") as [fd|]; [cbn|done].
    destruct (count_good l) as [m|]; [|done].
    by rewrite (IH m).
  - cbn [count_good].
    destruct (py_subscript x "final_decision") as [fx|],
             (py_subscript y "final_decision") as [fy|]; cbn; try done.
    destruct (count_good l) as [m|]; cbn; [|done].
    intros [= <-]. f_equal.
    destruct (py_eq_str fx "GOOD"), (py_eq_str fy "GOOD"); lia.
  - eauto.
Qed.

(** C8. Folding the same per-image outcomes in another order gives the same
    good and defective counts, the same set of defect types and the same
    failure count; the list of processing times follows the order of the
    fold. The summary of the batch endpoint (total, good, defective, defect
    rate), the one that holds a defect rate, is likewise the same for any
    order of its results. *)
Theorem batch_summary_order_independent
    (B : Builtins) (n : nat) (outcomes outcomes' : list (option DetectionResult)) :
  outcomes ≡ₚ outcomes' ->
  let s := finalize B n (fold_results outcomes empty_accumulator) in
  let s' := finalize B n (fold_results outcomes' empty_accumulator) in
  (good_products s = good_products s' /\
   defective_products s = defective_products s' /\
   list_to_set (defect_types_found s) =@{gset string}
     list_to_set (defect_types_found s') /\
   failed_processing s = failed_processing s' /\
   total_images s = total_images s') /\
  (processing_times s = map processing_time (successes outcomes) /\
   processing_times s' = map processing_time (successes outcomes')) /\
  (forall (results results' : list pyval) (reply : Reply),
     results ≡ₚ results' ->
     batch_reply results = Ok reply ->
     exists reply',
       batch_reply results' = Ok reply' /\
       py_subscript (body reply') "summary" =
         py_subscript (body reply) "summary").
Proof.
  intros Hperm s s'.
  destruct (fold_results_perm _ _ empty_accumulator Hperm)
    as (Hg & Hd & Ht & Hf & _ & _).
  split; [|split].
  - subst s s'; cbn. by rewrite Hg, Hd, Ht, Hf.
  - subst s s'; cbn. by rewrite !fold_results_times.
  - intros results results' reply Hp. unfold batch_reply. intros H.
    inv_binds H. injection H as <-.
    rewrite (count_good_perm _ _ _ Hp Hv). cbn.
    eexists; split; [reflexivity|]. cbn.
    by rewrite (Permutation_length Hp).
Qed.

(** ** Facts about the batch endpoint *)

Lemma M_bind_Ok {A C : Type} (m : M A) (f : A -> M C) (c : C) (w w' : world) :
  (m ≫= f) w = (Ok c, w') ->
  exists a w1, m w = (Ok a, w1) /\ f a w1 = (Ok c, w').
Proof.
  unfold mbind, M_bind. destruct (m w) as [[a|e] w1]; [eauto|discriminate].
Qed.

Lemma try_except_Ok {A : Type} (body : M A) (handler : exn -> M A) (a : A)
    (w w' : world) :
  try_except body handler w = (Ok a, w') ->
  body w = (Ok a, w') \/
  exists e w1, body w = (Raise e, w1) /\ handler e w1 = (Ok a, w').
Proof.
  unfold try_except. destruct (body w) as [[a'|e] w1]; eauto.
Qed.

Ltac inv_M H :=
  repeat
    (let a := fresh "x" in
     let w1 := fresh "w" in
     let Ha := fresh "Hx" in
     apply M_bind_Ok in H as (a & w1 & Ha & H)).

Lemma format_has_final_decision (B : Builtins) (result resp : pyval) (idx : Z) :
  _format_flutter_response B result = Ok resp ->
  exists resp',
    py_setitem resp "image_index" (PInt idx) = Ok resp' /\
    has_final_decision resp'.
Proof.
  unfold _format_flutter_response.
  destruct (project_response B result) as [projection|e] eqn:Hp.
  - intros [= <-].
    apply project_response_shape in Hp
      as (fd & pt & ts & ad & dd & n & dc & bbs & _ & _ & ->).
    eexists. split; [reflexivity|]. by eexists.
  - intros [= <-]. eexists. split; [reflexivity|]. by eexists.
Qed.

(** A round of the loop never raises, and what it appends is a formatted
    result. *)
Lemma batch_detect_item_runs (B : Builtins) (E : Env)
    (det : UnifiedDefectDetector) (idx : nat) (image_b64 : pyval) (w : world) :
  exists item w',
    batch_detect_item B E det idx image_b64 w = (Ok item, w') /\
    (forall fr, item = Some fr -> has_final_decision fr).
Proof.
  unfold batch_detect_item.
  match goal with |- context [try_except ?b ?h] =>
    set (body := b); set (handler := h) end.
  destruct (try_except body handler w) as [[item|e] w'] eqn:Hrun.
  - exists item, w'. split; [reflexivity|]. intros fr ->.
    apply try_except_Ok in Hrun as [Hbody|(e & w1 & _ & Hh)].
    + subst body. inv_M Hbody.
      match type of Hbody with match ?o with _ => _ end _ = _ =>
        destruct o as [r|]; [|by injection Hbody] end.
      apply M_bind_Ok in Hbody as (resp & ? & Hfmt & Hbody).
      apply M_bind_Ok in Hbody as (resp' & ? & Hset & Hbody).
      injection Hbody as <- _.
      unfold lift in Hfmt, Hset.
      injection Hfmt as Hfmt _. injection Hset as Hset _.
      destruct (format_has_final_decision B _ _ (Z.of_nat idx) Hfmt)
        as (resp'' & Hset' & Hfd).
      congruence.
    + subst handler. cbn in Hh. run_M. unfold remove_if_exists in Hh.
      destruct (file_exists _ _) in Hh; cbn in Hh; by injection Hh.
  - exfalso. unfold try_except in Hrun.
    destruct (body w) as [[a|e'] w1]; [discriminate|].
    subst handler. cbn in Hrun. run_M. unfold remove_if_exists in Hrun.
    destruct (file_exists _ _) in Hrun; cbn in Hrun; discriminate.
Qed.

Lemma batch_items_runs (B : Builtins) (E : Env) (det : UnifiedDefectDetector)
    (idx : nat) (images : list pyval) (w : world) :
  exists items w',
    batch_items B E det idx images w = (Ok items, w') /\
    length items = length images /\
    Forall has_final_decision (omap id items).
Proof.
  revert idx w; induction images as [|image_b64 rest IH]; intros idx w.
  - exists [], w. by cbn.
  - destruct (batch_detect_item_runs B E det idx image_b64 w)
      as (item & w1 & Hitem & Hfd).
    destruct (IH (S idx) w1) as (items & w2 & Hrest & Hlen & Hall).
    exists (item :: items), w2. cbn [batch_items].
    unfold mbind, M_bind. rewrite Hitem, Hrest. cbn.
    repeat split; [by rewrite Hlen|].
    destruct item as [fr|]; cbn; [|done].
    constructor; [by apply Hfd|done].
Qed.

(** The loop of [batch_detect] appends what its rounds contribute. *)
Lemma batch_detect_loop_items (B : Builtins) (E : Env)
    (det : UnifiedDefectDetector) (idx : nat) (images : list pyval)
    (results : list pyval) (w : world) (items : list (option pyval))
    (w' : world) :
  batch_items B E det idx images w = (Ok items, w') ->
  batch_detect_loop B E det idx images results w =
    (Ok (results ++ omap id items), w').
Proof.
  revert idx results w items w'.
  induction images as [|image_b64 rest IH]; intros idx results w items w'.
  - cbn. intros [= <- <-]. cbn. by rewrite app_nil_r.
  - cbn [batch_items batch_detect_loop]. unfold mbind, M_bind.
    destruct (batch_detect_item_runs B E det idx image_b64 w)
      as (item & w1 & Hitem & _).
    rewrite Hitem.
    destruct (batch_items_runs B E det (S idx) rest w1)
      as (items' & w2 & Hrest & _).
    rewrite Hrest. cbn. intros [= <- <-].
    rewrite (IH _ _ _ _ _ Hrest).
    destruct item as [fr|]; cbn; [by rewrite <- app_assoc|done].
Qed.

Lemma count_good_ok (results : list pyval) :
  Forall has_final_decision results ->
  exists n, count_good results = Ok n /\ (0 <= n <= Z.of_nat (length results))%Z.
Proof.
  induction 1 as [|r rest [fd Hfd] _ (n & Hn & Hbound)].
  - exists 0%Z. cbn. split; [done|lia].
  - cbn [count_good length]. rewrite Hfd, Hn. cbn.
    destruct (py_eq_str fd "GOOD"); eexists; (split; [reflexivity|lia]).
Qed.


(** ** Batches *)


(** The folder batch from the creation of its folder to its summary. *)
Lemma process_batch_images_steps (B : Builtins) (E : Env)
    (core : DetectionCore) (input_folder : string)
    (output_folder : option string) (w : world) :
  let folder := default (os_path_join (OUTPUTS_DIR E) ["batch"]) output_folder in
  let image_files := find_image_files E input_folder in
  let w0 := mk_world (tick w) (calls w ++ [EvMakedirs folder]) in
  let summary_path := os_path_join folder ["batch_summary.json"] in
  match makedirs E w folder with
  | Raise e =>
      process_batch_images B E core input_folder output_folder w =
        (Raise e, w0)
  | Ok _ =>
      match image_files with
      | [] =>
          process_batch_images B E core input_folder output_folder w =
            (Ok None, w0)
      | _ =>
          exists outcomes w1,
            run_images E core folder image_files w0 = (Ok outcomes, w1) /\
            length outcomes = length image_files /\
            detect_calls w1 = detect_calls w ++ map EvDetect image_files /\
            let acc := fold_results outcomes empty_accumulator in
            let summary := finalize B (length image_files) acc in
            let w2 :=
              mk_world (tick w1) (calls w1 ++ [EvWriteSummary summary_path]) in
            process_batch_images B E core input_folder output_folder w =
              (match write_summary E w1 summary_path summary with
               | Ok _ => Ok (Some (acc_results acc, summary))
               | Raise e => Raise e
               end, w2)
      end
  end.
Proof.
  intros folder image_files w0 summary_path.
  unfold process_batch_images. fold folder image_files.
  unfold mbind, M_bind, get_world, log, lift, mret, M_ret. fold w0.
  destruct (makedirs E w folder) as [[]|e]; [|reflexivity].
  destruct image_files as [|f fs] eqn:Hfiles; [reflexivity|].
  rewrite <- Hfiles. clearbody image_files.
  destruct (run_images_runs E core folder image_files w0)
    as (outcomes & w1 & Hrun & Hlen & Hcalls).
  exists outcomes, w1. split; [exact Hrun|]. split; [exact Hlen|].
  split.
  { rewrite Hcalls. unfold detect_calls, w0. cbn [calls].
    rewrite List.filter_app. cbn. by rewrite app_nil_r. }
  cbv zeta.
  rewrite (batch_loop_folds E core folder image_files
             empty_accumulator w0 outcomes w1 Hrun).
  fold summary_path.
  by destruct (write_summary E w1 summary_path _) as [[]|e].
Qed.



(** C9. In every summary the batch endpoint returns, [defect_rate] is
    [defective_products / total_images * 100], computed on floats, when
    [total_images] is positive, and the integer 0 when [total_images] is 0:
    the reply is returned all the same, no division is attempted. *)
Theorem batch_detect_defect_rate
    (B : Builtins) (E : Env) (srv : FlutterAPIServer) (req : Request)
    (w : world) (reply : Reply) (w' : world) :
  batch_detect B E srv req w = (Ok reply, w') ->
  status_code reply = 200%Z ->
  exists summary total defective,
    py_subscript (body reply) "summary" = Ok (PDict summary) /\
    dict_get "total_images" summary = Some (PInt total) /\
    dict_get "defective_products" summary = Some (PInt defective) /\
    (0 <= total)%Z /\
    ((0 < total)%Z ->
     dict_get "defect_rate" summary =
       Some (PFloat (PrimFloat.mul
                       (PrimFloat.div (float_of_Z defective) (float_of_Z total))
                       (float_of_Z 100)))) /\
    (total = 0%Z -> dict_get "defect_rate" summary = Some (PInt 0)).
Proof.
  unfold batch_detect. intros Hrun Hcode.
  destruct (detector srv) as [det|];
    [destruct (is_ready det)|]; cbn in Hrun.
  2,3: injection Hrun as <- _; discriminate.
  apply try_except_Ok in Hrun as [Hbody|(e & w1 & _ & Hh)].
  2: injection Hh as <- _; discriminate.
  apply M_bind_Ok in Hbody as (has & w1 & _ & Hbody).
  destruct has; [|injection Hbody as <- _; discriminate].
  apply M_bind_Ok in Hbody as (images_data & w2 & _ & Hbody).
  destruct (py_truthy images_data); [|injection Hbody as <- _; discriminate].
  apply M_bind_Ok in Hbody as (images & w3 & _ & Hbody).
  apply M_bind_Ok in Hbody as (results & w4 & _ & Hbody).
  unfold lift, batch_reply in Hbody. injection Hbody as Hbody _.
  apply bind_Ok in Hbody as (good & _ & Hbody). injection Hbody as <-.
  eexists _, (Z.of_nat (length results)), _. cbn.
  repeat split; try lia.
  - intros Hpos. unfold defect_rate.
    by destruct (Z.ltb_spec 0 (Z.of_nat (length results))); [|lia].
  - intros ->. reflexivity.
Qed.

(** ** Replies of the handlers *)

Lemma format_status (B : Builtins) (result resp : pyval) :
  _format_flutter_response B result = Ok resp ->
  py_subscript resp "status" = Ok (PStr "success") \/
  py_subscript resp "status" = Ok (PStr "error").
Proof.
  unfold _format_flutter_response.
  destruct (project_response B result) as [projection|e] eqn:Hp.
  - intros [= <-]. left.
    by apply project_response_shape in Hp
      as (fd & pt & ts & ad & dd & n & dc & bbs & _ & _ & ->).
  - intros [= <-]. by right.
Qed.

(** C5 does not hold as stated on the failure replies and on the health
    check. A server without detector and a request without image are
    answered with an object that has an [error] entry and no [status] entry,
    and the health check reports the status 'ok'. *)
Lemma failure_replies_carry_no_status :
  (exists reply w',
     detect_image example_builtins example_env {| detector := None |}
       no_image start_world = (Ok reply, w') /\
     status_code reply = 500%Z /\
     reply_status reply = Raise (mk_exn KeyError "'status'")) /\
  (exists reply w',
     detect_image example_builtins example_env
       {| detector := Some (ready_detector good_core) |}
       no_image start_world = (Ok reply, w') /\
     status_code reply = 400%Z /\
     reply_status reply = Raise (mk_exn KeyError "'status'")) /\
  (exists reply w',
     health_check example_env {| detector := None |} start_world =
       (Ok reply, w') /\
     reply_status reply = Ok (PStr "ok")).
Proof.
  repeat split; eexists _, _; (split; [vm_compute; reflexivity|]);
    vm_compute; repeat split.
Qed.

(** C5 (amended). The health check replies with status 'ok'. Every reply
    that the single-detection or the batch handler returns either has HTTP
    status 200 and carries a [status] entry equal to 'success' or 'error',
    or it is a failure reply: HTTP status 400 or 500 and an object with the
    single entry [error], without [status]. A server whose detector is
    missing or not ready gets the failure reply 500, a request without image
    the failure reply 400. *)
Theorem handler_replies
    (B : Builtins) (E : Env) (srv : FlutterAPIServer) (req : Request)
    (w : world) :
  (exists reply w',
     health_check E srv w = (Ok reply, w') /\
     status_code reply = 200%Z /\
     reply_status reply = Ok (PStr "ok")) /\
  (forall reply w',
     detect_image B E srv req w = (Ok reply, w') \/
     batch_detect B E srv req w = (Ok reply, w') ->
     (status_code reply = 200%Z /\
      (reply_status reply = Ok (PStr "success") \/
       reply_status reply = Ok (PStr "error"))) \/
     (exists msg,
        (reply = error_reply msg 400 \/ reply = error_reply msg 500) /\
        reply_status reply = Raise (mk_exn KeyError "'status'"))) /\
  ((forall det, detector srv = Some det -> is_ready det = false) ->
   detect_image B E srv req w =
     (Ok (error_reply "Detection system not ready" 500), w)) /\
  (forall det,
     detector srv = Some det -> is_ready det = true ->
     read_image B req = Ok None ->
     detect_image B E srv req w = (Ok (error_reply "No image provided" 400), w)).
Proof.
  split; [|split; [|split]].
  - eexists _, _. by cbn.
  - intros reply w' [Hrun|Hrun].
    + unfold detect_image in Hrun.
      destruct (detector srv) as [det|];
        [destruct (is_ready det)|]; cbn in Hrun.
      2,3: injection Hrun as <- _; right; eexists; split; [by right|done].
      destruct (read_image B req) as [[image_data|]|e]; cbn in Hrun.
      3: discriminate.
      2: injection Hrun as <- _; right; eexists; split; [by left|done].
      apply M_bind_Ok in Hrun as (u & w1 & _ & Hrun).
      apply try_except_Ok in Hrun as [Hbody|(e & w2 & _ & Hh)].
      * inv_M Hbody.
        match type of Hbody with match ?o with _ => _ end _ = _ =>
          destruct o as [r|] end.
        -- apply M_bind_Ok in Hbody as (resp & ? & Hfmt & Hbody).
           injection Hbody as <- _. injection Hfmt as Hfmt _.
           left. split; [done|]. by apply format_status in Hfmt.
        -- injection Hbody as <- _.
           right; eexists; split; [by right|done].
      * apply M_bind_Ok in Hh as (? & ? & _ & Hh). injection Hh as <- _.
        right; eexists; split; [by right|done].
    + unfold batch_detect in Hrun.
      destruct (detector srv) as [det|];
        [destruct (is_ready det)|]; cbn in Hrun.
      2,3: injection Hrun as <- _; right; eexists; split; [by right|done].
      apply try_except_Ok in Hrun as [Hbody|(e & w1 & _ & Hh)].
      2: injection Hh as <- _; right; eexists; split; [by right|done].
      apply M_bind_Ok in Hbody as (has & w1 & _ & Hbody).
      destruct has;
        [|injection Hbody as <- _; right; eexists; split; [by left|done]].
      apply M_bind_Ok in Hbody as (images_data & w2 & _ & Hbody).
      destruct (py_truthy images_data);
        [|injection Hbody as <- _; right; eexists; split; [by left|done]].
      apply M_bind_Ok in Hbody as (images & w3 & _ & Hbody).
      apply M_bind_Ok in Hbody as (results & w4 & _ & Hbody).
      unfold lift, batch_reply in Hbody. injection Hbody as Hbody _.
      apply bind_Ok in Hbody as (good & _ & Hbody). injection Hbody as <-.
      left. split; [done|]. by left.
  - intros Hnot. unfold detect_image.
    destruct (detector srv) as [det|]; [|done].
    by rewrite (Hnot det eq_refl).
  - intros det Hdet Hready Hread. unfold detect_image.
    by rewrite Hdet, Hready, Hread.
Qed.

(** ** The theorems at concrete inputs *)

Lemma good_gate_skips_classification_witness :
  anomaly_stage good_core "img.jpg" start_world = Ok (Some good_anomaly) /\
  decision good_anomaly = "GOOD" /\
  classify_calls
    (snd (process_single_image example_env good_core "img.jpg" None
            start_world)) = 0 /\
  exists r,
    fst (process_single_image example_env good_core "img.jpg" None
           start_world) = Ok (Some r) /\
    final_decision r = "GOOD" /\
    defect_classification r = None /\
    detected_defect_types r = Some [].
Proof.
  pose proof (good_gate_skips_classification example_env good_core "img.jpg"
                None start_world good_anomaly eq_refl eq_refl) as H.
  cbv zeta in H. destruct H as (Hcalls & Hshape & _).
  split; [reflexivity|]. split; [reflexivity|]. split; [exact Hcalls|].
  eexists. split; [vm_compute; reflexivity|].
  apply Hshape. vm_compute. reflexivity.
Defined.


Lemma batch_summary_order_independent_witness :
  [Some good_result; None; Some open_result] ≡ₚ
    [None; Some open_result; Some good_result] /\
  good_products
    (finalize example_builtins 3
       (fold_results [Some good_result; None; Some open_result]
          empty_accumulator)) =
  good_products
    (finalize example_builtins 3
       (fold_results [None; Some open_result; Some good_result]
          empty_accumulator)) /\
  list_to_set
    (defect_types_found
       (finalize example_builtins 3
          (fold_results [Some good_result; None; Some open_result]
             empty_accumulator))) =@{gset string}
  list_to_set
    (defect_types_found
       (finalize example_builtins 3
          (fold_results [None; Some open_result; Some good_result]
             empty_accumulator))).
Proof.
  assert (Hperm : [Some good_result; None; Some open_result] ≡ₚ
                  [None; Some open_result; Some good_result])
    by apply (Permutation_cons_append [None; Some open_result]).
  pose proof (batch_summary_order_independent example_builtins 3 _ _ Hperm)
    as H.
  cbv zeta in H. destruct H as [(Hgood & _ & Htypes & _) _].
  split; [exact Hperm|]. split; [exact Hgood|exact Htypes].
Defined.

Lemma batch_detect_defect_rate_witness :
  exists reply w',
    batch_detect example_builtins example_env
      {| detector := Some (ready_detector flaky_core) |} five_images
      start_world = (Ok reply, w') /\
    status_code reply = 200%Z /\
    exists summary total defective,
      py_subscript (body reply) "summary" = Ok (PDict summary) /\
      dict_get "total_images" summary = Some (PInt total) /\
      dict_get "defective_products" summary = Some (PInt defective) /\
      (0 <= total)%Z /\
      ((0 < total)%Z ->
       dict_get "defect_rate" summary =
         Some (PFloat (PrimFloat.mul
                         (PrimFloat.div (float_of_Z defective)
                                        (float_of_Z total))
                         (float_of_Z 100)))) /\
      (total = 0%Z -> dict_get "defect_rate" summary = Some (PInt 0)).
Proof.
  eexists _, _. split; [vm_compute; reflexivity|]. split; [reflexivity|].
  eapply (batch_detect_defect_rate example_builtins example_env
            {| detector := Some (ready_detector flaky_core) |} five_images
            start_world);
    [vm_compute; reflexivity|reflexivity].
Defined.

Lemma defect_count_is_length_witness :
  exists resp,
    project_response example_builtins (result_to_py open_result) = Ok resp /\
    py_subscript resp "detected_defects" = Ok (PList [PStr "open"]) /\
    py_subscript resp "defect_count" = Ok (PInt 1).
Proof.
  destruct (project_response example_builtins (result_to_py open_result))
    as [resp|e] eqn:Hp; [|vm_compute in Hp; discriminate Hp].
  exists resp. split; [reflexivity|].
  destruct (defect_count_is_length example_builtins
              (result_to_py open_result) resp Hp)
    as (dd & n & Hdd & _ & Hn & _ & _ & _ & _ & Htyped).
  destruct (Htyped open_result eq_refl) as [-> ->].
  split; [exact Hdd|exact Hn].
Defined.

(** ** Runs of the examples *)

(** A batch all of whose images fail: the summary has [total_images] 0 and
    [defect_rate] 0, and the reply is a success. *)
Example batch_detect_all_failed :
  exists results summary w',
    batch_detect example_builtins example_env
      {| detector := Some (ready_detector failing_core) |} five_images
      start_world =
      (Ok (mk_reply (PDict [("status", PStr "success");
                            ("summary", PDict summary);
                            ("results", PList results)]) 200), w') /\
    results = [] /\
    dict_get "total_images" summary = Some (PInt 0) /\
    dict_get "defect_rate" summary = Some (PInt 0).
Proof.
  eexists _, _, _. split; [vm_compute; reflexivity|].
  vm_compute. repeat split.
Qed.

(** A request whose image cannot be decoded: the [except] branch of
    [detect_image] reads [temp_id] before it is assigned, and the handler
    ends with that exception instead of a reply. *)
Example detect_image_truncated_image :
  fst (detect_image example_builtins example_env
         {| detector := Some (ready_detector good_core) |} truncated_image
         start_world) =
  Raise (mk_exn UnboundLocalError
           "cannot access local variable 'temp_id' where it is not associated with a value").
Proof. vm_compute. reflexivity. Qed.

(** The thresholds of [config.py], an update of the anomaly threshold to 0.5
    between two runs on the score 0.6, and a run on a score equal to the
    threshold: the first run decides GOOD with 0.7, the later ones DEFECT
    with 0.5, and the defect threshold stays at 0.85. *)
#[warnings="-inexact-float"]
Example threshold_update_mid_stream :
  let reads :=
    fst (serve config_thresholds
           [CallPipeline 0.6 PNone; CallUpdate (Some 0.5%float) None;
            CallPipeline 0.6 PNone; CallPipeline 0.5 PNone]) in
  map (fun r => decision (read_anomaly r)) reads = ["GOOD"; "DEFECT"; "DEFECT"] /\
  map (fun r => threshold_used (read_anomaly r)) reads =
    [0.7%float; 0.5%float; 0.5%float] /\
  map read_defect_threshold reads = [0.85%float; 0.85%float; 0.85%float].
Proof. vm_compute. repeat split. Qed.

(** The folder batch of the same five pictures, two of which fail: each is
    listed and run twice. *)
Example process_batch_images_five :
  exists results summary w',
    process_batch_images example_builtins example_env flaky_core "in" None
      start_world = (Ok (Some (results, summary)), w') /\
    total_images summary = 10 /\
    failed_processing summary = 4 /\
    length results = 6 /\
    defective_products summary = 6 /\
    defect_types_found summary = ["open"].
Proof.
  eexists _, _, _. split; [vm_compute; reflexivity|].
  vm_compute. repeat split.
Qed.

(** One defective image of three: the rate is the binary64 product
    [1 / 3 * 100]. *)
#[warnings="-inexact-float"]
Example defect_rate_one_of_three :
  defect_rate 1 3 = PFloat 33.33333333333333%float /\
  defect_rate 0 0 = PInt 0.
Proof. split; vm_compute; reflexivity. Qed.

(** * Further properties *)

(** ** The single-image run *)

(** X1. When the anomaly stage answers DEFECT, the run asks the segmentation
    model exactly once, for this image, and every result it returns has the
    final decision DEFECT and carries the anomaly outcome. *)
Theorem defect_gate_classifies_once
    (E : Env) (core : DetectionCore) (image_path : string)
    (output_dir : option string) (w : world) (a : AnomalyResult) :
  anomaly_stage core image_path w = Ok (Some a) ->
  decision a = "DEFECT" ->
  let run := process_single_image E core image_path output_dir w in
  classify_events (snd run) = classify_events w ++ [EvClassify image_path] /\
  (forall r, fst run = Ok (Some r) ->
     final_decision r = "DEFECT" /\ anomaly_detection r = a).
Proof.
  intros Hstage Hdefect run; subst run.
  unfold anomaly_stage in Hstage.
  unfold process_single_image, classify_events. run_M.
  rewrite Hstage, Hdefect. cbn.
  destruct (classify_defects core _ image_path _) as [[d|]|e]; cbn.
  3: { split; [|by intros r [=]].
       rewrite !List.filter_app. cbn. by rewrite app_nil_r. }
  all: destruct (save_analysis_report E _ _ _) as [report|e]; cbn.
  all: split;
    [rewrite !List.filter_app; cbn; by rewrite ?app_nil_r, <- ?app_assoc|].
  all: first [by intros r [=] | by intros r [= <-]].
Qed.

(** X2. A report writer that raises costs the result: the run returns
    [None] for every image, although the anomaly model has been asked. *)
Theorem report_failure_discards_result
    (E : Env) (core : DetectionCore) (image_path : string)
    (output_dir : option string) (w : world) :
  report_writer_fails E ->
  let run := process_single_image E core image_path output_dir w in
  fst run = Ok None /\
  detect_calls (snd run) = detect_calls w ++ [EvDetect image_path].
Proof.
  intros Hfails run; subst run.
  unfold process_single_image. run_M.
  destruct (detect_anomaly core _ image_path) as [[a|]|e]; cbn.
  2,3: split; [reflexivity|by filter_calls].
  destruct (String.eqb (decision a) "DEFECT"); cbn.
  1: destruct (classify_defects core _ image_path _) as [[d|]|e]; cbn.
  3: split; [reflexivity|by filter_calls].
  all: match goal with |- context [save_analysis_report _ ?w1 ?r ?d] =>
         destruct (Hfails w1 r d) as [e He]; rewrite He end; cbn.
  all: split; [reflexivity|by filter_calls].
Qed.

(** X3. With a report writer that does not raise, a run returns a result
    exactly when the anomaly stage returned an outcome and, for a DEFECT
    outcome, the classification stage did not raise. A rendering that fails
    (the renderer returns [None]) does not stand in the way. *)
Theorem result_returned_iff_stages_succeed
    (E : Env) (core : DetectionCore) (image_path : string)
    (output_dir : option string) (w : world) :
  report_writer_works E ->
  let run := process_single_image E core image_path output_dir w in
  (exists r, fst run = Ok (Some r)) <->
  (exists a,
     anomaly_stage core image_path w = Ok (Some a) /\
     (decision a = "DEFECT" ->
      forall e, classification_stage core image_path w a <> Raise e)).
Proof.
  intros Hworks run; subst run.
  unfold anomaly_stage, classification_stage, process_single_image. run_M.
  destruct (detect_anomaly core _ image_path) as [[a|]|e] eqn:Hdet; cbn.
  2,3: split; [by intros [r [=]]|by intros (a & [=] & _)].
  destruct (String.eqb_spec (decision a) "DEFECT") as [Hdec|Hdec]; cbn.
  1: destruct (classify_defects core _ image_path _) as [[d|]|e] eqn:Hcls; cbn.
  3: { split; [by intros [r [=]]|].
       intros (a' & [= <-] & Hno). by destruct (Hno Hdec e). }
  all: match goal with |- context [save_analysis_report _ ?w1 ?r ?d] =>
         destruct (Hworks w1 r d) as [p Hp]; rewrite Hp end; cbn.
  all: split; [intros _; exists a; split; [done|]|intros _; eauto].
  all: intros Hd e'; congruence.
Qed.

(** X4. What a returned result records: the path of the image; the time
    stamp, read after the anomaly stage; the processing time, which is the
    clock reading taken before the renderer and the report writer are
    called minus the reading at entry, so that it leaves both out; and the
    two paths, whose keys are always present. The renderer and the report
    writer are the last two calls of such a run. *)
Theorem returned_result_bookkeeping
    (E : Env) (core : DetectionCore) (path : string)
    (output_dir : option string) (w : world) (r : DetectionResult) :
  fst (process_single_image E core path output_dir w) = Ok (Some r) ->
  let w' := snd (process_single_image E core path output_dir w) in
  image_path r = path /\
  timestamp r = now_isoformat E (S (tick w)) /\
  processing_time r =
    PrimFloat.sub (time_time E (S (S (tick w)))) (time_time E (tick w)) /\
  tick w' = S (S (S (tick w))) /\
  (exists v, visualization_path r = Some v) /\
  (exists p, report_path r = Some p) /\
  (exists evs, calls w' = calls w ++ evs ++ [EvVisualize path; EvReport path]).
Proof.
  unfold process_single_image. run_M.
  destruct (detect_anomaly core _ path) as [[a|]|e]; cbn;
    [|intros H; discriminate H..].
  destruct (String.eqb (decision a) "DEFECT"); cbn.
  1: destruct (classify_defects core _ path _) as [[d|]|e]; cbn;
    [| |intros H; discriminate H].
  all: destruct (save_analysis_report E _ _ _) as [report|e]; cbn;
    [|intros H; discriminate H].
  all: intros H; injection H as <-; cbn [image_path timestamp processing_time
         visualization_path report_path with_report_path
         with_visualization_path with_processing_time
         with_detected_defect_types with_classification].
  all: repeat split; try (eexists; reflexivity).
  all: rewrite <- !app_assoc; cbn [app].
  all: first [by exists [EvDetect path]
             | by exists [EvDetect path; EvClassify path]].
Qed.

(** ** The folder batch *)

Lemma fold_results_good (outcomes : list (option DetectionResult))
    (acc : Accumulator) :
  acc_good (fold_results outcomes acc) =
    acc_good acc + length (List.filter is_good (successes outcomes)) /\
  acc_defective (fold_results outcomes acc) =
    acc_defective acc +
    length (List.filter (fun r => negb (is_good r)) (successes outcomes)).
Proof.
  unfold successes.
  revert acc; induction outcomes as [|o os IH]; intros acc.
  - cbn. lia.
  - unfold fold_results in *. cbn [fold_left].
    destruct (IH (fold_result acc o)) as [-> ->].
    destruct o as [r|]; cbn; [|lia]. unfold is_good.
    destruct (String.eqb (final_decision r) "GOOD"); cbn; lia.
Qed.

Lemma filter_split_length {A : Type} (f : A -> bool) (l : list A) :
  length (List.filter f l) + length (List.filter (fun x => negb (f x)) l) =
  length l.
Proof. induction l as [|x l IH]; cbn; [done|]. destruct (f x); cbn; lia. Qed.

(** A batch that returns results has found files. *)
Lemma process_batch_images_found (B : Builtins) (E : Env)
    (core : DetectionCore) (input_folder : string)
    (output_folder : option string) (w : world)
    (res : list DetectionResult * BatchSummary) (w' : world) :
  process_batch_images B E core input_folder output_folder w =
    (Ok (Some res), w') ->
  find_image_files E input_folder <> [].
Proof.
  intros Hrun Hnil.
  pose proof (process_batch_images_steps B E core input_folder output_folder
                w) as Hsteps.
  cbv zeta in Hsteps. rewrite Hnil in Hsteps.
  destruct (makedirs E w _); rewrite Hsteps in Hrun; discriminate Hrun.
Qed.

(** What a batch that found files returns, in terms of its outcomes. *)
Lemma process_batch_images_returns (B : Builtins) (E : Env)
    (core : DetectionCore) (input_folder : string)
    (output_folder : option string) (w : world)
    (res : option (list DetectionResult * BatchSummary)) (w' : world) :
  process_batch_images B E core input_folder output_folder w = (Ok res, w') ->
  find_image_files E input_folder <> [] ->
  exists outcomes w1,
    run_images E core
      (default (os_path_join (OUTPUTS_DIR E) ["batch"]) output_folder)
      (find_image_files E input_folder)
      (mk_world (tick w)
         (calls w ++
          [EvMakedirs
             (default (os_path_join (OUTPUTS_DIR E) ["batch"])
                      output_folder)])) = (Ok outcomes, w1) /\
    length outcomes = length (find_image_files E input_folder) /\
    res = Some (acc_results (fold_results outcomes empty_accumulator),
                finalize B (length (find_image_files E input_folder))
                  (fold_results outcomes empty_accumulator)) /\
    calls w' =
      calls w1 ++
      [EvWriteSummary
         (os_path_join
            (default (os_path_join (OUTPUTS_DIR E) ["batch"]) output_folder)
            ["batch_summary.json"])].
Proof.
  intros Hrun Hfiles.
  pose proof (process_batch_images_steps B E core input_folder output_folder
                w) as Hsteps.
  cbv zeta in Hsteps.
  destruct (makedirs E w _) as [[]|e];
    [|rewrite Hsteps in Hrun; discriminate Hrun].
  destruct (find_image_files E input_folder) as [|f fs] eqn:Hf; [done|].
  rewrite <- Hf in *.
  destruct Hsteps as (outcomes & w1 & Hout & Hlen & _ & Hbatch).
  exists outcomes, w1. split; [exact Hout|]. split; [exact Hlen|].
  rewrite Hbatch in Hrun.
  destruct (write_summary E w1 _ _) as [[]|e]; [|discriminate Hrun].
  by injection Hrun as <- <-.
Qed.

(** X5. The counters of a returned batch summary add up: good and defective
    products together are the returned results, one processing time is
    listed per result, results and failures together are the images found,
    and good products are the results whose final decision is GOOD. The
    average processing time is the integer 0 exactly when no image gave a
    result. *)
Theorem batch_summary_counts_add_up
    (B : Builtins) (E : Env) (core : DetectionCore) (input_folder : string)
    (output_folder : option string) (w : world)
    (results : list DetectionResult) (summary : BatchSummary) (w' : world) :
  process_batch_images B E core input_folder output_folder w =
    (Ok (Some (results, summary)), w') ->
  good_products summary + defective_products summary = length results /\
  good_products summary = length (List.filter is_good results) /\
  length (processing_times summary) = length results /\
  length results + failed_processing summary = total_images summary /\
  total_images summary = length (find_image_files E input_folder) /\
  (avg_processing_time summary = PInt 0 <-> results = []).
Proof.
  intros Hrun.
  pose proof (process_batch_images_found _ _ _ _ _ _ _ _ Hrun) as Hfiles.
  destruct (process_batch_images_returns _ _ _ _ _ _ _ _ Hrun Hfiles)
    as (outcomes & w1 & _ & Hlen & [= -> ->] & _).
  cbn [good_products defective_products processing_times failed_processing
       total_images avg_processing_time finalize].
  destruct (fold_results_good outcomes empty_accumulator) as [-> ->].
  rewrite fold_results_results, fold_results_times, fold_results_failed.
  cbn [acc_good acc_defective acc_results acc_times acc_failed
       empty_accumulator app].
  pose proof (filter_split_length is_good (successes outcomes)).
  pose proof (successes_failed_length outcomes).
  rewrite length_map.
  repeat split; try lia.
  - destruct (successes outcomes); [done|discriminate].
  - by intros ->.
Qed.


Lemma fold_results_types (outcomes : list (option DetectionResult))
    (acc : Accumulator) (x : string) :
  x ∈ acc_types (fold_results outcomes acc) <->
  x ∈ acc_types acc \/
  exists r types,
    r ∈ successes outcomes /\ is_good r = false /\
    detected_defect_types r = Some types /\ x ∈ types.
Proof.
  unfold successes.
  revert acc; induction outcomes as [|o os IH]; intros acc.
  - cbn. split; [by left|]. intros [H|(r & types & Hr & _)]; [done|].
    by apply elem_of_nil in Hr.
  - unfold fold_results in *. cbn [fold_left]. rewrite IH.
    destruct o as [r|]; cbn [omap id fold_result acc_types].
    2: { apply or_iff_compat_l. done. }
    unfold is_good.
    destruct (String.eqb (final_decision r) "GOOD") eqn:Hgood;
      cbn [acc_types].
    + split.
      * intros [H|(r' & types & Hr & Hg & Ht & Hx)]; [by left|right].
        exists r', types. split; [by right|done].
      * intros [H|(r' & types & Hr & Hg & Ht & Hx)]; [by left|].
        apply elem_of_cons in Hr as [->|Hr]; [congruence|].
        right. by exists r', types.
    + split.
      * intros [H|(r' & types & Hr & Hg & Ht & Hx)].
        -- destruct (detected_defect_types r) as [types|] eqn:Ht;
             [|by left].
           apply elem_of_union in H as [H|H]; [by left|].
           right. exists r, types.
           split; [by left|]. split; [done|]. split; [done|].
           by apply elem_of_list_to_set in H.
        -- right. exists r', types. split; [by right|done].
      * intros [H|(r' & types & Hr & Hg & Ht & Hx)].
        -- left. destruct (detected_defect_types r); [|done].
           apply elem_of_union. by left.
        -- apply elem_of_cons in Hr as [->|Hr].
           ++ left. rewrite Ht. apply elem_of_union. right.
              by apply elem_of_list_to_set.
           ++ right. by exists r', types.
Qed.

(** X7. A defect type is listed in [defect_types_found] exactly when one of
    the returned results whose final decision is not GOOD lists it among its
    detected defect types; a result without that key contributes nothing.
    No type is listed twice. *)
Theorem defect_types_found_membership
    (B : Builtins) (E : Env) (core : DetectionCore) (input_folder : string)
    (output_folder : option string) (w : world)
    (results : list DetectionResult) (summary : BatchSummary) (w' : world) :
  process_batch_images B E core input_folder output_folder w =
    (Ok (Some (results, summary)), w') ->
  NoDup (defect_types_found summary) /\
  forall x,
    x ∈ defect_types_found summary <->
    exists r types,
      r ∈ results /\ final_decision r <> "GOOD" /\
      detected_defect_types r = Some types /\ x ∈ types.
Proof.
  intros Hrun.
  pose proof (process_batch_images_found _ _ _ _ _ _ _ _ Hrun) as Hfiles.
  destruct (process_batch_images_returns _ _ _ _ _ _ _ _ Hrun Hfiles)
    as (outcomes & w1 & _ & _ & [= -> ->] & _).
  cbn [defect_types_found finalize]. split; [apply NoDup_elements|].
  intros x. rewrite elem_of_elements, fold_results_types.
  rewrite fold_results_results. cbn [acc_results acc_types empty_accumulator app].
  split.
  - intros [H|(r & types & Hr & Hg & Ht & Hx)]; [by apply elem_of_empty in H|].
    exists r, types. repeat split; try done.
    unfold is_good in Hg. by apply String.eqb_neq in Hg.
  - intros (r & types & Hr & Hg & Ht & Hx). right.
    exists r, types. repeat split; try done.
    unfold is_good. by apply String.eqb_neq.
Qed.

Lemma filter_length_app {A : Type} (f : A -> bool) (l k : list A) :
  length (List.filter f (l ++ k)) =
  length (List.filter f l) + length (List.filter f k).
Proof. by rewrite List.filter_app, length_app. Qed.

Lemma filter_length_elem (p : string) (l : list string) :
  p ∈ l -> 1 <= length (List.filter (String.eqb p) l).
Proof.
  induction 1 as [q l|q r l _ IH]; cbn.
  - rewrite String.eqb_refl. cbn. lia.
  - destruct (String.eqb q r); cbn; lia.
Qed.

Lemma detect_events_of_files (p : string) (files : list string) :
  length (List.filter (is_detect_of p) (map EvDetect files)) =
  length (List.filter (String.eqb p) files).
Proof.
  induction files as [|f fs IH]; [done|]. cbn.
  rewrite (String.eqb_sym f p). destruct (String.eqb p f); cbn; lia.
Qed.

Lemma detect_calls_of (p : string) (evs : list event) :
  List.filter (is_detect_of p) (List.filter is_detect evs) =
  List.filter (is_detect_of p) evs.
Proof.
  induction evs as [|ev evs IH]; [done|]. cbn.
  destruct ev; cbn; rewrite ?IH; done.
Qed.

(** X8. The file list joins, for each of the four patterns, the plain and
    the recursive matches without removing repetitions. So a picture that
    both patterns of its extension find, as [glob] does for a file directly
    in the folder, is listed at least twice, and the batch, once its output
    folder is made, asks the anomaly model for it at least twice, whether or
    not the summary can be written afterwards. A batch whose folder cannot
    be made asks the model for nothing. *)
Theorem picture_found_twice_is_processed_twice
    (B : Builtins) (E : Env) (core : DetectionCore) (input_folder : string)
    (output_folder : option string) (w : world) (ext p : string) :
  ext ∈ image_patterns ->
  p ∈ glob_glob E (os_path_join input_folder [ext]) false ->
  p ∈ glob_glob E (os_path_join input_folder ["**"; ext]) true ->
  let folder :=
    default (os_path_join (OUTPUTS_DIR E) ["batch"]) output_folder in
  let w' := snd (process_batch_images B E core input_folder output_folder w) in
  2 <= length (List.filter (String.eqb p) (find_image_files E input_folder)) /\
  (makedirs E w folder = Ok tt ->
   length (List.filter (is_detect_of p) (calls w')) >=
     length (List.filter (is_detect_of p) (calls w)) + 2) /\
  (forall e,
     makedirs E w folder = Raise e -> detect_calls w' = detect_calls w).
Proof.
  intros Hext Hplain Hrec folder w'.
  assert (Hcount : 2 <= length (List.filter (String.eqb p)
                                  (find_image_files E input_folder))).
  { unfold find_image_files. fold image_patterns.
    revert Hext. generalize image_patterns as pats.
    induction pats as [|e pats IH]; intros Hin.
    - by apply elem_of_nil in Hin.
    - cbn [flat_map]. rewrite filter_length_app.
      apply elem_of_cons in Hin as [<-|Hin].
      + rewrite filter_length_app.
        pose proof (filter_length_elem p _ Hplain).
        pose proof (filter_length_elem p _ Hrec). lia.
      + specialize (IH Hin). lia. }
  split; [exact Hcount|].
  pose proof (process_batch_images_steps B E core input_folder output_folder
                w) as Hsteps.
  cbv zeta in Hsteps. fold folder in Hsteps. subst w'.
  split.
  - intros Hmade. rewrite Hmade in Hsteps.
    destruct (find_image_files E input_folder) as [|f fs] eqn:Hf;
      [cbn in Hcount; lia|].
    rewrite <- Hf in *.
    destruct Hsteps as (outcomes & w1 & _ & _ & Hdetect & Hbatch).
    rewrite Hbatch. cbn [snd calls]. rewrite filter_length_app. cbn.
    rewrite <- (detect_calls_of p (calls w1)), <- (detect_calls_of p (calls w)).
    unfold detect_calls in Hdetect. rewrite Hdetect.
    rewrite filter_length_app, detect_events_of_files. lia.
  - intros e He. rewrite He in Hsteps. rewrite Hsteps.
    unfold detect_calls. cbn [snd calls]. rewrite List.filter_app. cbn.
    by rewrite app_nil_r.
Qed.

(** ** The formatter *)

(** The successful projection in full: what each entry of the response is
    taken from. *)
Lemma project_response_entries (B : Builtins) (result resp : pyval) :
  project_response B result = Ok resp ->
  exists fd pt ts score dec thr dd n dc cls bbs,
    py_subscript result "final_decision" = Ok fd /\
    py_subscript result "timestamp" = Ok ts /\
    py_get result "detected_defect_types" (PList []) = Ok dd /\
    py_len dd = Ok n /\
    py_get result "defect_classification" PNone = Ok dc /\
    (if py_truthy dc then
       exists dds total boxes,
         py_subscript dc "detected_defects" = Ok dds /\
         py_len dds = Ok total /\
         cls = PDict [("detected_defects", dds);
                      ("total_defect_types", PInt total)] /\
         bbs = PList boxes
     else cls = PNone /\ bbs = PList []) /\
    resp = PDict [("status", PStr "success");
                  ("final_decision", fd);
                  ("processing_time", pt);
                  ("timestamp", ts);
                  ("anomaly_detection",
                    PDict [("anomaly_score", score);
                           ("decision", dec);
                           ("threshold_used", thr)]);
                  ("defect_classification", cls);
                  ("detected_defects", dd);
                  ("defect_count", PInt n);
                  ("bounding_boxes", bbs)].
Proof.
  unfold project_response. intros H.
  apply bind_Ok in H as (fd & Hfd & H).
  apply bind_Ok in H as (pt0 & Hpt0 & H).
  apply bind_Ok in H as (pt & Hpt & H).
  apply bind_Ok in H as (ts & Hts & H).
  apply bind_Ok in H as (ad & Had & H).
  apply bind_Ok in H as (sc & Hsc & H).
  apply bind_Ok in H as (score & Hscore & H).
  apply bind_Ok in H as (dec & Hdec & H).
  apply bind_Ok in H as (thr & Hthr & H).
  apply bind_Ok in H as (dd & Hdd & H).
  apply bind_Ok in H as (dd' & Hdd' & H).
  assert (dd' = dd) as -> by congruence.
  apply bind_Ok in H as (n & Hn & H).
  apply bind_Ok in H as (dc & Hdc & H).
  destruct (py_truthy dc) eqn:Htruthy.
  - apply bind_Ok in H as (dr & Hdr & H).
    assert (dr = dc) as ->.
    { destruct result; try discriminate Hdc. cbn in Hdc, Hdr.
      destruct (dict_get "defect_classification" d); cbn in Hdc;
        [congruence|discriminate Hdr]. }
    apply bind_Ok in H as (dds & Hdds & H).
    apply bind_Ok in H as (dds' & Hdds' & H).
    assert (dds' = dds) as -> by congruence.
    apply bind_Ok in H as (total & Htotal & H).
    apply bind_Ok in H as (bb & Hbb & H).
    apply bind_Ok in H as (items & Hitems & H).
    apply bind_Ok in H as (boxes & Hboxes & H).
    injection H as <-. cbn.
    eexists fd, pt, ts, score, dec, thr, dd, n, dc, _, _.
    rewrite Htruthy. repeat split; try done.
    eexists dds, total, boxes. done.
  - injection H as <-.
    eexists fd, pt, ts, score, dec, thr, dd, n, dc, _, _.
    rewrite Htruthy. repeat split; done.
Qed.

(** X9. The response tells a classified result from an unclassified one by
    the truth value of the result's [defect_classification]: when it is
    absent, [None] or an empty dict, the response has [defect_classification]
    [None] and no bounding boxes; otherwise [defect_classification] holds the
    classification's [detected_defects] and their number as
    [total_defect_types]. *)
Theorem response_classification_entry
    (B : Builtins) (result resp dc : pyval) :
  project_response B result = Ok resp ->
  py_get result "defect_classification" PNone = Ok dc ->
  (py_truthy dc = false ->
   py_subscript resp "defect_classification" = Ok PNone /\
   py_subscript resp "bounding_boxes" = Ok (PList [])) /\
  (py_truthy dc = true ->
   exists dds total,
     py_subscript dc "detected_defects" = Ok dds /\
     py_len dds = Ok total /\
     py_subscript resp "defect_classification" =
       Ok (PDict [("detected_defects", dds);
                  ("total_defect_types", PInt total)])).
Proof.
  intros Hp Hdc.
  apply project_response_entries in Hp
    as (fd & pt & ts & score & dec & thr & dd & n & dc' & cls & bbs &
        _ & _ & _ & _ & Hdc' & Hcls & ->).
  assert (dc' = dc) as -> by congruence.
  split; intros Htruthy; rewrite Htruthy in Hcls.
  - destruct Hcls as [-> ->]. done.
  - destruct Hcls as (dds & total & boxes & Hdds & Htotal & -> & ->).
    by exists dds, total.
Qed.

(** X10. The keys of a response do not depend on the result: a success has
    the same nine keys in the same order, its [anomaly_detection] entry the
    score, the decision and the threshold, and an error object has three
    keys. The masks and the file paths of a result are never part of a
    response. *)
Theorem response_keys (B : Builtins) (result : pyval) :
  exists resp,
    _format_flutter_response B result = Ok resp /\
    ((py_keys resp =
        ["status"; "final_decision"; "processing_time"; "timestamp";
         "anomaly_detection"; "defect_classification"; "detected_defects";
         "defect_count"; "bounding_boxes"] /\
      exists ad,
        py_subscript resp "anomaly_detection" = Ok ad /\
        py_keys ad = ["anomaly_score"; "decision"; "threshold_used"]) \/
     py_keys resp = ["status"; "error"; "final_decision"]) /\
    forall k,
      k ∈ ["image_path"; "anomaly_mask"; "predicted_mask";
           "class_distribution"; "visualization_path"; "report_path"] ->
      k ∉ py_keys resp.
Proof.
  unfold _format_flutter_response.
  destruct (project_response B result) as [projection|e] eqn:Hp.
  - exists projection. split; [reflexivity|].
    apply project_response_entries in Hp
      as (fd & pt & ts & score & dec & thr & dd & n & dc' & cls & bbs &
          _ & _ & _ & _ & _ & _ & ->).
    split.
    + left. split; [reflexivity|]. eexists. split; reflexivity.
    + intros k Hk.
      repeat (apply elem_of_cons in Hk as [->|Hk];
              [apply (bool_decide_unpack _); vm_compute; exact I|]).
      by apply elem_of_nil in Hk.
  - exists (error_response e). split; [reflexivity|]. split; [by right|].
    intros k Hk.
    repeat (apply elem_of_cons in Hk as [->|Hk];
            [apply (bool_decide_unpack _); vm_compute; exact I|]).
    by apply elem_of_nil in Hk.
Qed.

(** ** The batch endpoint *)

Lemma dict_get_set_eq (k : string) (v : pyval) (d : list (string * pyval)) :
  dict_get k (dict_set k v d) = Some v.
Proof.
  induction d as [|[k' v'] d IH]; cbn.
  - by rewrite String.eqb_refl.
  - destruct (String.eqb k k') eqn:Hk; cbn; rewrite Hk; [done|exact IH].
Qed.

Lemma dict_get_set_ne (k k' : string) (v : pyval) (d : list (string * pyval)) :
  k' <> k -> dict_get k' (dict_set k v d) = dict_get k' d.
Proof.
  intros Hne. induction d as [|[k0 v0] d IH]; cbn.
  - by apply String.eqb_neq in Hne as ->.
  - destruct (String.eqb k k0) eqn:Hk; cbn.
    + apply String.eqb_eq in Hk as <-.
      by apply String.eqb_neq in Hne as ->.
    + by rewrite IH.
Qed.

(** What a round of the loop appends carries the index of its image. *)
Lemma batch_detect_item_index (B : Builtins) (E : Env)
    (det : UnifiedDefectDetector) (idx : nat) (image_b64 : pyval)
    (w : world) (fr : pyval) (w' : world) :
  batch_detect_item B E det idx image_b64 w = (Ok (Some fr), w') ->
  read_int fr "image_index" = Some (Z.of_nat idx).
Proof.
  unfold batch_detect_item. intros Hrun.
  apply try_except_Ok in Hrun as [Hbody|(e & w1 & _ & Hh)].
  - inv_M Hbody.
    match type of Hbody with match ?o with _ => _ end _ = _ =>
      destruct o as [r|]; [|by injection Hbody] end.
    apply M_bind_Ok in Hbody as (resp & ? & Hfmt & Hbody).
    apply M_bind_Ok in Hbody as (resp' & ? & Hset & Hbody).
    injection Hbody as <- _.
    unfold lift in Hset. injection Hset as Hset _.
    destruct resp; try discriminate Hset. injection Hset as <-.
    unfold read_int, read_key. cbn. by rewrite dict_get_set_eq.
  - apply M_bind_Ok in Hh as (u & w2 & _ & Hh).
    apply M_bind_Ok in Hh as (? & w3 & _ & Hh). by injection Hh.
Qed.

Lemma batch_items_indices (B : Builtins) (E : Env)
    (det : UnifiedDefectDetector) (idx : nat) (images : list pyval)
    (w : world) (items : list (option pyval)) (w' : world) :
  batch_items B E det idx images w = (Ok items, w') ->
  length (image_indices (omap id items)) = length (omap id items) /\
  Forall (fun i => Z.of_nat idx <= i < Z.of_nat (idx + length images))%Z
         (image_indices (omap id items)) /\
  StronglySorted Z.lt (image_indices (omap id items)).
Proof.
  revert idx w items w'.
  induction images as [|image_b64 rest IH]; intros idx w items w'.
  - cbn. intros [= <- <-]. cbn. repeat split; constructor.
  - cbn [batch_items]. intros Hrun.
    apply M_bind_Ok in Hrun as (item & w1 & Hitem & Hrun).
    apply M_bind_Ok in Hrun as (items' & w2 & Hrest & Hrun).
    injection Hrun as <- <-.
    destruct (IH _ _ _ _ Hrest) as (Hlen & Hbound & Hsorted).
    assert (Hbound' :
              Forall (fun i => Z.of_nat idx < i /\
                               Z.of_nat idx <= i <
                               Z.of_nat (idx + length (image_b64 :: rest)))%Z
                     (image_indices (omap id items'))).
    { eapply Forall_impl; [exact Hbound|]. cbn. intros i Hi. lia. }
    destruct item as [fr|]; simpl.
    + unfold image_indices in *. simpl.
      rewrite (batch_detect_item_index _ _ _ _ _ _ _ _ Hitem). simpl.
      repeat split.
      * f_equal. exact Hlen.
      * constructor; [cbn; lia|].
        eapply Forall_impl; [exact Hbound'|]. cbn. intros i Hi. lia.
      * constructor; [done|].
        eapply Forall_impl; [exact Hbound'|]. cbn. intros i Hi. lia.
    + repeat split; [done| |done].
      eapply Forall_impl; [exact Hbound'|]. cbn. intros i Hi. lia.
Qed.

(** X11. Every entry of the results of a batch reply carries an
    [image_index]; the indices are positions in the request (from 0, below
    the number of images) and strictly increase along the list. So the
    results keep the order of the images, and the position of a skipped
    image is the index that is missing. *)
Theorem batch_results_carry_positions
    (B : Builtins) (E : Env) (det : UnifiedDefectDetector)
    (images : list pyval) (w : world) :
  is_ready det = true ->
  images <> [] ->
  exists reply w' results,
    batch_detect B E {| detector := Some det |} (images_request images) w =
      (Ok reply, w') /\
    py_subscript (body reply) "results" = Ok (PList results) /\
    length (image_indices results) = length results /\
    Forall (fun i => 0 <= i < Z.of_nat (length images))%Z
           (image_indices results) /\
    StronglySorted Z.lt (image_indices results).
Proof.
  intros Hready Himages.
  destruct (batch_items_runs B E det 0 images w)
    as (items & w' & Hitems & Hlen & Hall).
  destruct (count_good_ok _ Hall) as (good & Hgood & _).
  pose proof (batch_detect_loop_items B E det 0 images [] w items w' Hitems)
    as Hloop.
  destruct (batch_items_indices _ _ _ _ _ _ _ _ Hitems)
    as (Hidx & Hbound & Hsorted).
  eexists _, w', (omap id items). split.
  - unfold batch_detect, images_request. cbn [detector json].
    rewrite Hready. unfold try_except, mbind, M_bind, lift. cbn.
    destruct images as [|i rest] eqn:Hi; [done|]. rewrite <- Hi in *.
    cbn. rewrite Hloop. cbn. unfold batch_reply. rewrite Hgood. reflexivity.
  - cbn. repeat split; done.
Qed.

(** X12. What the batch endpoint answers to a request without images.
    When reading [request.json] raises, as Flask does from version 2.1 on
    for a request without a JSON body, it replies 500 with the message of
    that exception. With a body that is null or empty, a body without the
    key [images], or one whose [images] is empty or null, it replies 400
    "No images provided". With [images] a non-zero number it replies 500
    with Python's message for iterating over an int. In none of these cases
    does it do anything else. *)
Theorem batch_detect_without_images
    (B : Builtins) (E : Env) (det : UnifiedDefectDetector) (req : Request)
    (w : world) :
  is_ready det = true ->
  let run := batch_detect B E {| detector := Some det |} req w in
  (forall e,
     json req = Raise e -> run = (Ok (error_reply (exn_str e) 500), w)) /\
  (forall data,
     json req = Ok data ->
     (py_truthy data = false \/
      exists d,
        data = PDict d /\
        (dict_get "images" d = None \/
         exists v, dict_get "images" d = Some v /\ py_truthy v = false)) ->
     run = (Ok (error_reply "No images provided" 400), w)) /\
  (forall d z,
     json req = Ok (PDict d) ->
     dict_get "images" d = Some (PInt z) -> z <> 0%Z ->
     run = (Ok (error_reply "'int' object is not iterable" 500), w)).
Proof.
  intros Hready run; subst run. unfold batch_detect. cbn [detector].
  rewrite Hready. unfold try_except, mbind, M_bind, lift.
  split; [|split].
  - intros e Hjson. by rewrite Hjson.
  - intros data Hjson [Hfalsy|(d & -> & Himages)]; rewrite Hjson.
    + cbn. by rewrite Hfalsy.
    + destruct d as [|kv d']; [done|]. cbn [outcome_bind].
      change (py_truthy (PDict (kv :: d'))) with true. cbn [py_contains py_get].
      destruct Himages as [Hnone|(v & Hsome & Hfalsy)].
      * by rewrite Hnone.
      * rewrite Hsome. cbn. by rewrite Hfalsy.
  - intros d z Hjson Himages Hz. rewrite Hjson.
    destruct d as [|kv d']; [done|]. cbn [outcome_bind].
    change (py_truthy (PDict (kv :: d'))) with true. cbn [py_contains py_get].
    rewrite Himages. cbn.
    by apply Z.eqb_neq in Hz as ->.
Qed.

Lemma count_good_bounds (results : list pyval) (good : Z) :
  count_good results = Ok good ->
  (0 <= good <= Z.of_nat (length results))%Z /\
  good =
    Z.of_nat
      (length
         (List.filter
            (fun r => match py_subscript r "final_decision" with
                      | Ok fd => py_eq_str fd "GOOD"
                      | Raise _ => false
                      end)
            results)).
Proof.
  revert good; induction results as [|r rest IH]; intros good.
  - intros [= <-]. cbn. lia.
  - cbn [count_good List.filter length].
    destruct (py_subscript r "final_decision") as [fd|]; [cbn|done].
    destruct (count_good rest) as [n|]; [cbn|done].
    intros [= <-]. destruct (IH n eq_refl) as [Hb ->].
    destruct (py_eq_str fd "GOOD"); cbn [length]; lia.
Qed.

(** X13. In a batch reply, [total_images] is the number of returned
    results, [good_products] the number of those whose [final_decision] is
    'GOOD', and [defective_products] all the others, whatever their
    decision: good and defective products add up to the total. *)
Theorem batch_reply_counts
    (B : Builtins) (E : Env) (srv : FlutterAPIServer) (req : Request)
    (w : world) (reply : Reply) (w' : world) :
  batch_detect B E srv req w = (Ok reply, w') ->
  status_code reply = 200%Z ->
  exists results summary good,
    py_subscript (body reply) "results" = Ok (PList results) /\
    py_subscript (body reply) "summary" = Ok (PDict summary) /\
    dict_get "total_images" summary = Some (PInt (Z.of_nat (length results))) /\
    dict_get "good_products" summary = Some (PInt good) /\
    dict_get "defective_products" summary =
      Some (PInt (Z.of_nat (length results) - good)) /\
    (0 <= good <= Z.of_nat (length results))%Z /\
    good =
      Z.of_nat
        (length
           (List.filter
              (fun r => match py_subscript r "final_decision" with
                        | Ok fd => py_eq_str fd "GOOD"
                        | Raise _ => false
                        end)
              results)).
Proof.
  unfold batch_detect. intros Hrun Hcode.
  destruct (detector srv) as [det|];
    [destruct (is_ready det)|]; cbn in Hrun.
  2,3: injection Hrun as <- _; discriminate.
  apply try_except_Ok in Hrun as [Hbody|(e & w1 & _ & Hh)].
  2: injection Hh as <- _; discriminate.
  apply M_bind_Ok in Hbody as (has & w1 & _ & Hbody).
  destruct has; [|injection Hbody as <- _; discriminate].
  apply M_bind_Ok in Hbody as (images_data & w2 & _ & Hbody).
  destruct (py_truthy images_data); [|injection Hbody as <- _; discriminate].
  apply M_bind_Ok in Hbody as (images & w3 & _ & Hbody).
  apply M_bind_Ok in Hbody as (results & w4 & _ & Hbody).
  unfold lift, batch_reply in Hbody. injection Hbody as Hbody _.
  apply bind_Ok in Hbody as (good & Hgood & Hbody). injection Hbody as <-.
  destruct (count_good_bounds _ _ Hgood) as [Hbounds Hcount].
  eexists results, _, good. cbn. repeat split; try done; lia.
Qed.

(** ** Temporary files of the handlers *)

Lemma file_exists_log (p : string) (ev : event) (w : world) (t : nat) :
  file_exists p (mk_world t (calls w ++ [ev])) =
    match ev with
    | EvWriteFile q => if String.eqb q p then true else file_exists p w
    | EvRemoveFile q => if String.eqb q p then false else file_exists p w
    | _ => file_exists p w
    end.
Proof.
  unfold file_exists; cbn [calls]. rewrite fold_left_app. by destruct ev.
Qed.

Lemma remove_if_exists_files (path : string) (w : world) :
  exists w',
    remove_if_exists path w = (Ok tt, w') /\
    forall p, file_exists p w' =
                if String.eqb p path then false else file_exists p w.
Proof.
  unfold remove_if_exists. destruct (file_exists path w) eqn:Hpath.
  - eexists; split; [reflexivity|]. intros p.
    rewrite file_exists_log. by rewrite String.eqb_sym.
  - exists w; split; [reflexivity|]. intros p.
    destruct (String.eqb p path) eqn:Heq; [|done].
    by apply String.eqb_eq in Heq as ->.
Qed.

Lemma write_temp_files (E : Env) (path : string) (data : list Byte.byte)
    (w : world) :
  (exists e, write_temp E path data w = (Raise e, w)) \/
  (exists w',
     write_temp E path data w = (Ok tt, w') /\
     forall p, file_exists p w' =
                 if String.eqb p path then true else file_exists p w).
Proof.
  unfold write_temp. run_M.
  destruct (write_file E w path data) as [[]|e]; [right|left; by exists e].
  eexists; split; [reflexivity|]. intros p.
  rewrite file_exists_log. by rewrite String.eqb_sym.
Qed.

(** The pipeline touches no temporary file. *)
Lemma process_single_image_files (E : Env) (detection_core : DetectionCore)
    (image_path : string) (output_dir : option string) (w : world) (p : string) :
  file_exists p
    (snd (process_single_image E detection_core image_path output_dir w)) =
  file_exists p w.
Proof.
  unfold process_single_image. run_M.
  destruct (detect_anomaly detection_core _ image_path) as [[a|]|e]; cbn.
  2,3: unfold file_exists; cbn [snd calls]; by rewrite ?fold_left_app.
  destruct (String.eqb (decision a) "DEFECT"); cbn.
  - destruct (classify_defects detection_core _ image_path _) as [[d|]|e]; cbn.
    3: unfold file_exists; cbn [snd calls]; by rewrite ?fold_left_app.
    all: destruct (save_analysis_report E _ _ _) as [report|e]; cbn.
    all: unfold file_exists; cbn [calls]; by rewrite !fold_left_app.
  - destruct (save_analysis_report E _ _ _) as [report|e]; cbn.
    all: unfold file_exists; cbn [calls]; by rewrite !fold_left_app.
Qed.

(** A ready detector hands the image to the pipeline, which returns. *)
Lemma process_image_ready (E : Env) (det : UnifiedDefectDetector)
    (image_path : string) (output_dir : option string) (w : world) :
  is_ready det = true ->
  exists o w',
    process_image E det image_path output_dir w = (Ok o, w') /\
    forall p, file_exists p w' = file_exists p w.
Proof.
  intros Hready. unfold process_image. rewrite Hready. cbn [negb].
  unfold is_ready in Hready. apply andb_true_iff in Hready as [_ Hcore].
  apply bool_decide_eq_true in Hcore as [core Hcore]. rewrite Hcore.
  destruct (process_single_image_runs E core image_path output_dir w)
    as (o & w' & Hrun & _).
  exists o, w'. split; [done|]. intros p.
  pose proof (process_single_image_files E core image_path output_dir w p)
    as Hfiles.
  by rewrite Hrun in Hfiles.
Qed.

(** X14. The single-detection handler leaves no temporary file behind:
    whatever the request and however the handler ends, a file that exists
    after the call existed before it. *)
Theorem detect_image_leaves_no_file
    (B : Builtins) (E : Env) (srv : FlutterAPIServer) (req : Request)
    (w : world) (p : string) :
  file_exists p (snd (detect_image B E srv req w)) = true ->
  file_exists p w = true.
Proof.
  unfold detect_image.
  destruct (detector srv) as [det|]; [|done].
  destruct (is_ready det) eqn:Hready; [|done].
  destruct (read_image B req) as [[image_data|]|e]; [|done|done].
  unfold mbind at 1, M_bind at 1, next_tick at 1.
  set (w0 := mk_world (S (tick w)) (calls w)).
  set (temp_path := "temp_" +:+ uuid4 E (tick w) +:+ ".jpg").
  change (file_exists p w) with (file_exists p w0).
  clearbody w0.
  unfold try_except.
  destruct (write_temp_files E temp_path image_data w0)
    as [(e & Hw)|(w1 & Hw & Hf1)].
  - unfold mbind at 1, M_bind at 1. rewrite Hw.
    destruct (remove_if_exists_files temp_path w0) as (w2 & Hrm & Hf2).
    unfold mbind, M_bind. rewrite Hrm. cbn. rewrite Hf2.
    by destruct (String.eqb p temp_path).
  - destruct (process_image_ready E det temp_path None w1 Hready)
      as (o & w2 & Hrun & Hf2).
    destruct (remove_if_exists_files temp_path w2) as (w3 & Hrm & Hf3).
    unfold mbind at 1, M_bind at 1. rewrite Hw.
    unfold mbind at 1, M_bind at 1. rewrite Hrun.
    unfold mbind at 1, M_bind at 1. rewrite Hrm.
    assert (Hclean : forall q, file_exists q w3 = true -> file_exists q w0 = true).
    { intros q. rewrite Hf3, Hf2, Hf1. by destruct (String.eqb q temp_path). }
    destruct o as [result|]; [|apply Hclean].
    unfold mbind, M_bind, lift.
    destruct (_format_flutter_response B (result_to_py result)) as [fr|e];
      [apply Hclean|].
    destruct (remove_if_exists_files temp_path w3) as (w4 & Hrm4 & Hf4).
    rewrite Hrm4. cbn. rewrite Hf4.
    destruct (String.eqb p temp_path); [done|apply Hclean].
Qed.

Lemma batch_detect_item_files (B : Builtins) (E : Env)
    (det : UnifiedDefectDetector) (idx : nat) (image_b64 : pyval) (w : world)
    (p : string) :
  writes_succeed E ->
  is_ready det = true ->
  file_exists p (snd (batch_detect_item B E det idx image_b64 w)) = true ->
  file_exists p w = true.
Proof.
  intros Hwrites Hready. unfold batch_detect_item, try_except.
  assert (Hhandler : forall w1,
            (forall q, file_exists q w1 = true -> file_exists q w = true) ->
            file_exists p
              (snd ((next_tick ≫= λ u : nat,
                       remove_if_exists (batch_temp_path E idx u)
                       ≫= λ _ : (), mret (None : option pyval)) w1)) = true ->
            file_exists p w = true).
  { intros w1 Hw1. unfold mbind at 1, M_bind at 1, next_tick at 1.
    destruct (remove_if_exists_files (batch_temp_path E idx (tick w1))
                (mk_world (S (tick w1)) (calls w1))) as (w2 & Hrm & Hf2).
    unfold mbind, M_bind. rewrite Hrm. cbn. rewrite Hf2.
    destruct (String.eqb p _); [done|apply Hw1]. }
  unfold mbind at 1, M_bind at 1, lift at 1.
  destruct (decode_base64 B image_b64) as [image_data|e];
    [|by apply Hhandler].
  unfold mbind at 1, M_bind at 1, next_tick at 1.
  set (w0 := mk_world (S (tick w)) (calls w)).
  set (temp_path := batch_temp_path E idx (tick w)).
  destruct (write_temp_files E temp_path image_data w0)
    as [(e & Hw)|(w1 & Hw & Hf1)].
  { exfalso. unfold write_temp in Hw. run_M.
    by rewrite (Hwrites w0 temp_path image_data) in Hw. }
  destruct (process_image_ready E det temp_path None w1 Hready)
    as (o & w2 & Hrun & Hf2).
  destruct (remove_if_exists_files temp_path w2) as (w3 & Hrm & Hf3).
  unfold mbind at 1, M_bind at 1. rewrite Hw.
  unfold mbind at 1, M_bind at 1. rewrite Hrun.
  unfold mbind at 1, M_bind at 1. rewrite Hrm.
  assert (Hclean : forall q, file_exists q w3 = true -> file_exists q w = true).
  { intros q. rewrite Hf3, Hf2, Hf1. by destruct (String.eqb q temp_path). }
  destruct o as [result|]; [|apply Hclean].
  unfold mbind at 1, M_bind at 1, lift at 1.
  destruct (_format_flutter_response B (result_to_py result)) as [fr|e];
    [|by apply Hhandler].
  unfold mbind at 1, M_bind at 1, lift at 1.
  destruct (py_setitem fr "image_index" (PInt (Z.of_nat idx))) as [fr'|e];
    [apply Hclean|by apply Hhandler].
Qed.

Lemma batch_detect_loop_files (B : Builtins) (E : Env)
    (det : UnifiedDefectDetector) (idx : nat) (images : list pyval)
    (results : list pyval) (w : world) (p : string) :
  writes_succeed E ->
  is_ready det = true ->
  file_exists p (snd (batch_detect_loop B E det idx images results w)) = true ->
  file_exists p w = true.
Proof.
  intros Hwrites Hready. revert idx results w.
  induction images as [|image_b64 rest IH]; intros idx results w; [done|].
  cbn [batch_detect_loop]. unfold mbind, M_bind.
  pose proof (batch_detect_item_files B E det idx image_b64 w p Hwrites Hready)
    as Hitem.
  destruct (batch_detect_item_runs B E det idx image_b64 w)
    as (item & w1 & Hrun & _).
  rewrite Hrun in Hitem |- *. intros Hp. by apply Hitem, (IH _ _ _ Hp).
Qed.

(** X15. The batch handler leaves no temporary file behind either, as long
    as writing the files succeeds: a file that exists after the call existed
    before it. Each image is written, given to the pipeline, which returns
    whatever happens to the image, and removed; the [except] branch of the
    loop, which looks for a file under a fresh name, is not needed for it. *)
Theorem batch_detect_leaves_no_file
    (B : Builtins) (E : Env) (srv : FlutterAPIServer) (req : Request)
    (w : world) (p : string) :
  writes_succeed E ->
  file_exists p (snd (batch_detect B E srv req w)) = true ->
  file_exists p w = true.
Proof.
  intros Hwrites. unfold batch_detect.
  destruct (detector srv) as [det|]; [|done].
  destruct (is_ready det) eqn:Hready; [|done].
  unfold try_except, mbind, M_bind, lift.
  destruct (json req) as [data|e]; [|done]. cbn [mbind outcome_bind].
  destruct (if py_truthy data then py_contains data "images"
            else Ok false) as [[|]|e]; [|done..].
  destruct (py_get data "images" (PList [])) as [images_data|e]; [|done].
  destruct (py_truthy images_data); [|done].
  destruct (py_iter images_data) as [images|e]; [|done].
  pose proof (batch_detect_loop_files B E det 0 images [] w p Hwrites Hready)
    as Hloop.
  destruct (batch_detect_loop B E det 0 images [] w) as [[results|e] w1];
    [|done].
  by destruct (batch_reply results).
Qed.

(** ** Images that cannot be decoded *)

Lemma batch_detect_item_undecodable (B : Builtins) (E : Env)
    (det : UnifiedDefectDetector) (idx : nat) (image_b64 : pyval) (w : world)
    (e : exn) :
  decode_base64 B image_b64 = Raise e ->
  exists w', batch_detect_item B E det idx image_b64 w = (Ok None, w').
Proof.
  intros Hdecode. unfold batch_detect_item, try_except.
  unfold mbind at 1, M_bind at 1, lift at 1. rewrite Hdecode.
  unfold mbind at 1, M_bind at 1, next_tick at 1.
  destruct (remove_if_exists_files (batch_temp_path E idx (tick w))
              (mk_world (S (tick w)) (calls w))) as (w2 & Hrm & _).
  unfold mbind, M_bind. rewrite Hrm. by exists w2.
Qed.

Lemma batch_detect_loop_undecodable (B : Builtins) (E : Env)
    (det : UnifiedDefectDetector) (idx : nat) (images : list pyval)
    (results : list pyval) (w : world) :
  Forall (fun x => exists e, decode_base64 B x = Raise e) images ->
  exists w', batch_detect_loop B E det idx images results w = (Ok results, w').
Proof.
  intros Hall. revert idx w.
  induction Hall as [|x rest [e Hx] _ IH]; intros idx w; [by exists w|].
  destruct (batch_detect_item_undecodable B E det idx x w e Hx) as [w1 Hitem].
  destruct (IH (S idx) w1) as [w2 Hrest].
  exists w2. cbn [batch_detect_loop]. unfold mbind, M_bind. by rewrite Hitem.
Qed.

(** X16. An image that cannot be decoded (not a string, a data URL without
    a comma, or base64 that [b64decode] rejects). The single-detection
    handler does not reply at all: its [except] branch reads [temp_id],
    which is not yet bound, so the handler itself raises, and the world is
    as before. The batch handler skips such an image: a batch of nothing but
    such images is answered with status 200, an empty list of results and a
    summary of zero images with a defect rate of 0. *)
Theorem undecodable_image_single_and_batch
    (B : Builtins) (E : Env) (det : UnifiedDefectDetector) (w : world) :
  is_ready det = true ->
  let srv := {| detector := Some det |} in
  (forall d x e,
     dict_get "image_base64" d = Some x ->
     decode_base64 B x = Raise e ->
     detect_image B E srv {| files_image := None; json := Ok (PDict d) |} w =
       (Raise (mk_exn UnboundLocalError
          "cannot access local variable 'temp_id' where it is not associated with a value"),
        w)) /\
  (forall images,
     images <> [] ->
     Forall (fun x => exists e, decode_base64 B x = Raise e) images ->
     fst (batch_detect B E srv (images_request images) w) =
       Ok (mk_reply
             (PDict [("status", PStr "success");
                     ("summary",
                       PDict [("total_images", PInt 0);
                              ("good_products", PInt 0);
                              ("defective_products", PInt 0);
                              ("defect_rate", PInt 0)]);
                     ("results", PList [])])
             200)).
Proof.
  intros Hready srv; subst srv. split.
  - intros d x e Hget Hdecode. unfold detect_image. cbn [detector].
    rewrite Hready. unfold read_image. cbn [files_image json].
    destruct d as [|kv d']; [done|]. cbn [mbind outcome_bind].
    change (py_truthy (PDict (kv :: d'))) with true.
    cbn [py_contains py_subscript]. rewrite Hget. cbn. by rewrite Hdecode.
  - intros images Hne Hall.
    destruct (batch_detect_loop_undecodable B E det 0 images [] w Hall)
      as [w' Hloop].
    unfold batch_detect, images_request. cbn [detector json].
    rewrite Hready. unfold try_except, mbind, M_bind, lift. cbn.
    destruct images as [|i rest] eqn:Hi; [done|]. rewrite <- Hi in *.
    cbn. by rewrite Hloop.
Qed.

(** ** Loading the models *)

(** X17. [ModelLoader.load_models] returns [True] exactly when the loader
    is ready afterwards, which is when both files exist, the inferencer and
    the HRNet model are created and the checkpoint is read; [get_models]
    then returns the two models of this call. After a failed call
    [get_models] returns [(None, None)], whatever the loader still holds.
    Both loads are attempted: the HRNet model is created and stored whenever
    its file exists, also when the Anomalib model failed to load. The device
    of the loader does not change. *)
Theorem load_models_ready_iff_returned
    {Model : Type} (T : Torch Model) (E : Env)
    (anomalib_path hrnet_path : option string) (self : @ModelLoader.t Model) :
  let run := ModelLoader.load_models T E anomalib_path hrnet_path self in
  let anomalib_model_path := path_or anomalib_path (ANOMALIB_MODEL_PATH E) in
  let hrnet_model_path := path_or hrnet_path (HRNET_MODEL_PATH E) in
  let device := ModelLoader.device self in
  ModelLoader.is_ready (snd run) = fst run /\
  ModelLoader.models_loaded (snd run) = fst run /\
  ModelLoader.device (snd run) = device /\
  (fst run = true <->
   exists a h,
     os_path_exists T anomalib_model_path = true /\
     TorchInferencer T anomalib_model_path device = Ok a /\
     os_path_exists T hrnet_model_path = true /\
     create_hrnet_model T = Ok h /\
     load_checkpoint T h hrnet_model_path device = Ok tt /\
     ModelLoader.get_models (snd run) = (Some a, Some h)) /\
  (fst run = false -> ModelLoader.get_models (snd run) = (None, None)) /\
  (forall h,
     os_path_exists T hrnet_model_path = true ->
     create_hrnet_model T = Ok h ->
     ModelLoader.hrnet_model (snd run) = Some h).
Proof.
  intros run pa ph dev; subst run pa ph dev.
  unfold ModelLoader.load_models, ModelLoader._load_anomalib_model,
    ModelLoader._load_hrnet_model, ModelLoader.is_ready, ModelLoader.get_models.
  set (pa := path_or anomalib_path (ANOMALIB_MODEL_PATH E)).
  set (ph := path_or hrnet_path (HRNET_MODEL_PATH E)).
  destruct (os_path_exists T pa) eqn:Hpa; cbn [negb];
    [destruct (TorchInferencer T pa (ModelLoader.device self)) as [a|ea] eqn:Ha|];
    cbn [ModelLoader.device];
    (destruct (os_path_exists T ph) eqn:Hph; cbn [negb];
      [destruct (create_hrnet_model T) as [h|eh] eqn:Hh;
        [cbn [ModelLoader.device];
         destruct (load_checkpoint T h ph (ModelLoader.device self))
           as [[]|el] eqn:Hl|]|]);
    cbn.
  all: repeat split; try done.
  all: try (intros (a' & h' & ? & ? & ? & ? & ? & ?); congruence).
  all: try (intros h' _ [= <-]; reflexivity).
  all: try by (intros _; exists a, h).
  all: try by intros ? ? [=].
Qed.

(** What the loader hands to [_initialize_processors] after a load. *)
Lemma load_models_get_models
    {Model : Type} (T : Torch Model) (E : Env)
    (anomalib_path hrnet_path : option string) (self : @ModelLoader.t Model) :
  let run := ModelLoader.load_models T E anomalib_path hrnet_path self in
  (fst run = true ->
   ModelLoader.is_ready (snd run) = true /\
   exists a h, ModelLoader.get_models (snd run) = (Some a, Some h)) /\
  (fst run = false -> ModelLoader.is_ready (snd run) = false) /\
  ModelLoader.device (snd run) = ModelLoader.device self /\
  ModelLoader.models_loaded (snd run) = fst run.
Proof.
  intros run; subst run.
  unfold ModelLoader.load_models, ModelLoader._load_anomalib_model,
    ModelLoader._load_hrnet_model, ModelLoader.is_ready, ModelLoader.get_models.
  destruct (os_path_exists T _); cbn [negb];
    [destruct (TorchInferencer T _ _) as [a|ea]|];
    cbn [ModelLoader.device];
    (destruct (os_path_exists T _); cbn [negb];
      [destruct (create_hrnet_model T) as [h|eh];
        [cbn [ModelLoader.device];
         destruct (load_checkpoint T h _ _) as [[]|el]|]|]);
    cbn.
  all: repeat split; try done.
  all: by eexists _, _.
Qed.

(** X18. What a (re)load of the detector leaves, for any detector. If it
    returns [False] the detector is not ready afterwards, even if it was
    ready before: its processors are still there, but [process_image]
    raises its RuntimeError. If it returns [True] the detector is ready, and
    its detection core, image processor and video processor are built on one
    core, made from the two models that the loader now returns. If a
    constructor raises, the loader is ready with the new models while the
    video processor is the old one; a detector that was ready stays ready. *)
Theorem reload_outcomes
    {Model : Type} (T : Torch Model) (E : Env)
    (anomalib_path hrnet_path : option string) (self : @Detector.t Model)
    (image_path : string) (output_dir : option string) (w : world) :
  let run := Detector.load_custom_models T E anomalib_path hrnet_path self in
  let self' := snd run in
  (fst run = Ok false ->
   Detector.is_ready self' = false /\
   Detector.detection_core self' = Detector.detection_core self /\
   Detector.image_processor self' = Detector.image_processor self /\
   Detector.video_processor self' = Detector.video_processor self /\
   process_image E (Detector.facade self') image_path output_dir w =
     (Raise (mk_exn RuntimeError "System not ready. Load models first."), w)) /\
  (fst run = Ok true ->
   Detector.is_ready self' = true /\
   exists a h core,
     ModelLoader.get_models (Detector.model_loader self') = (Some a, Some h) /\
     new_DetectionCore T a h (Detector.device self) = Ok core /\
     Detector.detection_core self' = Some core /\
     Detector.image_processor self' = Some core /\
     Detector.video_processor self' = Some core) /\
  (forall e, fst run = Raise e ->
   ModelLoader.is_ready (Detector.model_loader self') = true /\
   Detector.video_processor self' = Detector.video_processor self /\
   ((exists core,
       Detector.detection_core self' = Some core /\
       Detector.image_processor self' = Some core) \/
    (Detector.detection_core self' = Detector.detection_core self /\
     Detector.image_processor self' = Detector.image_processor self))) /\
  (forall e, fst run = Raise e ->
   Detector.is_ready self = true -> Detector.is_ready self' = true).
Proof.
  intros run self'; subst run self'.
  unfold Detector.load_custom_models.
  pose proof (load_models_get_models T E anomalib_path hrnet_path
                (Detector.model_loader self)) as Hload.
  cbv zeta in Hload.
  destruct (ModelLoader.load_models T E anomalib_path hrnet_path
              (Detector.model_loader self)) as [success loader].
  cbn [fst snd] in Hload. destruct Hload as (Htrue & Hfalse & _ & _).
  destruct success.
  - destruct (Htrue eq_refl) as (Hready & a & h & Hget). clear Htrue Hfalse.
    unfold Detector._initialize_processors, Detector.with_model_loader.
    cbn [Detector.model_loader Detector.device]. rewrite Hget.
    destruct (new_DetectionCore T a h (Detector.device self))
      as [core|e1] eqn:Hcore; cbn.
    + destruct (new_VideoProcessor T core) as [[]|e2]; cbn.
      * split; [done|]. split; [|split; [done|by intros e [=]]].
        intros _. unfold Detector.is_ready. cbn. rewrite Hready.
        split; [done|]. by exists a, h, core.
      * split; [done|]. split; [done|]. split.
        -- intros e _. rewrite Hready. repeat split. left. by exists core.
        -- intros e _. unfold Detector.is_ready. cbn. rewrite Hready. cbn.
           intros Hwas.
           apply andb_true_iff in Hwas as [_ Hvideo]. by rewrite Hvideo.
    + split; [done|]. split; [done|]. split.
      * intros e _. rewrite Hready. repeat split. by right.
      * intros e _. unfold Detector.is_ready. cbn. rewrite Hready. cbn.
        intros Hwas.
        apply andb_true_iff in Hwas as [Hwas Hvideo].
        apply andb_true_iff in Hwas as [Hwas Himage].
        apply andb_true_iff in Hwas as [_ Hcore'].
        by rewrite Hcore', Himage, Hvideo.
  - specialize (Hfalse eq_refl). cbn [fst snd].
    split; [|split; [done|split; by intros e [=]]].
    intros _. unfold Detector.is_ready, Detector.with_model_loader. cbn.
    rewrite Hfalse. cbn. repeat split.
    unfold process_image, Detector.facade, detector_view, is_ready,
      Detector.is_ready.
    cbn. by rewrite Hfalse.
Qed.

(** A detector that the constructor returns: either nothing is loaded and
    there is no processor, or the models are loaded and the three processors
    stand on one core. *)
Lemma init_shape
    {Model : Type} (T : Torch Model) (E : Env)
    (anomalib_model_path hrnet_model_path device : option string)
    (auto_load : bool) (self : @Detector.t Model) :
  Detector.__init__ T E anomalib_model_path hrnet_model_path device auto_load =
    Ok self ->
  Detector.device self = Detector.chosen_device T device /\
  ModelLoader.device (Detector.model_loader self) =
    (if cuda_is_available T then Detector.chosen_device T device else "cpu") /\
  ModelLoader.models_loaded (Detector.model_loader self) =
    ModelLoader.is_ready (Detector.model_loader self) /\
  ((ModelLoader.is_ready (Detector.model_loader self) = false /\
    Detector.detection_core self = None /\
    Detector.image_processor self = None /\
    Detector.video_processor self = None) \/
   (auto_load = true /\
    ModelLoader.is_ready (Detector.model_loader self) = true /\
    exists core,
      Detector.detection_core self = Some core /\
      Detector.image_processor self = Some core /\
      Detector.video_processor self = Some core)).
Proof.
  unfold Detector.__init__.
  destruct auto_load;
    [|intros [= <-]; split; [done|]; split; [done|]; split; [done|by left]].
  assert (Hcustom : forall pa ph,
    match Detector.load_custom_models T E pa ph
            {| Detector.device := Detector.chosen_device T device;
               Detector.model_loader :=
                 ModelLoader.__init__ T (Detector.chosen_device T device);
               Detector.detection_core := None;
               Detector.image_processor := None;
               Detector.video_processor := None |} with
    | (success, self0) =>
        match success with
        | Raise e => Raise e
        | Ok true =>
            match Detector._initialize_processors T self0 with
            | (Ok _, self1) => Ok self1
            | (Raise e, _) => Raise e
            end
        | Ok false => Ok self0
        end
    end = Ok self ->
    Detector.device self = Detector.chosen_device T device /\
    ModelLoader.device (Detector.model_loader self) =
      (if cuda_is_available T then Detector.chosen_device T device else "cpu") /\
    ModelLoader.models_loaded (Detector.model_loader self) =
      ModelLoader.is_ready (Detector.model_loader self) /\
    ((ModelLoader.is_ready (Detector.model_loader self) = false /\
      Detector.detection_core self = None /\
      Detector.image_processor self = None /\
      Detector.video_processor self = None) \/
     (true = true /\
      ModelLoader.is_ready (Detector.model_loader self) = true /\
      exists core,
        Detector.detection_core self = Some core /\
        Detector.image_processor self = Some core /\
        Detector.video_processor self = Some core))).
  { intros pa ph. unfold Detector.load_custom_models.
    cbn [Detector.model_loader].
    pose proof (load_models_get_models T E pa ph
                  (ModelLoader.__init__ T (Detector.chosen_device T device)))
      as Hload.
    cbv zeta in Hload.
    destruct (ModelLoader.load_models T E pa ph
                (ModelLoader.__init__ T (Detector.chosen_device T device)))
      as [success loader].
    cbn [fst snd] in Hload. destruct Hload as (Htrue & Hfalse & Hdev & Hflag).
    cbn [ModelLoader.__init__ ModelLoader.device] in Hdev.
    destruct success.
    - destruct (Htrue eq_refl) as (Hready & a & h & Hget).
      unfold Detector._initialize_processors, Detector.with_model_loader.
      cbn [Detector.model_loader Detector.device]. rewrite Hget.
      destruct (new_DetectionCore T a h _) as [core|e1] eqn:Hcore; [|done].
      cbn [Detector.model_loader Detector.device].
      destruct (new_VideoProcessor T core) as [[]|e2] eqn:Hvideo; [|done].
      cbn [Detector.model_loader Detector.device]. rewrite Hget, Hcore.
      cbn [Detector.model_loader Detector.device]. rewrite Hvideo.
      intros [= <-]. cbn. split; [done|]. split; [done|].
      split; [by rewrite Hflag, Hready|]. right.
      split; [done|]. split; [done|]. by exists core.
    - intros [= <-]. cbn. split; [done|]. split; [done|].
      split; [by rewrite Hflag, (Hfalse eq_refl)|]. left.
      by rewrite (Hfalse eq_refl). }
  destruct (path_truthy anomalib_model_path || path_truthy hrnet_model_path).
  - apply Hcustom.
  - apply (Hcustom None None).
Qed.

(** X19. A detector that the constructor returns is ready exactly when its
    loader is, and never when it was built without loading. Its detection
    core, image processor and video processor are all absent or all built on
    one core, and it is ready exactly when they are present. For such a
    detector [process_image] either raises its RuntimeError or runs the
    pipeline on that core. *)
Theorem constructed_detector_readiness
    {Model : Type} (T : Torch Model) (E : Env)
    (anomalib_model_path hrnet_model_path device : option string)
    (auto_load : bool) (self : @Detector.t Model) :
  Detector.__init__ T E anomalib_model_path hrnet_model_path device auto_load =
    Ok self ->
  Detector.is_ready self = ModelLoader.is_ready (Detector.model_loader self) /\
  (auto_load = false -> Detector.is_ready self = false) /\
  Detector.image_processor self = Detector.detection_core self /\
  Detector.video_processor self = Detector.detection_core self /\
  (Detector.is_ready self = true <-> is_Some (Detector.detection_core self)) /\
  forall image_path output_dir w,
    process_image E (Detector.facade self) image_path output_dir w =
      match Detector.detection_core self with
      | Some core => process_single_image E core image_path output_dir w
      | None =>
          (Raise (mk_exn RuntimeError "System not ready. Load models first."),
           w)
      end.
Proof.
  intros Hinit.
  destruct (init_shape T E _ _ _ _ _ Hinit)
    as (_ & _ & _ & [(Hloader & Hcore & Himage & Hvideo)
                    |(Hauto & Hloader & core & Hcore & Himage & Hvideo)]).
  - unfold process_image, Detector.facade, detector_view, is_ready,
      Detector.is_ready.
    rewrite Hloader, Hcore, Himage, Hvideo. cbn.
    repeat split; try done; by intros [c [=]].
  - unfold process_image, Detector.facade, detector_view, is_ready,
      Detector.is_ready.
    rewrite Hloader, Hcore, Himage, Hvideo. cbn.
    repeat split; try done; by intros ->.
Qed.

(** X20. The device of the loader and the device of the detector, which
    is the one given to [DetectionCore]. The detector keeps the requested
    device ([cuda] when none is given) and falls back to [cpu] only from
    [cuda]; the loader falls back to [cpu] from any device when CUDA is not
    available. So the two agree exactly when CUDA is available or the
    requested device is [cuda] or [cpu]: with another device and no CUDA
    the models are loaded on [cpu] while the detector keeps that device. *)
Theorem loader_and_detector_device
    {Model : Type} (T : Torch Model) (E : Env)
    (anomalib_model_path hrnet_model_path device : option string)
    (auto_load : bool) (self : @Detector.t Model) :
  Detector.__init__ T E anomalib_model_path hrnet_model_path device auto_load =
    Ok self ->
  let requested := path_or device DEVICE in
  (ModelLoader.device (Detector.model_loader self) = Detector.device self <->
   cuda_is_available T = true \/ requested = "cuda" \/ requested = "cpu") /\
  (cuda_is_available T = true -> Detector.device self = requested) /\
  (cuda_is_available T = false ->
   ModelLoader.device (Detector.model_loader self) = "cpu" /\
   Detector.device self = if String.eqb requested "cuda" then "cpu"
                          else requested).
Proof.
  intros Hinit requested.
  destruct (init_shape T E _ _ _ _ _ Hinit) as (-> & -> & _ & _).
  unfold Detector.chosen_device. fold requested.
  destruct (cuda_is_available T); cbn [negb andb];
    rewrite ?andb_false_r, ?andb_true_r.
  - repeat split; try done. by left.
  - destruct (String.eqb_spec requested "cuda") as [Hcuda|Hcuda].
    + repeat split; try done. intros _. right. by left.
    + repeat split; try done.
      * intros Hcpu. right. by right.
      * intros [?|[?|?]]; done.
Qed.

(** X21. What holds of every detector a program can hold, however often
    it was reloaded and whether or not a reload raised: the image processor
    works on the detector's current detection core; a video processor is
    there only if a detection core is; the loader is ready exactly when its
    flag [models_loaded] is set, since the flag is only set with both models
    stored; and so the detector is ready exactly when the flag is set and
    the video processor is there. *)
Theorem detector_invariants
    {Model : Type} (E : Env) (self : @Detector.t Model) :
  reachable E self ->
  Detector.image_processor self = Detector.detection_core self /\
  (is_Some (Detector.video_processor self) ->
   is_Some (Detector.detection_core self)) /\
  ModelLoader.is_ready (Detector.model_loader self) =
    ModelLoader.models_loaded (Detector.model_loader self) /\
  Detector.is_ready self =
    ModelLoader.models_loaded (Detector.model_loader self) &&
    bool_decide (is_Some (Detector.video_processor self)).
Proof.
  intros Hreach.
  assert (Hinv : Detector.image_processor self = Detector.detection_core self /\
                 (is_Some (Detector.video_processor self) ->
                  is_Some (Detector.detection_core self)) /\
                 ModelLoader.is_ready (Detector.model_loader self) =
                   ModelLoader.models_loaded (Detector.model_loader self)).
  { induction Hreach as [T pa ph dev auto self Hinit|T pa ph self Hreach IH].
    - destruct (init_shape T E _ _ _ _ _ Hinit)
        as (_ & _ & Hflag & [(_ & Hcore & Himage & Hvideo)
                            |(_ & _ & core & Hcore & Himage & Hvideo)]).
      all: rewrite Hcore, Himage, Hvideo, Hflag; by repeat split.
    - destruct IH as (Himage & Hvideo & _).
      unfold Detector.load_custom_models.
      pose proof (load_models_get_models T E pa ph (Detector.model_loader self))
        as Hload.
      cbv zeta in Hload.
      destruct (ModelLoader.load_models T E pa ph (Detector.model_loader self))
        as [success loader].
      cbn [fst snd] in Hload. destruct Hload as (Htrue & Hfalse & _ & Hflag).
      destruct success.
      + destruct (Htrue eq_refl) as (Hready & a & h & Hget).
        unfold Detector._initialize_processors, Detector.with_model_loader.
        cbn [Detector.model_loader Detector.device]. rewrite Hget.
        destruct (new_DetectionCore T a h (Detector.device self)) as [core|e1].
        * destruct (new_VideoProcessor T core) as [[]|e2]; cbn.
          all: by rewrite Hready, Hflag.
        * cbn. by rewrite Hready, Hflag.
      + cbn. by rewrite (Hfalse eq_refl), Hflag. }
  destruct Hinv as (Himage & Hvideo & Hflag).
  split; [exact Himage|]. split; [exact Hvideo|]. split; [exact Hflag|].
  unfold Detector.is_ready. rewrite Hflag, Himage.
  destruct (ModelLoader.models_loaded _); [cbn|done].
  destruct (Detector.video_processor self) as [v|] eqn:Hv.
  - destruct (Hvideo (ex_intro _ v eq_refl)) as [c ->]. done.
  - by rewrite andb_false_r.
Qed.

(** ** Thresholds over HTTP *)

(** On floats, the update of the globals is the one of [update_thresholds]
    above. *)
Lemma update_thresholds_of_thresholds
    (a d : option float) (g : Thresholds) :
  Main.update_thresholds (of_argument a) (of_argument d) (of_thresholds g) =
  of_thresholds (update_thresholds a d g).
Proof. by destruct a, d. Qed.


(** ** The test runner *)

Lemma test_image_runs (E : Env) (det : UnifiedDefectDetector)
    (output_dir : string) (test : string * string * string) (w : world) :
  exists round w',
    BackendTester.test_image E det output_dir test w = (Ok round, w') /\
    BackendTester.test_name (fst round) = fst (fst test) /\
    BackendTester.expected (fst round) = snd test /\
    (BackendTester.matched (fst round) = true ->
     BackendTester.actual (fst round) = snd test).
Proof.
  destruct test as [[name image_path] expected].
  unfold BackendTester.test_image.
  unfold mbind at 1, M_bind at 1, next_tick at 1. unfold try_except.
  unfold mbind at 1, M_bind at 1.
  destruct (process_image E det image_path (Some output_dir) _)
    as [[[result|]|e] w1]; cbn.
  - eexists _, _. split; [reflexivity|]. cbn. repeat split.
    by intros ?%String.eqb_eq.
  - eexists _, _. split; [reflexivity|]. by cbn.
  - eexists _, _. split; [reflexivity|]. by cbn.
Qed.

Lemma test_images_loop_runs (E : Env) (det : UnifiedDefectDetector)
    (output_dir : string) (tests : list (string * string * string))
    (results : list BackendTester.TestEntry) (processing_times : list float)
    (w : world) :
  exists new times w',
    BackendTester.test_images_loop E det output_dir tests results
      processing_times w = (Ok (results ++ new, times), w') /\
    map BackendTester.test_name new = map (fun test => fst (fst test)) tests /\
    map BackendTester.expected new = map snd tests /\
    Forall (fun entry => BackendTester.matched entry = true ->
                         BackendTester.actual entry =
                         BackendTester.expected entry) new.
Proof.
  revert results processing_times w.
  induction tests as [|test rest IH]; intros results processing_times w.
  - exists [], processing_times, w. cbn. by rewrite app_nil_r.
  - destruct (test_image_runs E det output_dir test w)
      as (round & w1 & Hround & Hname & Hexpected & Hmatch).
    cbn [BackendTester.test_images_loop]. unfold mbind, M_bind.
    rewrite Hround.
    destruct (IH (results ++ [fst round])
                 match snd round with
                 | Some processing_time => processing_times ++ [processing_time]
                 | None => processing_times
                 end w1) as (new & times & w2 & Hrest & Hnames & Hexp & Hall).
    exists (fst round :: new), times, w2.
    rewrite Hrest, <- app_assoc. cbn. rewrite Hname, Hnames, Hexpected, Hexp.
    repeat split. constructor; [|exact Hall].
    intros Hm. rewrite Hexpected. by apply Hmatch.
Qed.

(** With a ready detector and at least one test image the test completes. *)
Lemma test_single_image_processing_completes
    (B : Builtins) (E : Env) (self : BackendTester.t)
    (det : UnifiedDefectDetector) (w : world) :
  BackendTester.detector self = Some det ->
  is_ready det = true ->
  BackendTester.test_images self <> [] ->
  exists total passed rate avg results w',
    BackendTester.test_single_image_processing B E self w =
      (Ok (BackendTester.Returned (Nat.ltb 0 passed),
           BackendTester.with_result self "single_image"
             (BackendTester.completed total passed rate avg results)),
       w') /\
    total = length (BackendTester.test_images self) /\
    map BackendTester.test_name results =
      map (fun test => fst (fst test)) (BackendTester.test_images self) /\
    passed = length (List.filter BackendTester.matched results) /\
    passed <= total /\
    Forall (fun entry => BackendTester.matched entry = true ->
                         BackendTester.actual entry =
                         BackendTester.expected entry) results.
Proof.
  intros Hdet Hready Hne.
  unfold BackendTester.test_single_image_processing. rewrite Hdet, Hready.
  destruct (test_images_loop_runs E det (BackendTester.test_output_dir self)
              (BackendTester.test_images self) [] [] w)
    as (results & times & w' & Hloop & Hnames & _ & Hall).
  cbn [app] in Hloop. unfold mbind, M_bind. rewrite Hloop.
  assert (Hlen : length results = length (BackendTester.test_images self)).
  { by rewrite <- (length_map BackendTester.test_name), Hnames, length_map. }
  destruct (Nat.eqb_spec (length results) 0) as [Hzero|_].
  { destruct (BackendTester.test_images self); [done|].
    rewrite Hzero in Hlen. discriminate Hlen. }
  eexists _, _, _, _, results, w'. split; [reflexivity|].
  repeat split; try done. apply List.filter_length_le.
Qed.

(** X23. How [test_single_image_processing] ends. Without a ready detector
    it records the test as skipped and returns [False], running nothing.
    With a ready detector and no test image it raises ZeroDivisionError,
    having recorded nothing. Otherwise it returns, whatever happens to the
    images: it records the test as completed with one entry per test image,
    in order, counts as passed the entries whose decision is the expected
    one, and returns whether at least one passed. *)
Theorem test_single_image_processing_endings
    (B : Builtins) (E : Env) (self : BackendTester.t) (w : world) :
  let run := BackendTester.test_single_image_processing B E self w in
  let ready :=
    match BackendTester.detector self with
    | Some det => is_ready det
    | None => false
    end in
  (ready = false ->
   run = (Ok (BackendTester.Returned false,
              BackendTester.with_result self "single_image"
                (BackendTester.skipped "detector not ready")), w)) /\
  (ready = true -> BackendTester.test_images self = [] ->
   run = (Ok (BackendTester.ZeroDivisionError, self), w)) /\
  (ready = true -> BackendTester.test_images self <> [] ->
   exists total passed rate avg results w',
     run = (Ok (BackendTester.Returned (Nat.ltb 0 passed),
                BackendTester.with_result self "single_image"
                  (BackendTester.completed total passed rate avg results)),
            w') /\
     total = length (BackendTester.test_images self) /\
     map BackendTester.test_name results =
       map (fun test => fst (fst test)) (BackendTester.test_images self) /\
     passed = length (List.filter BackendTester.matched results) /\
     passed <= total /\
     Forall (fun entry => BackendTester.matched entry = true ->
                          BackendTester.actual entry =
                          BackendTester.expected entry) results).
Proof.
  intros run ready; subst run ready.
  destruct (BackendTester.detector self) as [det|] eqn:Hdet.
  2: { unfold BackendTester.test_single_image_processing. rewrite Hdet.
       by repeat split. }
  destruct (is_ready det) eqn:Hready.
  2: { unfold BackendTester.test_single_image_processing.
       rewrite Hdet, Hready. by repeat split. }
  split; [done|]. split.
  - intros _ Hnil. unfold BackendTester.test_single_image_processing.
    by rewrite Hdet, Hready, Hnil.
  - intros _ Hne.
    by apply (test_single_image_processing_completes B E self det w).
Qed.


(** ** The server and its detector *)

(** X25. From the state of the model files to the answers of the server.
    If both files are there and everything that loads them and builds the
    processors succeeds, the server has a ready detector that works on the
    core built from the two models. In every other case, a missing file
    included, the server starts all the same, and answers every single and
    every batch detection request with 500 "Detection system not ready",
    doing nothing. *)
Theorem server_ready_iff_models_in_place
    {Model : Type} (T : Torch Model) (E : Env) :
  let srv := _initialize_detector T E in
  (forall a h core,
     models_in_place T E a h core ->
     detector srv = Some (detector_view true (Some core))) /\
  ((forall a h core, ~ models_in_place T E a h core) ->
   forall B req w,
     detect_image B E srv req w =
       (Ok (error_reply "Detection system not ready" 500), w) /\
     batch_detect B E srv req w =
       (Ok (error_reply "Detection system not ready" 500), w)).
Proof.
  intros srv; subst srv.
  unfold _initialize_detector, Detector.create_detector, Detector.__init__,
    Detector.load_models, Detector.load_custom_models,
    ModelLoader.load_models, ModelLoader._load_anomalib_model,
    ModelLoader._load_hrnet_model, ModelLoader.__init__, models_in_place.
  cbn [path_truthy orb path_or Detector.model_loader Detector.with_model_loader
       ModelLoader.device].
  assert (Hdev : Detector.chosen_device T None =
                 if cuda_is_available T then "cuda" else "cpu").
  { unfold Detector.chosen_device. cbn. by destruct (cuda_is_available T). }
  rewrite Hdev.
  assert (Hdev' : (if cuda_is_available T
                   then if cuda_is_available T then "cuda" else "cpu"
                   else "cpu") = if cuda_is_available T then "cuda" else "cpu")
    by (by destruct (cuda_is_available T)).
  rewrite !Hdev'. clear Hdev Hdev'.
  set (device := if cuda_is_available T then "cuda" else "cpu").
  set (pa := ANOMALIB_MODEL_PATH E). set (ph := HRNET_MODEL_PATH E).
  clearbody device pa ph.
  split.
  - intros a h core (Hpa & Ha & Hph & Hh & Hl & Hcore & Hvideo).
    rewrite Hpa, Ha, Hph. cbn. rewrite Hh. cbn. rewrite Hl. cbn.
    unfold Detector._initialize_processors, ModelLoader.get_models. cbn.
    rewrite Hcore. cbn. rewrite Hvideo. cbn. rewrite Hcore. cbn.
    rewrite Hvideo. reflexivity.
  - intros Hnot B req w.
    assert (Hrefuse : forall det : option UnifiedDefectDetector,
              match det with Some d => is_ready d = false | None => True end ->
              detect_image B E {| detector := det |} req w =
                (Ok (error_reply "Detection system not ready" 500), w) /\
              batch_detect B E {| detector := det |} req w =
                (Ok (error_reply "Detection system not ready" 500), w)).
    { intros [d|] Hd; unfold detect_image, batch_detect; cbn [detector];
        [by rewrite Hd|done]. }
    apply Hrefuse.
    destruct (os_path_exists T pa) eqn:Hpa; cbn [negb];
      [destruct (TorchInferencer T pa device) as [a|ea] eqn:Ha|];
      cbn [ModelLoader.device];
      (destruct (os_path_exists T ph) eqn:Hph; cbn [negb];
        [destruct (create_hrnet_model T) as [h|eh] eqn:Hh;
          [cbn [ModelLoader.device];
           destruct (load_checkpoint T h ph device) as [[]|el] eqn:Hl|]|]);
      cbn; try reflexivity.
    unfold Detector._initialize_processors, ModelLoader.get_models. cbn.
    destruct (new_DetectionCore T a h device) as [core|ec] eqn:Hcore;
      cbn; [|done].
    destruct (new_VideoProcessor T core) as [[]|ev] eqn:Hvideo; cbn; [|done].
    by destruct (Hnot a h core).
Qed.

(** ** The chart of a batch *)

Lemma count_defect_get (x defect : string) (counts : list (string * nat)) :
  counts_get x (count_defect defect counts) =
  counts_get x counts + (if String.eqb x defect then 1 else 0).
Proof.
  induction counts as [|[k n] rest IH]; cbn.
  - destruct (String.eqb x defect); lia.
  - destruct (String.eqb_spec defect k) as [->|Hk]; cbn.
    + destruct (String.eqb x k); lia.
    + destruct (String.eqb_spec x k) as [->|Hx]; [|exact IH].
      destruct (String.eqb_spec k defect) as [->|_]; [done|lia].
Qed.

Lemma count_defect_keys (x defect : string) (counts : list (string * nat)) :
  x ∈ map fst (count_defect defect counts) <->
  x = defect \/ x ∈ map fst counts.
Proof.
  induction counts as [|[k n] rest IH]; cbn.
  - by rewrite elem_of_cons.
  - destruct (String.eqb_spec defect k) as [->|Hk]; cbn.
    + rewrite elem_of_cons. tauto.
    + rewrite !elem_of_cons, IH. tauto.
Qed.

Lemma count_defect_NoDup (defect : string) (counts : list (string * nat)) :
  NoDup (map fst counts) -> NoDup (map fst (count_defect defect counts)).
Proof.
  induction counts as [|[k n] rest IH]; cbn.
  - intros _. apply NoDup_singleton.
  - intros [Hk Hrest]%NoDup_cons.
    destruct (String.eqb_spec defect k) as [->|Hne]; cbn.
    + by apply NoDup_cons.
    + apply NoDup_cons. split; [|by apply IH].
      rewrite count_defect_keys. intros [H|H]; [by subst|done].
Qed.

Lemma count_defect_positive (defect : string) (counts : list (string * nat)) :
  Forall (fun kn => 0 < snd kn) counts ->
  Forall (fun kn => 0 < snd kn) (count_defect defect counts).
Proof.
  induction counts as [|[k n] rest IH]; cbn.
  - intros _. repeat constructor.
  - intros [Hn Hrest]%Forall_cons.
    destruct (String.eqb defect k); constructor; cbn in *; auto with lia.
Qed.

Lemma mentions_cons (x : string) (r : DetectionResult)
    (results : list DetectionResult) :
  mentions x (r :: results) =
  length (List.filter (String.eqb x) (default [] (detected_defect_types r))) +
  mentions x results.
Proof. reflexivity. Qed.

(** What the loop keeps true of [defect_counts]. *)
Lemma defect_counts_fold (results : list DetectionResult)
    (counts : list (string * nat)) :
  let counts' :=
    fold_left
      (fun counts result =>
         match detected_defect_types result with
         | Some types =>
             fold_left (fun counts defect => count_defect defect counts)
                       types counts
         | None => counts
         end)
      results counts in
  (NoDup (map fst counts) -> NoDup (map fst counts')) /\
  (Forall (fun kn => 0 < snd kn) counts ->
   Forall (fun kn => 0 < snd kn) counts') /\
  (forall x, counts_get x counts' = counts_get x counts + mentions x results) /\
  (forall x,
     x ∈ map fst counts' <->
     x ∈ map fst counts \/
     exists r types,
       r ∈ results /\ detected_defect_types r = Some types /\ x ∈ types).
Proof.
  assert (Htypes : forall types counts,
    let counts' :=
      fold_left (fun counts defect => count_defect defect counts) types counts in
    (NoDup (map fst counts) -> NoDup (map fst counts')) /\
    (Forall (fun kn => 0 < snd kn) counts ->
     Forall (fun kn => 0 < snd kn) counts') /\
    (forall x, counts_get x counts' =
               counts_get x counts + length (List.filter (String.eqb x) types)) /\
    (forall x, x ∈ map fst counts' <-> x ∈ map fst counts \/ x ∈ types)).
  { clear. induction types as [|d types IH]; intros counts; cbn.
    - split; [done|]. split; [done|]. split; [intros x; lia|].
      intros x. split; [by left|].
      intros [H|H]; [done|by apply elem_of_nil in H].
    - destruct (IH (count_defect d counts)) as (Hnd & Hpos & Hget & Hkeys).
      cbv zeta in *. split; [|split; [|split]].
      + intros H. by apply Hnd, count_defect_NoDup.
      + intros H. by apply Hpos, count_defect_positive.
      + intros x. rewrite Hget, count_defect_get.
        destruct (String.eqb x d); cbn; lia.
      + intros x. rewrite Hkeys, count_defect_keys, elem_of_cons. tauto. }
  revert counts.
  induction results as [|r results IH]; intros counts; cbn [fold_left].
  - split; [done|]. split; [done|].
    split; [intros x; unfold mentions; cbn; lia|].
    intros x. split; [by left|].
    intros [H|(r & types & H & _)]; [done|by apply elem_of_nil in H].
  - match goal with |- context [fold_left _ results ?c] =>
      destruct (IH c) as (Hnd & Hpos & Hget & Hkeys) end.
    cbv zeta in *.
    destruct (detected_defect_types r) as [types|] eqn:Hr.
    + destruct (Htypes types counts) as (Hnd' & Hpos' & Hget' & Hkeys').
      cbv zeta in *. split; [|split; [|split]].
      * intros H. by apply Hnd, Hnd'.
      * intros H. by apply Hpos, Hpos'.
      * intros x. rewrite Hget, Hget', mentions_cons, Hr.
        cbn [default from_option id]. lia.
      * intros x. rewrite Hkeys, Hkeys'. split.
        -- intros [[H|H]|(r' & types' & Hin & Ht & Hx)]; [by left| |].
           ++ right. exists r, types. split; [by left|done].
           ++ right. exists r', types'. split; [by right|done].
        -- intros [H|(r' & types' & Hin & Ht & Hx)]; [by left; left|].
           apply elem_of_cons in Hin as [->|Hin].
           ++ left. right. congruence.
           ++ right. by exists r', types'.
    + split; [done|]. split; [done|]. split.
      * intros x. rewrite Hget, mentions_cons, Hr. cbn. lia.
      * intros x. rewrite Hkeys. split.
        -- intros [H|(r' & types' & Hin & Ht & Hx)]; [by left|].
           right. exists r', types'. split; [by right|done].
        -- intros [H|(r' & types' & Hin & Ht & Hx)]; [by left|].
           apply elem_of_cons in Hin as [->|Hin]; [congruence|].
           right. by exists r', types'.
Qed.

(** A result whose decision is not DEFECT lists no defect type. *)
Lemma process_single_image_types (E : Env) (core : DetectionCore)
    (path : string) (output_dir : option string) (w : world)
    (r : DetectionResult) :
  fst (process_single_image E core path output_dir w) = Ok (Some r) ->
  final_decision r <> "DEFECT" ->
  detected_defect_types r = Some [].
Proof.
  unfold process_single_image. run_M.
  destruct (detect_anomaly core _ path) as [[a|]|e]; cbn;
    [|intros H; discriminate H..].
  destruct (String.eqb_spec (decision a) "DEFECT") as [Hd|Hd]; cbn.
  1: destruct (classify_defects core _ path _) as [[d|]|e]; cbn;
    [| |intros H; discriminate H].
  all: destruct (save_analysis_report E _ _ _) as [report|e]; cbn;
    [|intros H; discriminate H].
  all: by intros [= <-].
Qed.

Lemma run_images_types (E : Env) (core : DetectionCore)
    (output_folder : string) (image_files : list string) (w : world)
    (outcomes : list (option DetectionResult)) (w' : world) :
  run_images E core output_folder image_files w = (Ok outcomes, w') ->
  Forall (fun r => final_decision r <> "DEFECT" ->
                   detected_defect_types r = Some [])
         (successes outcomes).
Proof.
  revert w outcomes w'.
  induction image_files as [|path rest IH]; intros w outcomes w'.
  - cbn. intros [= <- _]. constructor.
  - cbn [run_images]. intros Hrun.
    apply M_bind_Ok in Hrun as (o & w1 & Hone & Hrun).
    apply M_bind_Ok in Hrun as (os & w2 & Hrest & Hrun).
    injection Hrun as <- _.
    specialize (IH _ _ _ Hrest). unfold successes in *.
    destruct o as [r|]; cbn; [|exact IH].
    constructor; [|exact IH].
    apply (process_single_image_types E core path (Some output_folder) w).
    by rewrite Hone.
Qed.

(** X26. The defect frequency plot agrees with the summary of the batch
    it is drawn for. [defect_counts] has one entry for each defect type of
    [defect_types_found] and no other, none twice, so there are as many bars
    as the summary counts defect types; the height of a bar is the number of
    times the results list the type, which is at least one; and the plot
    shows its text instead of bars exactly when there would be no bar. *)
Theorem defect_chart_matches_summary
    (B : Builtins) (E : Env) (core : DetectionCore) (input_folder : string)
    (output_folder : option string) (w : world)
    (results : list DetectionResult) (summary : BatchSummary) (w' : world) :
  process_batch_images B E core input_folder output_folder w =
    (Ok (Some (results, summary)), w') ->
  map fst (defect_counts results) ≡ₚ defect_types_found summary /\
  NoDup (map fst (defect_counts results)) /\
  (forall x, counts_get x (defect_counts results) = mentions x results) /\
  Forall (fun kn => 0 < snd kn) (defect_counts results) /\
  (defect_bars results summary = None <-> defect_counts results = []).
Proof.
  intros Hrun.
  pose proof (process_batch_images_found _ _ _ _ _ _ _ _ Hrun) as Hfiles.
  destruct (process_batch_images_returns _ _ _ _ _ _ _ _ Hrun Hfiles)
    as (outcomes & w1 & Houtcomes & _ & [= -> ->] & _).
  pose proof (run_images_types _ _ _ _ _ _ _ Houtcomes) as Htypes.
  rewrite fold_results_results. cbn [acc_results empty_accumulator app].
  destruct (defect_counts_fold (successes outcomes) [])
    as (Hnd & Hpos & Hget & Hkeys).
  cbv zeta in *. fold (defect_counts (successes outcomes)) in *.
  specialize (Hnd (NoDup_nil_2)). specialize (Hpos (Forall_nil_2 _)).
  assert (Hperm : map fst (defect_counts (successes outcomes)) ≡ₚ
                  defect_types_found
                    (finalize B (length (find_image_files E input_folder))
                       (fold_results outcomes empty_accumulator))).
  { cbn [defect_types_found finalize].
    apply NoDup_Permutation; [exact Hnd|apply NoDup_elements|].
    intros x.
    rewrite elem_of_elements, fold_results_types, Hkeys.
    cbn [acc_types empty_accumulator map].
    split.
    - intros [H|(r & types & Hr & Ht & Hx)]; [by apply elem_of_nil in H|].
      right. exists r, types. repeat split; try done.
      unfold is_good. apply String.eqb_neq. intros Hgood.
      rewrite Forall_forall in Htypes.
      rewrite (Htypes r Hr) in Ht; [|by rewrite Hgood].
      injection Ht as <-. by apply elem_of_nil in Hx.
    - intros [H|(r & types & Hr & _ & Ht & Hx)]; [by apply elem_of_empty in H|].
      right. by exists r, types. }
  split; [exact Hperm|]. split; [exact Hnd|]. split; [exact Hget|].
  split; [exact Hpos|].
  unfold defect_bars.
  destruct (defect_types_found _) as [|t ts] eqn:Hfound.
  - split; [intros _|done].
    apply Permutation_nil_r in Hperm. by apply map_eq_nil in Hperm.
  - split; [done|]. intros Hnil. rewrite Hnil in Hperm.
    by apply Permutation_nil_cons in Hperm.
Qed.

(** ** The convenience functions *)

(** X27. [load_custom_models] of the loader module, and [auto_load_models],
    which is the same call with the paths of [config.py], return both models
    or [(None, None)], never one model without the other, although the
    loader they use may hold one. They return the models exactly when
    loading them succeeded, on the device given if CUDA is available and on
    [cpu] otherwise. *)
Theorem load_custom_models_all_or_nothing
    {Model : Type} (T : Torch Model) (E : Env)
    (anomalib_path hrnet_path : option string) (device : string) :
  let anomalib_model_path := path_or anomalib_path (ANOMALIB_MODEL_PATH E) in
  let hrnet_model_path := path_or hrnet_path (HRNET_MODEL_PATH E) in
  let used := if cuda_is_available T then device else "cpu" in
  let loaded a h :=
    os_path_exists T anomalib_model_path = true /\
    TorchInferencer T anomalib_model_path used = Ok a /\
    os_path_exists T hrnet_model_path = true /\
    create_hrnet_model T = Ok h /\
    load_checkpoint T h hrnet_model_path used = Ok tt in
  (forall a h,
     loaded a h ->
     load_custom_models T E anomalib_path hrnet_path device = (Some a, Some h)) /\
  ((forall a h, ~ loaded a h) ->
   load_custom_models T E anomalib_path hrnet_path device = (None, None)) /\
  auto_load_models T E device = load_custom_models T E None None device.
Proof.
  intros pa ph used loaded; subst loaded.
  unfold load_custom_models, auto_load_models, ModelLoader.load_models,
    ModelLoader._load_anomalib_model, ModelLoader._load_hrnet_model,
    ModelLoader.get_models, ModelLoader.__init__.
  cbn [ModelLoader.device]. fold pa ph used. clearbody pa ph used.
  split; [|split; [|reflexivity]].
  - intros a h (Hpa & Ha & Hph & Hh & Hl).
    rewrite Hpa, Ha, Hph. cbn. rewrite Hh. cbn. by rewrite Hl.
  - intros Hnot.
    destruct (os_path_exists T pa) eqn:Hpa; cbn [negb];
      [destruct (TorchInferencer T pa used) as [a|ea] eqn:Ha|];
      cbn [ModelLoader.device];
      (destruct (os_path_exists T ph) eqn:Hph; cbn [negb];
        [destruct (create_hrnet_model T) as [h|eh] eqn:Hh;
          [cbn [ModelLoader.device];
           destruct (load_checkpoint T h ph used) as [[]|el] eqn:Hl|]|]);
      cbn; try reflexivity.
    by destruct (Hnot a h).
Qed.



(** ** The further properties at concrete inputs *)

Lemma defect_gate_classifies_once_witness :
  anomaly_stage unclassified_core "img.jpg" start_world =
    Ok (Some defect_anomaly) /\
  classify_events
    (snd (process_single_image example_env unclassified_core "img.jpg" None
            start_world)) = [EvClassify "img.jpg"].
Proof.
  pose proof (defect_gate_classifies_once example_env unclassified_core
                "img.jpg" None start_world defect_anomaly eq_refl eq_refl) as H.
  cbv zeta in H. destruct H as [H _]. split; [reflexivity|exact H].
Defined.

Lemma report_failure_discards_result_witness :
  report_writer_fails broken_report_env /\
  fst (process_single_image broken_report_env good_core "img.jpg" None
         start_world) = Ok None.
Proof.
  assert (Hfails : report_writer_fails broken_report_env)
    by (intros w r dir; eexists; reflexivity).
  pose proof (report_failure_discards_result broken_report_env good_core
                "img.jpg" None start_world Hfails) as H.
  cbv zeta in H. destruct H as [H _]. split; [exact Hfails|exact H].
Defined.

Lemma result_returned_iff_stages_succeed_witness :
  report_writer_works example_env /\
  exists r,
    fst (process_single_image example_env unclassified_core "img.jpg" None
           start_world) = Ok (Some r).
Proof.
  assert (Hworks : report_writer_works example_env)
    by (intros w r dir; eexists; reflexivity).
  pose proof (result_returned_iff_stages_succeed example_env unclassified_core
                "img.jpg" None start_world Hworks) as H.
  cbv zeta in H. split; [exact Hworks|]. apply H.
  exists defect_anomaly. split; [reflexivity|].
  intros _ e. vm_compute. discriminate.
Defined.

Lemma returned_result_bookkeeping_witness :
  exists r,
    fst (process_single_image example_env good_core "img.jpg" None
           start_world) = Ok (Some r) /\
    image_path r = "img.jpg" /\
    tick (snd (process_single_image example_env good_core "img.jpg" None
                 start_world)) = 3.
Proof.
  destruct (fst (process_single_image example_env good_core "img.jpg" None
                   start_world)) as [[r|]|e] eqn:Hrun.
  2,3: vm_compute in Hrun; discriminate.
  pose proof (returned_result_bookkeeping example_env good_core "img.jpg" None
                start_world r Hrun) as H.
  cbv zeta in H. destruct H as (H1 & _ & _ & H4 & _).
  exists r. split; [reflexivity|]. split; [exact H1|exact H4].
Defined.

Lemma batch_summary_counts_add_up_witness :
  exists results summary w',
    process_batch_images example_builtins example_env flaky_core "in" None
      start_world = (Ok (Some (results, summary)), w') /\
    good_products summary + defective_products summary = length results /\
    length results + failed_processing summary = total_images summary.
Proof.
  destruct (process_batch_images example_builtins example_env flaky_core "in"
              None start_world) as [[[[results summary]|]|e] w'] eqn:Hrun.
  2,3: vm_compute in Hrun; discriminate.
  destruct (batch_summary_counts_add_up _ _ _ _ _ _ _ _ _ Hrun)
    as (H1 & _ & _ & H4 & _).
  exists results, summary, w'. split; [reflexivity|]. split; [exact H1|exact H4].
Defined.

Lemma defect_types_found_membership_witness :
  exists results summary w',
    process_batch_images example_builtins example_env flaky_core "in" None
      start_world = (Ok (Some (results, summary)), w') /\
    NoDup (defect_types_found summary).
Proof.
  destruct (process_batch_images example_builtins example_env flaky_core "in"
              None start_world) as [[[[results summary]|]|e] w'] eqn:Hrun.
  2,3: vm_compute in Hrun; discriminate.
  destruct (defect_types_found_membership _ _ _ _ _ _ _ _ _ Hrun) as [H _].
  exists results, summary, w'. split; [reflexivity|exact H].
Defined.

Lemma picture_found_twice_is_processed_twice_witness :
  "*.png" ∈ image_patterns /\
  "in/a.png" ∈ glob_glob one_picture_env (os_path_join "in" ["*.png"]) false /\
  "in/a.png" ∈
    glob_glob one_picture_env (os_path_join "in" ["**"; "*.png"]) true /\
  2 <= length (List.filter (String.eqb "in/a.png")
                 (find_image_files one_picture_env "in")) /\
  length (List.filter (is_detect_of "in/a.png")
            (calls (snd (process_batch_images example_builtins one_picture_env
                           good_core "in" None start_world)))) >= 2.
Proof.
  assert (H1 : "*.png" ∈ image_patterns)
    by (apply (bool_decide_unpack _); vm_compute; exact I).
  assert (H2 : "in/a.png" ∈
               glob_glob one_picture_env (os_path_join "in" ["*.png"]) false)
    by (apply (bool_decide_unpack _); vm_compute; exact I).
  assert (H3 : "in/a.png" ∈
               glob_glob one_picture_env (os_path_join "in" ["**"; "*.png"])
                 true)
    by (apply (bool_decide_unpack _); vm_compute; exact I).
  pose proof (picture_found_twice_is_processed_twice example_builtins
                one_picture_env good_core "in" None start_world "*.png"
                "in/a.png" H1 H2 H3) as H.
  cbv zeta in H. destruct H as (H & Hcalls & _).
  split; [exact H1|]. split; [exact H2|]. split; [exact H3|].
  split; [exact H|]. exact (Hcalls eq_refl).
Defined.

Lemma response_classification_entry_witness :
  exists resp,
    project_response example_builtins unclassified_result_py = Ok resp /\
    py_subscript resp "defect_classification" = Ok PNone.
Proof.
  destruct (project_response example_builtins unclassified_result_py)
    as [resp|e] eqn:Hp; [|vm_compute in Hp; discriminate].
  destruct (response_classification_entry example_builtins
              unclassified_result_py resp PNone Hp eq_refl) as [H _].
  exists resp. split; [reflexivity|]. exact (proj1 (H eq_refl)).
Defined.

Lemma batch_results_carry_positions_witness :
  is_ready (ready_detector flaky_core) = true /\
  exists reply w' results,
    batch_detect example_builtins example_env
      {| detector := Some (ready_detector flaky_core) |}
      (images_request two_images) start_world = (Ok reply, w') /\
    py_subscript (body reply) "results" = Ok (PList results) /\
    StronglySorted Z.lt (image_indices results).
Proof.
  split; [reflexivity|].
  destruct (batch_results_carry_positions example_builtins example_env
              (ready_detector flaky_core) two_images start_world eq_refl)
    as (reply & w' & results & H1 & H2 & _ & _ & H5); [discriminate|].
  exists reply, w', results. split; [exact H1|]. split; [exact H2|exact H5].
Defined.

Lemma batch_detect_without_images_witness :
  is_ready (ready_detector good_core) = true /\
  batch_detect example_builtins example_env
    {| detector := Some (ready_detector good_core) |} no_image start_world =
    (Ok (error_reply "No images provided" 400), start_world) /\
  batch_detect example_builtins example_env
    {| detector := Some (ready_detector good_core) |} bodyless_request
    start_world =
    (Ok (error_reply "415 Unsupported Media Type" 500), start_world).
Proof.
  pose proof (batch_detect_without_images example_builtins example_env
                (ready_detector good_core) no_image start_world eq_refl) as H.
  pose proof (batch_detect_without_images example_builtins example_env
                (ready_detector good_core) bodyless_request start_world
                eq_refl) as H'.
  cbv zeta in H, H'. destruct H as (_ & H & _). destruct H' as (H' & _).
  split; [reflexivity|]. split.
  - apply (H (PDict []) eq_refl). left. reflexivity.
  - exact (H' _ eq_refl).
Defined.

Lemma batch_reply_counts_witness :
  exists reply w',
    batch_detect example_builtins example_env
      {| detector := Some (ready_detector flaky_core) |}
      (images_request two_images) start_world = (Ok reply, w') /\
    status_code reply = 200%Z /\
    exists results summary good,
      py_subscript (body reply) "results" = Ok (PList results) /\
      dict_get "good_products" summary = Some (PInt good) /\
      dict_get "defective_products" summary =
        Some (PInt (Z.of_nat (length results) - good)).
Proof.
  eexists _, _. split; [vm_compute; reflexivity|]. split; [reflexivity|].
  destruct (batch_reply_counts example_builtins example_env
              {| detector := Some (ready_detector flaky_core) |}
              (images_request two_images) start_world _ _
              ltac:(vm_compute; reflexivity) eq_refl)
    as (results & summary & good & H1 & _ & _ & H4 & H5 & _).
  exists results, summary, good.
  split; [exact H1|]. split; [exact H4|exact H5].
Defined.

Lemma detect_image_leaves_no_file_witness :
  file_exists "keep.txt"
    (snd (detect_image example_builtins example_env
            {| detector := Some (ready_detector good_core) |} base64_image
            world_with_file)) = true /\
  file_exists "keep.txt" world_with_file = true.
Proof.
  assert (H : file_exists "keep.txt"
                (snd (detect_image example_builtins example_env
                        {| detector := Some (ready_detector good_core) |}
                        base64_image world_with_file)) = true)
    by (vm_compute; reflexivity).
  split; [exact H|].
  exact (detect_image_leaves_no_file _ _ _ _ _ _ H).
Defined.

Lemma batch_detect_leaves_no_file_witness :
  writes_succeed example_env /\
  file_exists "keep.txt"
    (snd (batch_detect example_builtins example_env
            {| detector := Some (ready_detector flaky_core) |}
            (images_request two_images) world_with_file)) = true /\
  file_exists "keep.txt" world_with_file = true.
Proof.
  assert (Hwrites : writes_succeed example_env) by (intros w p d; reflexivity).
  assert (H : file_exists "keep.txt"
                (snd (batch_detect example_builtins example_env
                        {| detector := Some (ready_detector flaky_core) |}
                        (images_request two_images) world_with_file)) = true)
    by (vm_compute; reflexivity).
  split; [exact Hwrites|]. split; [exact H|].
  exact (batch_detect_leaves_no_file _ _ _ _ _ _ Hwrites H).
Defined.

Lemma undecodable_image_single_and_batch_witness :
  is_ready (ready_detector good_core) = true /\
  detect_image example_builtins example_env
    {| detector := Some (ready_detector good_core) |} truncated_image
    start_world =
    (Raise (mk_exn UnboundLocalError
       "cannot access local variable 'temp_id' where it is not associated with a value"),
     start_world).
Proof.
  pose proof (undecodable_image_single_and_batch example_builtins example_env
                (ready_detector good_core) start_world eq_refl) as H.
  cbv zeta in H. destruct H as [H _].
  split; [reflexivity|].
  exact (H [("image_base64", PStr "data:image/png;base64")]
           (PStr "data:image/png;base64")
           (mk_exn IndexError "list index out of range") eq_refl eq_refl).
Defined.

Lemma constructed_detector_readiness_witness :
  exists self,
    Detector.__init__ example_torch example_env None None None true = Ok self /\
    Detector.image_processor self = Detector.detection_core self /\
    (Detector.is_ready self = true <-> is_Some (Detector.detection_core self)).
Proof.
  destruct (Detector.__init__ example_torch example_env None None None true)
    as [self|e] eqn:Hinit; [|vm_compute in Hinit; discriminate].
  destruct (constructed_detector_readiness example_torch example_env None None
              None true self Hinit) as (_ & _ & Himage & _ & Hready & _).
  exists self. split; [reflexivity|]. split; [exact Himage|exact Hready].
Defined.

Lemma loader_and_detector_device_witness :
  exists self,
    Detector.__init__ example_torch example_env None None (Some "mps") false =
      Ok self /\
    ModelLoader.device (Detector.model_loader self) = "cpu" /\
    Detector.device self = "mps".
Proof.
  destruct (Detector.__init__ example_torch example_env None None (Some "mps")
              false) as [self|e] eqn:Hinit; [|vm_compute in Hinit; discriminate].
  pose proof (loader_and_detector_device example_torch example_env None None
                (Some "mps") false self Hinit) as H.
  cbv zeta in H. destruct H as (_ & _ & H).
  exists self. split; [reflexivity|]. exact (H eq_refl).
Defined.

Lemma detector_invariants_witness :
  exists self,
    @reachable string example_env self /\
    Detector.image_processor self = Detector.detection_core self /\
    Detector.is_ready self = false.
Proof.
  destruct (Detector.__init__ example_torch example_env None None None true)
    as [self|e] eqn:Hinit; [|vm_compute in Hinit; discriminate].
  assert (Hreach : reachable example_env
            (snd (Detector.load_custom_models no_files_torch example_env
                    None None self))).
  { apply reachable_load. by apply (reachable_init example_env example_torch
                                       None None None true). }
  destruct (detector_invariants example_env _ Hreach) as (Himage & _ & _ & Hready).
  eexists. split; [exact Hreach|]. split; [exact Himage|].
  rewrite Hready. vm_compute in Hinit. injection Hinit as <-.
  vm_compute. reflexivity.
Defined.

Lemma defect_chart_matches_summary_witness :
  exists results summary w',
    process_batch_images example_builtins example_env flaky_core "in" None
      start_world = (Ok (Some (results, summary)), w') /\
    map fst (defect_counts results) ≡ₚ defect_types_found summary /\
    NoDup (map fst (defect_counts results)).
Proof.
  destruct (process_batch_images example_builtins example_env flaky_core "in"
              None start_world) as [[[[results summary]|]|e] w'] eqn:Hrun.
  2,3: vm_compute in Hrun; discriminate.
  destruct (defect_chart_matches_summary _ _ _ _ _ _ _ _ _ Hrun)
    as (H1 & H2 & _).
  exists results, summary, w'. split; [reflexivity|]. split; [exact H1|exact H2].
Defined.


(** ** Runs of the further examples *)

(** Inference fails on each of the five pictures: no test passes, and the
    report still says that all tests passed. *)
Example run_all_tests_nothing_passes :
  exists self' w' rate avg results,
    BackendTester.run_all_tests example_builtins example_env
      (Ok (ready_detector failing_core)) (BackendTester.__init__ "out")
      start_world = (Ok (0, self'), w') /\
    BackendTester.test_results self' =
      [("single_image", BackendTester.completed 5 0 rate avg results)] /\
    BackendTester.overall_assessment self' =
      "Status: ALL TESTS PASSED - Backend is fully functional!".
Proof.
  eexists _, _, _, _, _. split; [vm_compute; reflexivity|].
  split; reflexivity.
Qed.

(** A detector that was ready and is reloaded after the model files are
    gone is no longer ready, with its processors still in place. *)
Example reload_without_files :
  exists self self',
    Detector.__init__ example_torch example_env None None None true = Ok self /\
    Detector.is_ready self = true /\
    Detector.load_models no_files_torch example_env self = (Ok false, self') /\
    Detector.is_ready self' = false /\
    Detector.detection_core self' = Some good_core.
Proof.
  eexists _, _. split; [vm_compute; reflexivity|].
  split; [reflexivity|]. split; [vm_compute; reflexivity|].
  split; reflexivity.
Qed.

(** A body with a misspelt key is answered with success and changes
    nothing; a threshold given as a string is taken as it is; a request
    without a JSON body is answered with the 500 of the [except] branch. *)
Example update_thresholds_misspelt_and_untyped :
  forall det : @Detector.t string,
    Api.update_thresholds (Some det)
      {| files_image := None;
         json := Ok (PDict [("anomaly_treshold", PInt 1)]) |}
      (of_thresholds config_thresholds) =
      (mk_reply (PDict [("status", PStr "success");
                        ("message", PStr "Thresholds updated successfully")])
                200,
       of_thresholds config_thresholds) /\
    Main.ANOMALY_THRESHOLD
      (snd (Api.update_thresholds (Some det)
              {| files_image := None;
                 json := Ok (PDict [("anomaly_threshold", PStr "high")]) |}
              (of_thresholds config_thresholds))) = PStr "high" /\
    Api.update_thresholds (Some det) bodyless_request
      (of_thresholds config_thresholds) =
      (error_reply "415 Unsupported Media Type" 500,
       of_thresholds config_thresholds).
Proof. intros det. split; [|split]; reflexivity. Qed.

(** On a disk on which the output folder cannot be made, the batch raises
    before it looks at the pictures: the attempt to make the folder is all
    it has done. *)
Example process_batch_images_read_only :
  process_batch_images example_builtins read_only_env good_core "in" None
    start_world =
    (Raise (mk_exn OSError "[Errno 30] Read-only file system"),
     mk_world 0 [EvMakedirs "outputs/batch"]).
Proof. vm_compute. reflexivity. Qed.

(** A single-detection request with neither a file nor a JSON body: reading
    [request.json] raises inside the [try], and the [except] branch fails on
    [temp_id] as it does for an image that cannot be decoded. *)
Example detect_image_bodyless_request :
  detect_image example_builtins example_env
    {| detector := Some (ready_detector good_core) |} bodyless_request
    start_world =
    (Raise (mk_exn UnboundLocalError
       "cannot access local variable 'temp_id' where it is not associated with a value"),
     start_world).
Proof. reflexivity. Qed.
